(** * JARVIS portable: a shallow embedding of the Python sources

    The development follows the layout of the repository:

    - [PyStr], [PyList], [Py], [DateTime]: the Python primitives the code
      relies on (strings with [lower], [strip], [in] and slicing; lists;
      untyped values, dictionaries and exceptions; [datetime] with
      [isoformat] and [timedelta] days);
    - [Reviewer]:  [agents/reviewer_agent.py];
    - [Brain]:     [core/brain.py] (complexity score, fallback working memory);
    - [Battery]:   [core/battery_manager.py];
    - [Experts]:   the constructor and [start] of the four expert agents;
    - [Sql], [Memory], [Store]: [core/persistent_memory.py] and the
      SQLite statements it executes (LIKE, which reads texts up to their
      first NUL and refuses long patterns, ORDER BY, LIMIT, integers
      bound on 64 bits);
    - [Router], [RouterHistory]: [jarvis_router.py];
    - [BatteryConfig], [Thinking], [ReviewerTask], [Tracker], [Portable]:
      the profiles and runtime estimate of the battery manager, [think]
      and its routes, [execute_task] of the reviewer,
      [core/task_tracker.py] and [start_jarvis.py];
    - [Scenarios], [Cases]: concrete inputs;
    - the modules named [...Facts]: what is proved of each.

    Python [str] values are Rocq strings, one [ascii] per character: the
    model covers ASCII text, on which [str.lower] maps [A-Z] to [a-z] and
    leaves every other character alone.  Python [int] values are [Z],
    sensor percentages are rationals, and a function that may raise
    returns a [Py.result]. *)

From Stdlib Require Import ZArith QArith List String Ascii Lia Bool.
From Stdlib Require Import Sorted OrderedTypeEx DecimalString.
From stdpp Require Import base gmap strings list.
Import ListNotations.

Local Open Scope string_scope.
Local Open Scope list_scope.
Local Open Scope Z_scope.

(* ================================================================== *)
(** * Python strings *)
(* ================================================================== *)

Module PyStr.

(** [len(s)] *)
Definition len (s : string) : Z := Z.of_nat (String.length s).

(** One character of [str.lower()]. *)
Definition lower_char (c : ascii) : ascii :=
  let n := nat_of_ascii c in
  if ((65 <=? n) && (n <=? 90))%nat then ascii_of_nat (n + 32) else c.

(** [s.lower()] *)
Fixpoint lower (s : string) : string :=
  match s with
  | EmptyString => EmptyString
  | String c s' => String (lower_char c) (lower s')
  end.

(** [kw in s]: [kw] occurs in [s] as a contiguous substring. *)
Fixpoint str_in (kw s : string) : bool :=
  String.prefix kw s ||
  match s with
  | EmptyString => false
  | String _ s' => str_in kw s'
  end.

(** Characters removed by [str.strip()] with no argument. *)
Definition is_space (c : ascii) : bool :=
  let n := nat_of_ascii c in
  (((9 <=? n) && (n <=? 13)) || ((28 <=? n) && (n <=? 32)))%nat.

Fixpoint lstrip (s : string) : string :=
  match s with
  | EmptyString => EmptyString
  | String c s' => if is_space c then lstrip s' else s
  end.

Fixpoint rstrip (s : string) : string :=
  match s with
  | EmptyString => EmptyString
  | String c s' =>
      match rstrip s' with
      | EmptyString => if is_space c then EmptyString else String c EmptyString
      | r => String c r
      end
  end.

(** [s.strip()] *)
Definition strip (s : string) : string := rstrip (lstrip s).

(** [s[:n]] for a non-negative constant [n]. *)
Fixpoint slice_to (n : nat) (s : string) : string :=
  match n, s with
  | S n', String c s' => String c (slice_to n' s')
  | _, _ => EmptyString
  end.

(** Truthiness of a string: [if s:] holds when [s] is not empty. *)
Definition truthy (s : string) : bool :=
  match s with EmptyString => false | _ => true end.

(** The double-quote character and the docstring marker made of three. *)
Definition dquote : ascii := ascii_of_nat 34.
Definition triple_quote : string :=
  String dquote (String dquote (String dquote EmptyString)).

End PyStr.

(* ================================================================== *)
(** * Python lists *)
(* ================================================================== *)

Module PyList.

(** [l[:n]] for an arbitrary integer [n]: a negative bound counts from
    the end of the list. *)
Definition slice_to {A} (n : Z) (l : list A) : list A :=
  if 0 <=? n then take (Z.to_nat n) l
  else take (length l - Z.to_nat (- n)) l.

(** [l[-n:]] for a positive constant [n]: the last [n] elements. *)
Definition last_n {A} (n : nat) (l : list A) : list A :=
  drop (length l - n) l.

(** [sum(1 for x in l if f x)] *)
Definition count_if {A} (f : A -> bool) (l : list A) : Z :=
  fold_right Z.add 0 (List.map (fun _ => 1) (List.filter f l)).

End PyList.

(* ================================================================== *)
(** * Python values, exceptions and dictionaries *)
(* ================================================================== *)

Module Py.

(** The values that travel through the untyped parts of the code
    (metadata maps, working-memory records). *)
#[local] Unset Elimination Schemes.
Inductive pyval :=
| VNone
| VBool (b : bool)
| VInt (n : Z)
| VFloat (q : Q)
| VStr (s : string)
| VList (l : list pyval)
| VDict (d : list (string * pyval)).
#[local] Set Elimination Schemes.

(** A dictionary keeps its keys in insertion order. *)
Definition dict := list (string * pyval).

Definition empty_dict : pyval := VDict [].

(** Truthiness, as [if v:] and [v or d] test it. *)
Definition truthy (v : pyval) : bool :=
  match v with
  | VNone => false
  | VBool b => b
  | VInt n => negb (n =? 0)
  | VFloat q => negb (Qeq_bool q 0)
  | VStr s => PyStr.truthy s
  | VList l => match l with [] => false | _ => true end
  | VDict d => match d with [] => false | _ => true end
  end.

(** [v or d] *)
Definition py_or (v d : pyval) : pyval := if truthy v then v else d.

(** [d[k]], when the key is there. *)
Fixpoint dict_get (k : string) (d : dict) : option pyval :=
  match d with
  | [] => None
  | (k', v) :: d' => if String.eqb k k' then Some v else dict_get k d'
  end.

(** [d[k] = v]: an existing key keeps its place, a new key goes last. *)
Fixpoint dict_set (k : string) (v : pyval) (d : dict) : dict :=
  match d with
  | [] => [(k, v)]
  | (k', v') :: d' =>
      if String.eqb k k' then (k, v) :: d' else (k', v') :: dict_set k v d'
  end.

Inductive exn :=
| ValueError (msg : string)
| KeyError (key : string)
| AttributeError
| TypeError
| OverflowError
| RuntimeError (msg : string)
| JSONDecodeError
| OperationalError (msg : string).

(** A computation that returns or raises. *)
Inductive result (A : Type) :=
| Ok (a : A)
| Raise (e : exn).
Arguments Ok {A} a.
Arguments Raise {A} e.

#[global] Instance result_ret : MRet result := @Ok.

#[global] Instance result_bind : MBind result :=
  fun A B k r =>
    match r with
    | Ok a => k a
    | Raise e => Raise e
    end.

End Py.

(* ================================================================== *)
(** * datetime *)
(* ================================================================== *)

Module DateTime.

(** A naive [datetime], as [datetime.now()] returns it. *)
Record datetime := {
  year : Z; month : Z; day : Z;
  hour : Z; minute : Z; second : Z; microsecond : Z
}.

Definition is_leap (y : Z) : bool :=
  (y mod 4 =? 0) && (negb (y mod 100 =? 0) || (y mod 400 =? 0)).

Definition days_in_month (y m : Z) : Z :=
  if m =? 2 then (if is_leap y then 29 else 28)
  else if (m =? 4) || (m =? 6) || (m =? 9) || (m =? 11) then 30
  else 31.

(** The values a [datetime] object can hold. *)
Definition valid (d : datetime) : bool :=
  (1 <=? year d) && (year d <=? 9999)
  && (1 <=? month d) && (month d <=? 12)
  && (1 <=? day d) && (day d <=? days_in_month (year d) (month d))
  && (0 <=? hour d) && (hour d <=? 23)
  && (0 <=? minute d) && (minute d <=? 59)
  && (0 <=? second d) && (second d <=? 59)
  && (0 <=? microsecond d) && (microsecond d <=? 999999).

Definition digit (n : Z) : ascii := ascii_of_nat (48 + Z.to_nat (n mod 10)).

(** [width] decimal digits of [n], zero padded, in front of [rest]. *)
Fixpoint digits (width : nat) (n : Z) (rest : string) : string :=
  match width with
  | O => rest
  | S w => digits w (n / 10) (String (digit n) rest)
  end.

(** [d.isoformat()]: [YYYY-MM-DDTHH:MM:SS], followed by [.ffffff] when
    the microseconds are not zero. *)
Definition isoformat (d : datetime) : string :=
  digits 4 (year d) (String "-"
    (digits 2 (month d) (String "-"
      (digits 2 (day d) (String "T"
        (digits 2 (hour d) (String ":"
          (digits 2 (minute d) (String ":"
            (digits 2 (second d)
              (if microsecond d =? 0 then EmptyString
               else String "." (digits 6 (microsecond d) EmptyString)))))))))))).

(** Reading the format back, as [datetime.fromisoformat] does for the
    strings [isoformat] writes. *)
Definition digit_value (c : ascii) : option Z :=
  let n := nat_of_ascii c in
  if ((48 <=? n) && (n <=? 57))%nat then Some (Z.of_nat (n - 48)) else None.

Fixpoint read_digits (width : nat) (acc : Z) (s : string) : option (Z * string) :=
  match width with
  | O => Some (acc, s)
  | S w =>
      match s with
      | EmptyString => None
      | String c s' =>
          match digit_value c with
          | Some v => read_digits w (acc * 10 + v) s'
          | None => None
          end
      end
  end.

Definition expect (c : ascii) (s : string) : option string :=
  match s with
  | String c' s' => if Ascii.eqb c c' then Some s' else None
  | EmptyString => None
  end.

Definition fromisoformat (s : string) : option datetime :=
  '(y, s) ← read_digits 4 0 s;
  s ← expect "-" s;
  '(mo, s) ← read_digits 2 0 s;
  s ← expect "-" s;
  '(d, s) ← read_digits 2 0 s;
  s ← expect "T" s;
  '(h, s) ← read_digits 2 0 s;
  s ← expect ":" s;
  '(mi, s) ← read_digits 2 0 s;
  s ← expect ":" s;
  '(sec, s) ← read_digits 2 0 s;
  '(us, s) ←
    match s with
    | EmptyString => Some (0, s)
    | _ => s ← expect "." s; read_digits 6 0 s
    end;
  let dt := {| year := y; month := mo; day := d; hour := h;
               minute := mi; second := sec; microsecond := us |} in
  match s with
  | EmptyString => if valid dt then Some dt else None
  | _ => None
  end.

(** Days since 0001-01-01 (the proleptic Gregorian ordinal, less one)
    and back. *)
Definition days_before_year (y : Z) : Z :=
  let y := y - 1 in y * 365 + y / 4 - y / 100 + y / 400.

Fixpoint days_before_month (y : Z) (m : nat) : Z :=
  match m with
  | O => 0
  | S m' => days_before_month y m' + days_in_month y (Z.of_nat m)
  end.

Definition toordinal (d : datetime) : Z :=
  days_before_year (year d)
  + days_before_month (year d) (Z.to_nat (month d) - 1)
  + day d.

Fixpoint month_of_yday (y : Z) (m : nat) (fuel : nat) (n : Z) : Z * Z :=
  match fuel with
  | O => (Z.of_nat m, n)
  | S fuel' =>
      let dim := days_in_month y (Z.of_nat m) in
      if dim <? n then month_of_yday y (S m) fuel' (n - dim)
      else (Z.of_nat m, n)
  end.

Definition fromordinal (n : Z) : Z * Z * Z :=
  let n0 := n - 1 in
  let n400 := n0 / 146097 in let n0 := n0 mod 146097 in
  let n100 := n0 / 36524 in let n0 := n0 mod 36524 in
  let n4 := n0 / 1461 in let n0 := n0 mod 1461 in
  let n1 := n0 / 365 in let n0 := n0 mod 365 in
  let y := n400 * 400 + n100 * 100 + n4 * 4 + n1 + 1 in
  if (n1 =? 4) || (n100 =? 4) then (y - 1, 12, 31)
  else
    let '(m, d) := month_of_yday y 1 11 (n0 + 1) in
    (y, m, d).

(** [d - timedelta(days=n)]: a [timedelta] holds at most 999999999 days,
    and the difference must fall in the years 1 to 9999. *)
Definition minus_days (d : datetime) (n : Z) : Py.result datetime :=
  if (n <? -999999999) || (999999999 <? n) then Py.Raise Py.OverflowError
  else
    let o := toordinal d - n in
    if (o <? 1) || (3652059 <? o) then Py.Raise Py.OverflowError
    else
      let '(y, m, dd) := fromordinal o in
      Py.Ok {| year := y; month := m; day := dd; hour := hour d;
               minute := minute d; second := second d;
               microsecond := microsecond d |}.

End DateTime.
(* ================================================================== *)
(** * agents/reviewer_agent.py *)
(* ================================================================== *)

Module Reviewer.
Import PyStr.

Record review := {
  success : bool;
  score : Z;
  issues : list string;
  suggestions : list string;
  approved : bool
}.

(** The body of [_review_code] up to the [return]: the four checks, each
    appending an issue and lowering the local variable [score]. *)
Definition review_checks (code : string) : list string * Z :=
  let issues : list string := [] in
  let score := 70 in
  let '(issues, score) :=
    if len code <? 10
    then (issues ++ ["Code trop court"], score - 10)
    else (issues, score) in
  let '(issues, score) :=
    if negb (str_in "def" code) && negb (str_in "function" code)
       && negb (str_in "class" code)
    then (issues ++ ["Pas de fonction/classe détectée"], score - 10)
    else (issues, score) in
  let '(issues, score) :=
    if negb (str_in "# " code) && negb (str_in triple_quote code)
    then (issues ++ ["Pas de commentaires/docstrings"], score - 5)
    else (issues, score) in
  let '(issues, score) :=
    if negb (str_in "import" code)
    then (issues ++ ["Pas d'imports détectés"], score - 5)
    else (issues, score) in
  (issues, score).

Definition _review_code (code : string) : review :=
  let '(issues, score) := review_checks code in
  {| success := true;
     score := Z.max 0 score;
     issues := issues;
     suggestions := ["Ajouter des docstrings"; "Ajouter des tests"];
     approved := 60 <=? score |}.

End Reviewer.

(* ================================================================== *)
(** * core/brain.py: complexity score *)
(* ================================================================== *)

Module Brain.
Import PyStr.

Definition complex_kw : list string :=
  ["pourquoi"; "why"; "comment"; "how"; "analyse"; "architecture";
   "implement"; "explain"].

Definition simple_kw : list string :=
  ["bonjour"; "hello"; "what is"; "qui est"].

Definition _evaluate_complexity (prompt : string) : Z :=
  let score := 5 in
  let prompt_lower := lower prompt in
  let score := if 200 <? len prompt then score + 1 else score in
  let score := if 500 <? len prompt then score + 1 else score in
  let score :=
    score + Z.min (PyList.count_if (fun kw => str_in kw prompt_lower) complex_kw) 3 in
  let score :=
    if existsb (fun kw => str_in kw prompt_lower) simple_kw
    then score - 2 else score in
  Z.max 0 (Z.min 10 score).

(** The score as the specification words it, over a given set of complex
    keywords: base 5, length bonuses, one point per present keyword
    capped at 3, the greeting penalty, clamped to 0..10. *)
Definition present (kw prompt : string) : bool := str_in kw (lower prompt).

Definition keyword_points (kws : list string) (prompt : string) : Z :=
  Z.min (Z.of_nat (length (List.filter (fun kw => present kw prompt) kws))) 3.

Definition clamp (lo hi x : Z) : Z :=
  if x <? lo then lo else if hi <? x then hi else x.

Definition spec_complexity (kws : list string) (prompt : string) : Z :=
  clamp 0 10
    (5
     + (if 200 <? len prompt then 1 else 0)
     + (if 500 <? len prompt then 1 else 0)
     + keyword_points kws prompt
     - (if present "hello" prompt || present "bonjour" prompt
           || present "what is" prompt || present "qui est" prompt
        then 2 else 0)).

(** The keyword set as the specification lists it, and as the code has it. *)
Definition claimed_keywords : list string :=
  ["why"; "how"; "analyze"; "architecture"; "implement"; "explain";
   "pourquoi"; "comment"].

Definition code_keywords : list string :=
  ["why"; "how"; "analyse"; "architecture"; "implement"; "explain";
   "pourquoi"; "comment"].

(** ** Working memory *)

(** The brain object: whether the richer memory subsystem is attached
    ([self.memory]), and the fallback map from memory id to record. *)
Record brain := {
  memory : bool;
  working_memory : Py.dict
}.

Definition __init__ (memory_available : bool) : brain :=
  {| memory := memory_available; working_memory := [] |}.

(** [mem[key]] on a working-memory record. *)
Definition subscript (mem : Py.pyval) (key : string) : Py.result Py.pyval :=
  match mem with
  | Py.VDict d =>
      match Py.dict_get key d with
      | Some v => Py.Ok v
      | None => Py.Raise (Py.KeyError key)
      end
  | _ => Py.Raise Py.TypeError
  end.

(** [v.lower()] *)
Definition str_lower (v : Py.pyval) : Py.result string :=
  match v with
  | Py.VStr s => Py.Ok (lower s)
  | _ => Py.Raise Py.AttributeError
  end.

(** [{**mem, "id": mem_id, "score": 1.0}] *)
Definition with_id_and_score (mem_id : string) (mem : Py.pyval)
  : Py.result Py.pyval :=
  match mem with
  | Py.VDict d =>
      Py.Ok (Py.VDict (Py.dict_set "score" (Py.VFloat 1)
                         (Py.dict_set "id" (Py.VStr mem_id) d)))
  | _ => Py.Raise Py.TypeError
  end.

(** [remember].  [memory_id] is the fresh [uuid4] string and [now] the
    clock reading; [delegated] is what [self.memory.remember] answers when
    it is called, [None] when it raises. *)
Definition remember (delegated : option string) (memory_id : string)
    (now : DateTime.datetime) (content importance : string)
    (metadata : Py.pyval) (self : brain) : string * brain :=
  match (if memory self then delegated else None) with
  | Some answer => (answer, self)
  | None =>
      let record :=
        Py.VDict
          [ ("content", Py.VStr content);
            ("importance", Py.VStr importance);
            ("metadata", Py.py_or metadata Py.empty_dict);
            ("timestamp", Py.VStr (DateTime.isoformat now)) ] in
      (memory_id,
       {| memory := memory self;
          working_memory := Py.dict_set memory_id record (working_memory self) |})
  end.

(** The loop of [recall] over [working_memory.items()]. *)
Fixpoint recall_loop (query : string) (items : Py.dict)
    (results : list Py.pyval) : Py.result (list Py.pyval) :=
  match items with
  | [] => Py.Ok results
  | (mem_id, mem) :: items' =>
      content ← subscript mem "content";
      content_lower ← str_lower content;
      if str_in (lower query) content_lower
      then
        found ← with_id_and_score mem_id mem;
        recall_loop query items' (results ++ [found])
      else recall_loop query items' results
  end.

Definition recall (delegated : option (list Py.pyval)) (query : string)
    (limit : Z) (self : brain) : Py.result (list Py.pyval) :=
  match (if memory self then delegated else None) with
  | Some answer => Py.Ok answer
  | None =>
      results ← recall_loop query (working_memory self) [];
      Py.Ok (PyList.slice_to limit results)
  end.

(** A record of the working memory that [recall] can read and that
    matches [query]. *)
Definition matches (query : string) (mem : Py.pyval) : bool :=
  match mem with
  | Py.VDict d =>
      match Py.dict_get "content" d with
      | Some (Py.VStr c) => str_in (lower query) (lower c)
      | _ => false
      end
  | _ => false
  end.

Definition readable (mem : Py.pyval) : bool :=
  match mem with
  | Py.VDict d =>
      match Py.dict_get "content" d with
      | Some (Py.VStr _) => true
      | _ => false
      end
  | _ => false
  end.

Definition matching (query : string) (wm : Py.dict) : list (string * Py.pyval) :=
  List.filter (fun item => matches query (snd item)) wm.

(** What [recall] appends for a matching item. *)
Definition found_record (item : string * Py.pyval) : Py.pyval :=
  match snd item with
  | Py.VDict d =>
      Py.VDict (Py.dict_set "score" (Py.VFloat 1)
                  (Py.dict_set "id" (Py.VStr (fst item)) d))
  | v => v
  end.

End Brain.

(* ================================================================== *)
(** * core/battery_manager.py *)
(* ================================================================== *)

Module Battery.

Inductive ProfileType := PERFORMANCE | BALANCED | ECO | CRITICAL.

Definition profile_eqb (a b : ProfileType) : bool :=
  match a, b with
  | PERFORMANCE, PERFORMANCE | BALANCED, BALANCED
  | ECO, ECO | CRITICAL, CRITICAL => true
  | _, _ => false
  end.

(** What [psutil.sensors_battery()] returns when a battery exists; the
    call returns [None] on a desktop or a virtual machine.  The
    percentage is a rational: the sensor reports fractions of a percent. *)
Record sbattery := {
  percent : Q;
  secsleft : Z;
  power_plugged : bool
}.

Definition sensor := option sbattery.

Definition POWER_TIME_UNLIMITED : Z := -2.

(** The dictionary built by [get_battery_status]. *)
Record status := {
  st_present : bool;
  st_percent : Q;
  st_plugged : bool;
  st_time_left : option Z
}.

Definition get_battery_status (battery : sensor) : status :=
  match battery with
  | None =>
      {| st_present := false; st_percent := 100; st_plugged := true;
         st_time_left := None |}
  | Some b =>
      {| st_present := true;
         st_percent := percent b;
         st_plugged := power_plugged b;
         st_time_left :=
           if negb (secsleft b =? POWER_TIME_UNLIMITED)
           then Some (secsleft b) else None |}
  end.

(** [a > b] on sensor levels. *)
Definition Qgtb (a b : Q) : bool := negb (Qle_bool a b).

(** The body of [get_performance_profile] once the status is read. *)
Definition profile_of_status (st : status) : ProfileType :=
  if st_plugged st then PERFORMANCE
  else if negb (st_present st) then PERFORMANCE
  else
    let level := st_percent st in
    if Qgtb level 80 then PERFORMANCE
    else if Qgtb level 40 then BALANCED
    else if Qgtb level 20 then ECO
    else CRITICAL.

Definition get_performance_profile (battery : sensor) : ProfileType :=
  let status := get_battery_status battery in
  profile_of_status status.

(** One entry of [battery_history]. *)
Record history_entry := {
  h_timestamp : Z;
  h_level : Q;
  h_profile : ProfileType;
  h_plugged : bool
}.

(** The manager object.  Instants ([datetime] values) are counted in
    microseconds, the resolution of [datetime.now()], so that
    [(now - last_check).total_seconds() < check_interval] reads
    [now - last_check < check_interval * 1000000]. *)
Record manager := {
  current_profile : ProfileType;
  last_check : Z;
  check_interval : Z;
  battery_history : list history_entry
}.

Definition __init__ (now : Z) : manager :=
  {| current_profile := PERFORMANCE;
     last_check := now;
     check_interval := 60;
     battery_history := [] |}.

Definition microseconds (seconds : Z) : Z := seconds * 1000000.

(** [check_and_adapt] reads the clock once and the sensor twice: [reading]
    is the one [get_performance_profile] sees, [reading'] the one stored
    in the history entry. *)
Definition check_and_adapt (now : Z) (reading reading' : sensor)
    (self : manager) : bool * manager :=
  if now - last_check self <? microseconds (check_interval self)
  then (false, self)
  else
    let self :=
      {| current_profile := current_profile self;
         last_check := now;
         check_interval := check_interval self;
         battery_history := battery_history self |} in
    let new_profile := get_performance_profile reading in
    if negb (profile_eqb new_profile (current_profile self)) then
      let status := get_battery_status reading' in
      let history :=
        battery_history self ++
        [ {| h_timestamp := now;
             h_level := st_percent status;
             h_profile := new_profile;
             h_plugged := st_plugged status |} ] in
      let history :=
        if (100 <? length history)%nat
        then PyList.last_n 100 history else history in
      (true,
       {| current_profile := new_profile;
          last_check := now;
          check_interval := check_interval self;
          battery_history := history |})
    else (false, self).

(** A call of [check_and_adapt] as the environment determines it, and a
    manager driven through a sequence of calls. *)
Record call := { at_time : Z; reading : sensor; reading' : sensor }.

Definition step (self : manager) (c : call) : manager :=
  snd (check_and_adapt (at_time c) (reading c) (reading' c) self).

Definition run (calls : list call) (self : manager) : manager :=
  fold_left step calls self.

End Battery.
(* ================================================================== *)
(** * agents/*_agent.py: the four expert agents *)
(* ================================================================== *)

Module Experts.

Inductive agent_class :=
| DataEngineerAgent
| BackendExpertAgent
| DevOpsSREAgent
| AIEngineerAgent.

Definition expertise_domains (c : agent_class) : list string :=
  match c with
  | DataEngineerAgent =>
      ["dbt"; "modern_data_stack"; "data_warehousing"; "streaming";
       "data_quality"; "elt_pipelines"; "open_table_formats"]
  | BackendExpertAgent =>
      ["fastapi"; "postgresql"; "neo4j"; "microservices"; "async_python";
       "redis_caching"; "api_design"; "database_optimization"]
  | DevOpsSREAgent =>
      ["kubernetes"; "gitops"; "terraform"; "ci_cd"; "observability";
       "sre_methodology"; "security_policy"]
  | AIEngineerAgent =>
      ["llm_engineering"; "rag_systems"; "autonomous_agents";
       "vector_databases"; "llm_optimization"; "fine_tuning";
       "prompt_engineering"]
  end.

(** An agent object.  [ident] stands for the identity of the Python
    object ([id(agent)]): two references are the same object exactly when
    their [ident] agree. *)
Record agent := {
  ident : nat;
  class_of : agent_class;
  name : string;
  running : bool
}.

(** [start]: marks the agent as running and, the router always passing a
    brain, writes its status record into the brain's working memory. *)
Definition start (now : DateTime.datetime) (a : agent) (b : Brain.brain)
  : agent * Brain.brain :=
  ({| ident := ident a; class_of := class_of a; name := name a;
      running := true |},
   {| Brain.memory := Brain.memory b;
      Brain.working_memory :=
        Py.dict_set (name a +:+ "_status")
          (Py.VDict
             [ ("type", Py.VStr "agent_status");
               ("agent", Py.VStr (name a));
               ("status", Py.VStr "running");
               ("expertise",
                 Py.VList (List.map Py.VStr (expertise_domains (class_of a))));
               ("timestamp", Py.VStr (DateTime.isoformat now)) ])
          (Brain.working_memory b) |}).

End Experts.
(* ================================================================== *)
(** * SQLite as the store uses it *)
(* ================================================================== *)

Module Sql.
Import PyStr.

(** [f] holds of [t] or of one of its suffixes. *)
Fixpoint any_suffix (f : string -> bool) (t : string) : bool :=
  f t ||
  match t with
  | EmptyString => false
  | String _ t' => any_suffix f t'
  end.

(** A text as the C code of SQLite reads it: up to its first NUL
    character. *)
Fixpoint c_string (s : string) : string :=
  match s with
  | EmptyString => EmptyString
  | String c s' =>
      if Ascii.eqb c Ascii.zero then EmptyString else String c (c_string s')
  end.

(** The comparison behind LIKE, on texts without NUL: [%] stands for
    any run of characters, [_] for any single character, every other
    character for itself up to the case of ASCII letters.  The store
    gives no ESCAPE clause. *)
Fixpoint pattern_compare (pattern : string) : string -> bool :=
  match pattern with
  | EmptyString =>
      fun text => match text with EmptyString => true | _ => false end
  | String c pattern' =>
      if Ascii.eqb c "%" then any_suffix (pattern_compare pattern')
      else if Ascii.eqb c "_" then
        fun text =>
          match text with
          | String _ text' => pattern_compare pattern' text'
          | EmptyString => false
          end
      else
        fun text =>
          match text with
          | String d text' =>
              Ascii.eqb (lower_char c) (lower_char d)
              && pattern_compare pattern' text'
          | EmptyString => false
          end
  end.

(** [text LIKE pattern], for a pattern the LIKE function accepts: both
    the pattern and the text are read up to their first NUL. *)
Definition like (pattern text : string) : bool :=
  pattern_compare (c_string pattern) (c_string text).

(** The LIKE function refuses a pattern of more than 50000 bytes
    (SQLITE_MAX_LIKE_PATTERN_LENGTH), whatever the pattern holds. *)
Definition max_like_pattern_length : Z := 50000.

Definition pattern_too_complex (pattern : string) : bool :=
  max_like_pattern_length <? len pattern.

(** Binding a Python [int] to a parameter: SQLite integers have 64 bits. *)
Definition bind_integer (n : Z) : Py.result Z :=
  if (- 2 ^ 63 <=? n) && (n <=? 2 ^ 63 - 1) then Py.Ok n
  else Py.Raise Py.OverflowError.

(** [column LIKE pattern] in a WHERE clause: NULL never matches. *)
Definition like_null (pattern : string) (column : option string) : bool :=
  match column with
  | Some text => like pattern text
  | None => false
  end.

(** [ORDER BY key DESC]: rows come out by descending key, rows with the
    same key in rowid order. *)
Fixpoint insert_desc {A} (key : A -> string) (x : A) (l : list A) : list A :=
  match l with
  | [] => [x]
  | y :: l' =>
      if String.ltb (key x) (key y) then y :: insert_desc key x l'
      else x :: l
  end.

Definition order_by_desc {A} (key : A -> string) (rows : list A) : list A :=
  fold_right (insert_desc key) [] rows.

(** [a] may stand before [b] in a list sorted by descending key. *)
Definition ge_key {A} (key : A -> string) (a b : A) : Prop :=
  String.leb (key b) (key a) = true.

(** [LIMIT n], for a 64-bit integer [n]: a negative [n] is no limit. *)
Definition limit {A} (n : Z) (rows : list A) : list A :=
  if n <? 0 then rows else take (Z.to_nat n) rows.

(** [SELECT ... WHERE <conditions with LIKE ?> ORDER BY key DESC LIMIT ?]
    with [pattern] and [n] bound to the parameters.  The bound limit
    must fit 64 bits; [LIMIT 0] reads no row; otherwise the LIKE function
    is called on the first row read and refuses a long pattern there. *)
Definition select_like {A} (pattern : string) (condition : A -> bool)
    (key : A -> string) (n : Z) (rows : list A) : Py.result (list A) :=
  n ← bind_integer n;
  if n =? 0 then Py.Ok []
  else
    match rows with
    | [] => Py.Ok []
    | _ =>
        if pattern_too_complex pattern
        then Py.Raise (Py.OperationalError "LIKE or GLOB pattern too complex")
        else Py.Ok (limit n (order_by_desc key (List.filter condition rows)))
    end.

End Sql.

(* ================================================================== *)
(** * core/persistent_memory.py *)
(* ================================================================== *)

Module Memory.
Import PyStr.

(** A row of [consultations] and of [tasks]; [created_at], which the
    store fills in and the code never reads, is left out.  Nullable
    columns are options. *)
Record consultation_row := {
  c_id : Z;
  c_agent_name : string;
  c_query : string;
  c_response : string;
  c_importance : string;
  c_metadata : option string;
  c_timestamp : string
}.

Record task_row := {
  t_id : Z;
  t_agent_name : string;
  t_task_type : string;
  t_description : string;
  t_result : option string;
  t_status : string;
  t_metadata : option string;
  t_timestamp : string
}.

(** The database: both tables in rowid order and the AUTOINCREMENT
    counter of each. *)
Record db := {
  consultations : list consultation_row;
  consultations_seq : Z;
  tasks : list task_row;
  tasks_seq : Z
}.

Definition _init_schema : db :=
  {| consultations := []; consultations_seq := 0;
     tasks := []; tasks_seq := 0 |}.

(** The dictionaries [recall_consultations] and [recall_tasks] return. *)
Record consultation := {
  r_id : Z;
  r_agent : string;
  r_query : string;
  r_response : string;
  r_importance : string;
  r_metadata : Py.pyval;
  r_timestamp : string
}.

Record task := {
  k_id : Z;
  k_agent : string;
  k_task_type : string;
  k_description : string;
  k_result : option string;
  k_status : string;
  k_metadata : Py.pyval;
  k_timestamp : string
}.

(** The dictionaries [search] returns.  A key the dictionary does not
    have is [None]; [sr_result] is [Some None] when the key is there and
    holds Python's [None]. *)
Record search_result := {
  sr_type : string;
  sr_agent : string;
  sr_query : option string;
  sr_response : option string;
  sr_task_type : option string;
  sr_description : option string;
  sr_result : option (option string);
  sr_timestamp : string
}.

(** [agent_name = ?] is in the WHERE clause when [if agent_name:] holds,
    that is for a string that is not empty. *)
Definition filter_given (given : option string) (column : string) : bool :=
  match given with
  | Some wanted => if truthy wanted then String.eqb column wanted else true
  | None => true
  end.

(** [timestamp > ?] is in the WHERE clause when [days] is given. *)
Definition after_cutoff (cutoff : option string) (timestamp : string) : bool :=
  match cutoff with
  | Some c => String.ltb c timestamp
  | None => true
  end.

Definition cutoff_of (now : DateTime.datetime) (days : option Z)
  : Py.result (option string) :=
  match days with
  | Some n =>
      d ← DateTime.minus_days now n;
      Py.Ok (Some (DateTime.isoformat d))
  | None => Py.Ok None
  end.

(** The statement [recall_consultations] builds and executes. *)
Definition select_consultations (agent_name : option string)
    (cutoff : option string) (limit : Z) (self : db) : list consultation_row :=
  Sql.limit limit
    (Sql.order_by_desc c_timestamp
       (List.filter
          (fun row => filter_given agent_name (c_agent_name row)
                      && after_cutoff cutoff (c_timestamp row))
          (consultations self))).

(** The statement [recall_tasks] builds and executes. *)
Definition select_tasks (agent_name task_type : option string)
    (cutoff : option string) (limit : Z) (self : db) : list task_row :=
  Sql.limit limit
    (Sql.order_by_desc t_timestamp
       (List.filter
          (fun row => filter_given agent_name (t_agent_name row)
                      && filter_given task_type (t_task_type row)
                      && after_cutoff cutoff (t_timestamp row))
          (tasks self))).

(** [row[:200] + "..."] *)
Definition preview (text : string) : string := slice_to 200 text +:+ "...".

Definition consultation_result (row : consultation_row) : search_result :=
  {| sr_type := "consultation";
     sr_agent := c_agent_name row;
     sr_query := Some (c_query row);
     sr_response := Some (preview (c_response row));
     sr_task_type := None;
     sr_description := None;
     sr_result := None;
     sr_timestamp := c_timestamp row |}.

Definition task_result (row : task_row) : search_result :=
  {| sr_type := "task";
     sr_agent := t_agent_name row;
     sr_query := None;
     sr_response := None;
     sr_task_type := Some (t_task_type row);
     sr_description := Some (t_description row);
     sr_result :=
       Some (match t_result row with
             | Some text => if truthy text then Some (preview text) else None
             | None => None
             end);
     sr_timestamp := t_timestamp row |}.

Definition search (keyword : string) (limit : Z) (self : db)
  : Py.result (list search_result) :=
  let pattern := "%" +:+ keyword +:+ "%" in
  let results : list search_result := [] in
  rows ← Sql.select_like pattern
            (fun row => Sql.like pattern (c_query row)
                        || Sql.like pattern (c_response row))
            c_timestamp limit (consultations self);
  let results := results ++ List.map consultation_result rows in
  rows ← Sql.select_like pattern
            (fun row => Sql.like pattern (t_description row)
                        || Sql.like_null pattern (t_result row))
            t_timestamp limit (tasks self);
  let results := results ++ List.map task_result rows in
  let results := Sql.order_by_desc sr_timestamp results in
  Py.Ok (PyList.slice_to limit results).

(** ** [search] as the specification words it *)

(** Case-insensitive substring match. *)
Definition contains_ci (keyword text : string) : bool :=
  str_in (lower keyword) (lower text).

(** A keyword in which LIKE finds no wildcard. *)
Fixpoint no_wildcard (keyword : string) : bool :=
  match keyword with
  | EmptyString => true
  | String c keyword' =>
      negb (Ascii.eqb c "%") && negb (Ascii.eqb c "_") && no_wildcard keyword'
  end.

(** A text that holds no NUL character. *)
Fixpoint no_nul (text : string) : bool :=
  match text with
  | EmptyString => true
  | String c text' => negb (Ascii.eqb c Ascii.zero) && no_nul text'
  end.

(** A keyword that LIKE reads as it is written: no wildcard, no NUL, and
    short enough for the pattern, two [%] longer, to be accepted. *)
Definition plain_keyword (keyword : string) : bool :=
  no_wildcard keyword && no_nul keyword
  && (len keyword + 2 <=? Sql.max_like_pattern_length).

(** The part of a stored text that is searched: up to its first NUL,
    the whole text when it holds none. *)
Definition searched (text : string) : string := Sql.c_string text.

Definition consultation_matches (keyword : string) (row : consultation_row)
  : bool :=
  contains_ci keyword (searched (c_query row))
  || contains_ci keyword (searched (c_response row)).

Definition task_matches (keyword : string) (row : task_row) : bool :=
  contains_ci keyword (searched (t_description row))
  || match t_result row with
     | Some text => contains_ci keyword (searched text)
     | None => false
     end.

(** The matches of each table newest first and capped at [limit], merged,
    sorted again by descending timestamp and truncated to [limit]. *)
Definition spec_search (keyword : string) (limit : nat) (self : db)
  : list search_result :=
  let found_consultations :=
    take limit
      (Sql.order_by_desc c_timestamp
         (List.filter (consultation_matches keyword) (consultations self))) in
  let found_tasks :=
    take limit
      (Sql.order_by_desc t_timestamp
         (List.filter (task_matches keyword) (tasks self))) in
  take limit
    (Sql.order_by_desc sr_timestamp
       (List.map consultation_result found_consultations
        ++ List.map task_result found_tasks)).

(** [a] does not come before [b] in a list sorted by descending
    timestamp when [a] has the later or the same timestamp. *)
Definition not_older (a b : search_result) : Prop :=
  String.leb (sr_timestamp b) (sr_timestamp a) = true.

(** Where a result of [spec_search] comes from: a row of the table its
    type names, matching the keyword. *)
Definition from_matching_row (keyword : string) (self : db)
    (r : search_result) : Prop :=
  (sr_type r = "consultation"
   /\ exists row, In row (consultations self)
                  /\ consultation_matches keyword row = true
                  /\ r = consultation_result row)
  \/ (sr_type r = "task"
      /\ exists row, In row (tasks self)
                     /\ task_matches keyword row = true
                     /\ r = task_result row).

(** The rows [recall_consultations] selects for [agent]. *)
Definition same_agent (agent : string) (row : consultation_row) : bool :=
  filter_given (Some agent) (c_agent_name row).

(** The consultations of [agent] that a consultation stamped
    [timestamp] and written after them does not come before in
    [ORDER BY timestamp DESC]: those not strictly older. *)
Definition not_before (agent timestamp : string) (row : consultation_row)
  : bool :=
  same_agent agent row && negb (String.ltb (c_timestamp row) timestamp).

Definition rank (agent timestamp : string) (self : db) : Z :=
  Z.of_nat (length (List.filter (not_before agent timestamp)
                      (consultations self))).

(** ** Operations that go through [json] *)

Section Json.
(** [json.dumps] and [json.loads]. *)
Variable json_dumps : Py.pyval -> Py.result string.
Variable json_loads : string -> Py.result Py.pyval.

Definition remember_consultation (now : DateTime.datetime)
    (agent_name query response importance : string)
    (metadata : Py.pyval) (self : db) : Py.result (Z * db) :=
  text ← json_dumps (Py.py_or metadata Py.empty_dict);
  let lastrowid := consultations_seq self + 1 in
  let row :=
    {| c_id := lastrowid;
       c_agent_name := agent_name;
       c_query := query;
       c_response := response;
       c_importance := importance;
       c_metadata := Some text;
       c_timestamp := DateTime.isoformat now |} in
  Py.Ok (lastrowid,
         {| consultations := consultations self ++ [row];
            consultations_seq := lastrowid;
            tasks := tasks self;
            tasks_seq := tasks_seq self |}).

Definition remember_task (now : DateTime.datetime)
    (agent_name task_type description : string) (result : option string)
    (status : string) (metadata : Py.pyval) (self : db)
  : Py.result (Z * db) :=
  text ← json_dumps (Py.py_or metadata Py.empty_dict);
  let lastrowid := tasks_seq self + 1 in
  let row :=
    {| t_id := lastrowid;
       t_agent_name := agent_name;
       t_task_type := task_type;
       t_description := description;
       t_result := result;
       t_status := status;
       t_metadata := Some text;
       t_timestamp := DateTime.isoformat now |} in
  Py.Ok (lastrowid,
         {| consultations := consultations self;
            consultations_seq := consultations_seq self;
            tasks := tasks self ++ [row];
            tasks_seq := lastrowid |}).

(** [json.loads(row["metadata"]) if row["metadata"] else {}] *)
Definition load_metadata (column : option string) : Py.result Py.pyval :=
  match column with
  | Some text => if truthy text then json_loads text else Py.Ok Py.empty_dict
  | None => Py.Ok Py.empty_dict
  end.

(** A metadata column [json.loads] accepts. *)
Definition readable (column : option string) : Prop :=
  exists v, load_metadata column = Py.Ok v.

Definition consultation_of_row (row : consultation_row)
  : Py.result consultation :=
  metadata ← load_metadata (c_metadata row);
  Py.Ok {| r_id := c_id row;
           r_agent := c_agent_name row;
           r_query := c_query row;
           r_response := c_response row;
           r_importance := c_importance row;
           r_metadata := metadata;
           r_timestamp := c_timestamp row |}.

Definition task_of_row (row : task_row) : Py.result task :=
  metadata ← load_metadata (t_metadata row);
  Py.Ok {| k_id := t_id row;
           k_agent := t_agent_name row;
           k_task_type := t_task_type row;
           k_description := t_description row;
           k_result := t_result row;
           k_status := t_status row;
           k_metadata := metadata;
           k_timestamp := t_timestamp row |}.

Definition recall_consultations (now : DateTime.datetime)
    (agent_name : option string) (limit : Z) (days : option Z)
    (self : db) : Py.result (list consultation) :=
  cutoff ← cutoff_of now days;
  limit ← Sql.bind_integer limit;
  mapM consultation_of_row
    (select_consultations agent_name cutoff limit self).

Definition recall_tasks (now : DateTime.datetime)
    (agent_name task_type : option string) (limit : Z) (days : option Z)
    (self : db) : Py.result (list task) :=
  cutoff ← cutoff_of now days;
  limit ← Sql.bind_integer limit;
  mapM task_of_row
    (select_tasks agent_name task_type cutoff limit self).

End Json.

(** The part of [json] that concerns the empty dictionary:
    [json.dumps({})] is the text [{}], which [json.loads] reads back. *)
Definition dumps_empty (v : Py.pyval) : Py.result string :=
  match v with
  | Py.VDict [] => Py.Ok "{}"
  | _ => Py.Raise Py.TypeError
  end.

Definition loads_empty (text : string) : Py.result Py.pyval :=
  if String.eqb text "{}" then Py.Ok Py.empty_dict
  else Py.Raise Py.JSONDecodeError.

End Memory.
(* ================================================================== *)
(** * jarvis_router.py *)
(* ================================================================== *)

Module Router.
Import Experts.

(** The router object.  [agents] is the cache dictionary; [next_ident]
    is the identity the next constructed agent object receives.  The
    persistent memory and the task tracker that [_ensure_initialized]
    hangs on the brain play no part in loading agents and are left out. *)
Record router := {
  brain : option Brain.brain;
  agents : gmap string agent;
  initialized : bool;
  next_ident : nat
}.

Definition __init__ : router :=
  {| brain := None; agents := ∅; initialized := false; next_ident := 0 |}.

(** [memory_available] is the module flag [MEMORY_AVAILABLE] the brain
    constructor consults. *)
Definition _ensure_initialized (memory_available : bool) (self : router)
  : router :=
  if initialized self then self
  else
    {| brain := Some (Brain.__init__ memory_available);
       agents := agents self;
       initialized := true;
       next_ident := next_ident self |}.

(** [x in [a, b, ...]] on strings. *)
Definition in_list (x : string) (l : list string) : bool :=
  existsb (String.eqb x) l.

(** The [if]/[elif] chain of [_load_agent]: the class to construct and
    the name handed to its constructor. *)
Definition agent_for (agent_name : string) : option (agent_class * string) :=
  if in_list agent_name ["dataengineer"; "data"; "data_engineer"]
  then Some (DataEngineerAgent, "DataEngineer")
  else if in_list agent_name ["backend"; "backendexpert"; "backend_expert"]
  then Some (BackendExpertAgent, "BackendExpert")
  else if in_list agent_name ["devops"; "sre"; "devops_sre"]
  then Some (DevOpsSREAgent, "DevOpsSRE")
  else if in_list agent_name ["ai"; "aiengineer"; "ai_engineer"; "llm"]
  then Some (AIEngineerAgent, "AIEngineer")
  else None.

Definition unknown_agent (agent_name : string) : Py.exn :=
  Py.ValueError
    ("Unknown agent: " +:+ agent_name +:+ ". "
     +:+ "Available: dataengineer, backend, devops, ai").

Definition normalize (agent_name : string) : string :=
  PyStr.strip (PyStr.lower agent_name).

(** [_load_agent].  [loop_running] tells whether the caller is inside a
    running event loop, where [asyncio.run] refuses to start the agent:
    [get_history] calls from outside one, [consult_async] from inside. *)
Definition _load_agent (memory_available loop_running : bool)
    (now : DateTime.datetime) (agent_name : string) (self : router)
  : Py.result agent * router :=
  let agent_name := normalize agent_name in
  match agents self !! agent_name with
  | Some cached => (Py.Ok cached, self)
  | None =>
      let self := _ensure_initialized memory_available self in
      match agent_for agent_name with
      | Some (cls, given_name) =>
          let agent :=
            {| ident := next_ident self; class_of := cls;
               name := given_name; running := false |} in
          if loop_running then
            (Py.Raise
               (Py.RuntimeError
                  "asyncio.run() cannot be called from a running event loop"),
             {| brain := brain self;
                agents := agents self;
                initialized := initialized self;
                next_ident := S (next_ident self) |})
          else
            let '(agent, brain') :=
              match brain self with
              | Some b =>
                  let '(agent, b) := start now agent b in (agent, Some b)
              | None => (agent, None)
              end in
            (Py.Ok agent,
             {| brain := brain';
                agents := <[agent_name := agent]> (agents self);
                initialized := initialized self;
                next_ident := S (next_ident self) |})
      | None => (Py.Raise (unknown_agent agent_name), self)
      end
  end.

(** The alias table as the specification gives it: canonical agent,
    the name it carries, and its aliases. *)
Definition alias_sets : list (agent_class * string * list string) :=
  [ (DataEngineerAgent, "DataEngineer", ["dataengineer"; "data"; "data_engineer"]);
    (BackendExpertAgent, "BackendExpert", ["backend"; "backendexpert"; "backend_expert"]);
    (DevOpsSREAgent, "DevOpsSRE", ["devops"; "sre"; "devops_sre"]);
    (AIEngineerAgent, "AIEngineer", ["ai"; "aiengineer"; "ai_engineer"; "llm"]) ].

Definition is_alias (agent_name : string) : bool :=
  existsb (fun set => in_list agent_name (snd set)) alias_sets.

(** What holds of every router the code can build: a cached agent is of
    the class its key selects, was constructed before [next_ident], and
    no two keys share an object. *)
Definition consistent (self : router) : Prop :=
  (forall k a, agents self !! k = Some a ->
               agent_for k = Some (class_of a, name a)
               /\ (ident a < next_ident self)%nat)
  /\ (forall k1 k2 a1 a2,
        agents self !! k1 = Some a1 -> agents self !! k2 = Some a2 ->
        ident a1 = ident a2 -> k1 = k2).

End Router.
(* ================================================================== *)
(** * core/battery_manager.py: configuration, runtime estimate, waiting *)
(* ================================================================== *)

Module BatteryConfig.
Import Battery.

(** The dictionary [get_profile_config] returns. *)
Record config := {
  agents_actifs : Z;
  intelligence : string;
  use_claude_sdk : bool;
  use_ollama : bool;
  cache_ttl : Z;
  monitoring_interval : Z;
  ram_target_mb : Z;
  cpu_limit_percent : Z;
  description : string
}.

Definition configs (profile : ProfileType) : config :=
  match profile with
  | PERFORMANCE =>
      {| agents_actifs := 9;
         intelligence := "hybrid";
         use_claude_sdk := true;
         use_ollama := true;
         cache_ttl := 3600;
         monitoring_interval := 60;
         ram_target_mb := 3000;
         cpu_limit_percent := 80;
         description :=
           "Performance maximale - Tous les agents experts actifs (secteur ou >80%)" |}
  | BALANCED =>
      {| agents_actifs := 5;
         intelligence := "hybrid_prefer_ollama";
         use_claude_sdk := true;
         use_ollama := true;
         cache_ttl := 14400;
         monitoring_interval := 120;
         ram_target_mb := 1500;
         cpu_limit_percent := 50;
         description :=
           "Équilibré - Agents essentiels seulement (40-80% batterie)" |}
  | ECO =>
      {| agents_actifs := 2;
         intelligence := "ollama_only";
         use_claude_sdk := false;
         use_ollama := true;
         cache_ttl := 86400;
         monitoring_interval := 300;
         ram_target_mb := 800;
         cpu_limit_percent := 30;
         description :=
           "Économie d'énergie - Monitoring minimal (20-40% batterie)" |}
  | CRITICAL =>
      {| agents_actifs := 1;
         intelligence := "cache_only";
         use_claude_sdk := false;
         use_ollama := false;
         cache_ttl := 604800;
         monitoring_interval := 600;
         ram_target_mb := 500;
         cpu_limit_percent := 15;
         description :=
           "Critique - Sauvegarde et arrêt automatique (<20% batterie)" |}
  end.

(** [get_profile_config(profile=None)]: [None] stands for the current
    profile of the manager. *)
Definition get_profile_config (profile : option ProfileType) (self : manager)
  : config :=
  let profile :=
    match profile with
    | None => current_profile self
    | Some p => p
    end in
  configs profile.

(** [get_level] and [is_on_power] *)
Definition get_level (battery : sensor) : Q :=
  st_percent (get_battery_status battery).

Definition is_on_power (battery : sensor) : bool :=
  st_plugged (get_battery_status battery).

(** The float [estimate_runtime] returns, kept as the expression that
    computes it: [float('inf')], a division [num / den], or the literal
    [0.0]. *)
Inductive hours :=
| Infinity
| Quotient (num den : Q)
| Zero.

Definition consumption_rates (profile : ProfileType) : Z :=
  match profile with
  | PERFORMANCE => 40
  | BALANCED => 15
  | ECO => 8
  | CRITICAL => 5
  end.

Definition estimate_runtime (battery : sensor) (self : manager) : hours :=
  let status := get_battery_status battery in
  if st_plugged status then Infinity
  else
    match st_time_left status with
    | Some time_left =>
        if 0 <? time_left then Quotient (inject_Z time_left) 3600
        else
          let rate := consumption_rates (current_profile self) in
          if 0 <? rate then Quotient (st_percent status) (inject_Z rate)
          else Zero
    | None =>
        let rate := consumption_rates (current_profile self) in
        if 0 <? rate then Quotient (st_percent status) (inject_Z rate)
        else Zero
    end.

(** [wait_for_power].  [readings i] is what the sensor reads at the poll
    number [i]; the loop sleeps 30 seconds between two polls.  [fuel]
    bounds the number of iterations unfolded; [None] means it ran out. *)
Fixpoint wait_loop (fuel : nat) (polls : nat) (elapsed max_wait : Z)
    (readings : nat -> sensor) : option bool :=
  match fuel with
  | O => None
  | S fuel' =>
      if elapsed <? max_wait then
        if is_on_power (readings polls) then Some true
        else wait_loop fuel' (S polls) (elapsed + 30) max_wait readings
      else Some false
  end.

Definition wait_for_power (fuel : nat) (max_wait : Z)
    (readings : nat -> sensor) : option bool :=
  let elapsed := 0 in
  wait_loop fuel 0 elapsed max_wait readings.

(** The order of the profiles, from the most frugal to the most generous. *)
Definition rank (profile : ProfileType) : Z :=
  match profile with
  | CRITICAL => 0
  | ECO => 1
  | BALANCED => 2
  | PERFORMANCE => 3
  end.

(** [R] holds of every two consecutive elements of a list. *)
Fixpoint adjacent {A} (R : A -> A -> Prop) (l : list A) : Prop :=
  match l with
  | [] => True
  | x :: rest =>
      match rest with
      | [] => True
      | y :: _ => R x y
      end /\ adjacent R rest
  end.

(** Two consecutive history entries are at least [gap] microseconds
    apart, the later one last. *)
Definition spaced (gap : Z) (history : list history_entry) : Prop :=
  adjacent (fun e e' => h_timestamp e + gap <= h_timestamp e') history.

(** Two consecutive history entries record different profiles. *)
Definition alternating (history : list history_entry) : Prop :=
  adjacent (fun e e' => h_profile e <> h_profile e') history.

(** The profile the manager is in, as its history tells it: the profile
    of the last entry, PERFORMANCE when nothing was recorded. *)
Definition recorded_profile (history : list history_entry) : ProfileType :=
  match last (List.map h_profile history) with
  | Some p => p
  | None => PERFORMANCE
  end.

(** What every manager reached from [__init__ t0] satisfies. *)
Record sound (t0 : Z) (self : manager) : Prop := {
  sound_interval : check_interval self = 60;
  sound_start : t0 <= last_check self;
  sound_alternating : alternating (battery_history self);
  sound_profile : recorded_profile (battery_history self) = current_profile self;
  sound_spaced : spaced (microseconds 60) (battery_history self);
  sound_window :
    Forall (fun e => t0 + microseconds 60 <= h_timestamp e <= last_check self)
      (battery_history self)
}.

End BatteryConfig.
(* ================================================================== *)
(** * core/brain.py: routing of [think] *)
(* ================================================================== *)

Module Thinking.
Import PyStr Brain.

(** The line feed, and [str(n)] for an integer. *)
Definition nl : string := String (ascii_of_nat 10) EmptyString.

Definition str_of_int (n : Z) : string := NilZero.string_of_int (Z.to_int n).

(** [sep.join(parts)] *)
Fixpoint join (sep : string) (parts : list string) : string :=
  match parts with
  | [] => EmptyString
  | [part] => part
  | part :: parts' => part +:+ sep +:+ join sep parts'
  end.

(** [c.get('content', '')[:n]] for an item [c] of the context: only a
    dictionary has [get]; a string and a list can be sliced, any other
    content raises (the interpreter at hand is Python 3.11, where a
    slice is no key of a dictionary). *)
Definition content_slice (n : nat) (c : Py.pyval) : Py.result Py.pyval :=
  match c with
  | Py.VDict d =>
      match default (Py.VStr EmptyString) (Py.dict_get "content" d) with
      | Py.VStr s => Py.Ok (Py.VStr (slice_to n s))
      | Py.VList l => Py.Ok (Py.VList (take n l))
      | _ => Py.Raise Py.TypeError
      end
  | _ => Py.Raise Py.AttributeError
  end.

(** [sep.join(items)] raises on an item that is no string. *)
Definition as_str (v : Py.pyval) : Py.result string :=
  match v with
  | Py.VStr s => Py.Ok s
  | _ => Py.Raise Py.TypeError
  end.

(** The context [think] is given: [None] or a list.  What
    [_think_with_claude_sdk] reads of it before its [try]: the slices of
    the first three items, which it then formats into the prompt. *)
Definition claude_context (context : option (list Py.pyval))
  : Py.result (list Py.pyval) :=
  match context with
  | Some ((_ :: _) as items) => mapM (content_slice 150) (take 3 items)
  | _ => Py.Ok []
  end.

(** The context text [_think_with_ollama] builds before its [try]. *)
Definition ollama_context (context : option (list Py.pyval))
  : Py.result string :=
  match context with
  | Some ((_ :: _) as items) =>
      items ← mapM (content_slice 100) (take 3 items);
      items ← mapM as_str items;
      Py.Ok (join " | " items)
  | _ => Py.Ok EmptyString
  end.

Definition _think_local (prompt : string)
    (context : option (list Py.pyval)) : string :=
  "**Question:** " +:+ prompt +:+ nl +:+ nl
  +:+ "**Status:** Limited mode (no API available)" +:+ nl
  +:+ "**Suggestion:** Configure Claude Code SDK or Ollama API".

(** [_think_with_ollama].  [ollama] is the content of the answer the
    HTTP request brings back, [None] when the request or the reading of
    its answer raises. *)
Definition _think_with_ollama (ollama : option string) (prompt : string)
    (context : option (list Py.pyval)) : Py.result string :=
  context_text ← ollama_context context;
  match ollama with
  | Some content => Py.Ok content
  | None => Py.Ok (_think_local prompt context)
  end.

(** [_think_with_claude_sdk].  [claude] is the list of the [str(msg.content)]
    of the messages the SDK streams, [None] when the stream raises. *)
Definition _think_with_claude_sdk (ollama_available : bool)
    (claude : option (list string)) (ollama : option string)
    (prompt : string) (context : option (list Py.pyval))
  : Py.result string :=
  context_items ← claude_context context;
  match claude with
  | Some messages =>
      match messages with
      | [] => Py.Ok "No response from Claude SDK"
      | _ => Py.Ok (join nl messages)
      end
  | None =>
      if ollama_available then _think_with_ollama ollama prompt context
      else Py.Ok (_think_local prompt context)
  end.

(** [think]: the two availability flags are attributes of the brain. *)
Definition think (claude_sdk_available ollama_available : bool)
    (claude : option (list string)) (ollama : option string)
    (prompt : string) (context : option (list Py.pyval))
  : Py.result string :=
  let complexity := _evaluate_complexity prompt in
  if (7 <=? complexity) && claude_sdk_available
  then _think_with_claude_sdk ollama_available claude ollama prompt context
  else if ollama_available then _think_with_ollama ollama prompt context
  else Py.Ok (_think_local prompt context).

(** A context both prompt builders accept: each of its first three
    items is a dictionary whose [content], when it has one, is a
    string. *)
Definition item_ok (c : Py.pyval) : bool :=
  match c with
  | Py.VDict d =>
      match Py.dict_get "content" d with
      | Some (Py.VStr _) | None => true
      | Some _ => false
      end
  | _ => false
  end.

Definition usable (context : option (list Py.pyval)) : bool :=
  match context with
  | Some items => forallb item_ok (take 3 items)
  | None => true
  end.

(** [get_status]: the entries that depend on the brain. *)
Definition mode (claude_sdk_available ollama_available : bool) : string :=
  if claude_sdk_available && ollama_available then "hybrid" else "limited".

Definition working_memory_size (self : brain) : Z :=
  Z.of_nat (length (working_memory self)).

(** A sequence of [remember] calls in fallback mode: memory id, clock,
    content, importance and metadata of each. *)
Definition remembered := (string * DateTime.datetime * string * string * Py.pyval)%type.

Definition remember_all (calls : list remembered) (self : brain) : brain :=
  fold_left
    (fun b '(memory_id, now, content, importance, metadata) =>
       snd (remember None memory_id now content importance metadata b))
    calls self.

End Thinking.

(* ================================================================== *)
(** * agents/reviewer_agent.py: [execute_task] *)
(* ================================================================== *)

Module ReviewerTask.
Import PyStr Reviewer.

(** The reviewer object: its name, the brain it was given, if any, and
    its counter. *)
Record reviewer := {
  name : string;
  brain : option Brain.brain;
  reviews_completed : Z
}.

Definition __init__ (name : string) (brain : option Brain.brain) : reviewer :=
  {| name := name; brain := brain; reviews_completed := 0 |}.

(** The task dictionary: a key that is absent is [None]. *)
Record task := {
  code : option string;
  description : option string
}.

(** [d.get(key, default)] *)
Definition get_default (value : option string) (default : string) : string :=
  match value with
  | Some v => v
  | None => default
  end.

(** [execute_task].  [memory_id], [now] and [delegated] are what the
    call of [brain.remember] consumes. *)
Definition execute_task (delegated : option string) (memory_id : string)
    (now : DateTime.datetime) (task : task) (self : reviewer)
  : review * reviewer :=
  let code := get_default (code task) "" in
  let description := get_default (description task) "Code review" in
  let result := _review_code code in
  let brain :=
    match brain self with
    | Some b =>
        if success result then
          Some (snd (Brain.remember delegated memory_id now
                       ("Code review: " +:+ description +:+ Thinking.nl
                        +:+ "Score: " +:+ Thinking.str_of_int (score result)
                        +:+ "/100")
                       "normal"
                       (Py.VDict
                          [ ("agent", Py.VStr (name self));
                            ("task_type", Py.VStr "code_review");
                            ("score", Py.VInt (score result)) ])
                       b))
        else Some b
    | None => None
    end in
  (result,
   {| name := name self; brain := brain;
      reviews_completed := reviews_completed self + 1 |}).

(** The points an issue costs. *)
Definition deduction (issue : string) : Z :=
  if String.eqb issue "Code trop court" then 10
  else if String.eqb issue "Pas de fonction/classe détectée" then 10
  else if String.eqb issue "Pas de commentaires/docstrings" then 5
  else if String.eqb issue "Pas d'imports détectés" then 5
  else 0.

Definition deductions (issues : list string) : Z :=
  fold_right Z.add 0 (List.map deduction issues).

(** Character classes that tell the markers of [_review_code] apart:
    the letters of [import]; the other letters of [def], [function] and
    [class]; the characters of the comment markers. *)
Definition in_import (c : ascii) : bool :=
  existsb (Ascii.eqb c) ["i"; "m"; "p"; "o"; "r"; "t"]%char.

Definition in_construct (c : ascii) : bool :=
  existsb (Ascii.eqb c) ["d"; "e"; "f"; "u"; "n"; "c"; "l"; "a"; "s"]%char.

Definition in_comment (c : ascii) : bool :=
  existsb (Ascii.eqb c) ["#"; " "; dquote]%char.

(** The number of characters of [s] that [p] accepts. *)
Fixpoint count_chars (p : ascii -> bool) (s : string) : nat :=
  match s with
  | EmptyString => O
  | String c s' => (if p c then 1 else 0) + count_chars p s'
  end.

End ReviewerTask.
(* ================================================================== *)
(** * core/persistent_memory.py: statistics, sequences of writes *)
(* ================================================================== *)

Module Store.
Import PyStr Memory.

(** Which of two [datetime] values is the earlier: the comparison
    Python makes, field by field from the year down. *)
Definition then_compare (c : comparison) (next : comparison) : comparison :=
  match c with
  | Eq => next
  | _ => c
  end.

Definition chrono_compare (a b : DateTime.datetime) : comparison :=
  then_compare (DateTime.year a ?= DateTime.year b)
    (then_compare (DateTime.month a ?= DateTime.month b)
       (then_compare (DateTime.day a ?= DateTime.day b)
          (then_compare (DateTime.hour a ?= DateTime.hour b)
             (then_compare (DateTime.minute a ?= DateTime.minute b)
                (then_compare (DateTime.second a ?= DateTime.second b)
                   (DateTime.microsecond a ?= DateTime.microsecond b)))))).

(** [MAX(timestamp)] over text: the greatest string, NULL on no row. *)
Definition max_text (timestamps : list string) : option string :=
  fold_right
    (fun t best =>
       match best with
       | Some b => if String.ltb b t then Some t else Some b
       | None => Some t
       end)
    None timestamps.

(** The dictionary [get_stats] returns.  The statement that collects the
    agent names (DISTINCT over a UNION) fixes no order: they are a set. *)
Record stats := {
  consultations_count : Z;
  tasks_count : Z;
  total_memories : Z;
  agents : gset string;
  last_activity : option string
}.

Definition get_stats (self : db) : stats :=
  let consultations_count := Z.of_nat (length (consultations self)) in
  let tasks_count := Z.of_nat (length (tasks self)) in
  let agents : gset string :=
    list_to_set (List.map c_agent_name (consultations self)
                 ++ List.map t_agent_name (tasks self)) in
  let last_activity :=
    max_text (List.map c_timestamp (consultations self)
              ++ List.map t_timestamp (tasks self)) in
  {| consultations_count := consultations_count;
     tasks_count := tasks_count;
     total_memories := consultations_count + tasks_count;
     agents := agents;
     last_activity := last_activity |}.

(** A call of one of the two writing operations, with its clock. *)
Inductive write :=
| Consultation (now : DateTime.datetime)
    (agent_name query response importance : string) (metadata : Py.pyval)
| Task (now : DateTime.datetime)
    (agent_name task_type description : string) (result : option string)
    (status : string) (metadata : Py.pyval).

Definition clock_of (w : write) : DateTime.datetime :=
  match w with
  | Consultation now _ _ _ _ _ => now
  | Task now _ _ _ _ _ _ => now
  end.

Definition metadata_of (w : write) : Py.pyval :=
  match w with
  | Consultation _ _ _ _ _ metadata => metadata
  | Task _ _ _ _ _ _ metadata => metadata
  end.

Section Writes.
Variable json_dumps : Py.pyval -> Py.result string.

(** A write stores its row when [json.dumps] accepts the metadata. *)
Definition stored (w : write) : bool :=
  match json_dumps (Py.py_or (metadata_of w) Py.empty_dict) with
  | Py.Ok _ => true
  | Py.Raise _ => false
  end.

(** The store after a write; a write that raises leaves it as it was. *)
Definition apply_write (self : db) (w : write) : db :=
  match w with
  | Consultation now agent_name query response importance metadata =>
      match remember_consultation json_dumps now agent_name query response
              importance metadata self with
      | Py.Ok (_, self') => self'
      | Py.Raise _ => self
      end
  | Task now agent_name task_type description result status metadata =>
      match remember_task json_dumps now agent_name task_type description
              result status metadata self with
      | Py.Ok (_, self') => self'
      | Py.Raise _ => self
      end
  end.

Definition apply_writes (writes : list write) (self : db) : db :=
  fold_left apply_write writes self.

End Writes.

(** The identifiers 1, 2, ..., [n]. *)
Definition ids_up_to (n : nat) : list Z := List.map Z.of_nat (seq 1 n).

(** The rows [recall_tasks] selects for an agent and a type. *)
Definition same_agent_and_type (agent task_type : option string)
    (row : task_row) : bool :=
  filter_given agent (t_agent_name row)
  && filter_given task_type (t_task_type row).

(** A record [recall_consultations] returns for a row of the table. *)
Definition record_of (r : consultation) (row : consultation_row) : Prop :=
  r_id r = c_id row /\ r_agent r = c_agent_name row
  /\ r_query r = c_query row /\ r_response r = c_response row
  /\ r_importance r = c_importance row /\ r_timestamp r = c_timestamp row.

(** A record [recall_tasks] returns for a row of the table. *)
Definition task_record_of (k : task) (row : task_row) : Prop :=
  k_id k = t_id row /\ k_agent k = t_agent_name row
  /\ k_task_type k = t_task_type row /\ k_description k = t_description row
  /\ k_result k = t_result row /\ k_status k = t_status row
  /\ k_timestamp k = t_timestamp row.

(** Every timestamp of the store. *)
Definition timestamps (self : db) : list string :=
  List.map c_timestamp (consultations self)
  ++ List.map t_timestamp (tasks self).

(** [a] is not listed after a newer [b]. *)
Definition newest_first (a b : task) : Prop :=
  String.leb (k_timestamp b) (k_timestamp a) = true.

End Store.
(* ================================================================== *)
(** * core/task_tracker.py *)
(* ================================================================== *)

Module Tracker.
Import PyStr Memory.

(** A dictionary of counters, its keys in insertion order. *)
Definition counts := list (string * Z).

(** [d.get(key, default)] *)
Fixpoint get (key : string) (default : Z) (d : counts) : Z :=
  match d with
  | [] => default
  | (k, v) :: d' => if String.eqb k key then v else get key default d'
  end.

(** [d[key] = v] *)
Fixpoint set_item (key : string) (v : Z) (d : counts) : counts :=
  match d with
  | [] => [(key, v)]
  | (k, v0) :: d' =>
      if String.eqb k key then (k, v) :: d' else (k, v0) :: set_item key v d'
  end.

(** [d[key] = d.get(key, 0) + 1] *)
Definition count_up (key : string) (d : counts) : counts :=
  set_item key (get key 0 d + 1) d.

(** One turn of a loop that counts the elements by [field]. *)
Definition tally_step {A} (field : A -> string) (d : counts) (x : A) : counts :=
  count_up (field x) d.

(** [sum(d.values())] *)
Definition total (d : counts) : Z :=
  fold_right Z.add 0 (List.map snd d).

(** [sorted(l, key=key, reverse=True)] and [l.sort(key=key, reverse=True)]:
    by descending key, elements of equal key in their former order. *)
Fixpoint insert_desc {A} (key : A -> Z) (x : A) (l : list A) : list A :=
  match l with
  | [] => [x]
  | y :: l' => if key x <? key y then y :: insert_desc key x l' else x :: l
  end.

Definition sorted_desc {A} (key : A -> Z) (l : list A) : list A :=
  fold_right (insert_desc key) [] l.

(** ** [_extract_keywords] *)

(** [\w] on the characters of the model: letters, digits, underscore. *)
Definition is_word_char (c : ascii) : bool :=
  let n := nat_of_ascii c in
  (((48 <=? n) && (n <=? 57)) || ((65 <=? n) && (n <=? 90))
   || ((97 <=? n) && (n <=? 122)) || (n =? 95))%nat.

(** [re.findall(r'\b\w+\b', text)]: the maximal runs of word characters,
    from left to right.  [current] is the run being read. *)
Fixpoint findall_words (current text : string) : list string :=
  match text with
  | EmptyString => if truthy current then [current] else []
  | String c text' =>
      if is_word_char c
      then findall_words (current +:+ String c EmptyString) text'
      else (if truthy current then [current] else [])
           ++ findall_words EmptyString text'
  end.

Definition stop_words : list string :=
  [ "the"; "a"; "an"; "and"; "or"; "but"; "in"; "on"; "at"; "to"; "for";
    "of"; "with"; "by"; "from"; "up"; "about"; "into"; "through"; "during";
    "is"; "are"; "was"; "were"; "be"; "been"; "being"; "have"; "has"; "had";
    "do"; "does"; "did"; "will"; "would"; "should"; "could"; "can"; "may";
    "mon"; "ma"; "mes"; "le"; "la"; "les"; "un"; "une"; "des"; "de"; "du";
    "et"; "ou"; "mais"; "pour"; "dans"; "sur"; "avec"; "par"; "que"; "qui";
    "comment"; "quoi" ].

(** The words kept as keywords. *)
Definition is_keyword (min_length : Z) (w : string) : bool :=
  (min_length <=? len w) && negb (existsb (String.eqb w) stop_words).

(** [list(set(keywords))] fixes no order: the keywords are a set. *)
Definition _extract_keywords (text : string) (min_length : Z) : gset string :=
  let words := findall_words EmptyString (lower text) in
  list_to_set (List.filter (is_keyword min_length) words).

(** ** Reading the clock several times *)

(** A computation that reads [datetime.now()] any number of times and
    returns or raises: it is given the number of readings made so far
    and returns the number made at its end. *)
Definition timed (A : Type) : Type := nat -> Py.result (A * nat).

#[global] Instance timed_ret : MRet timed := fun A a n => Py.Ok (a, n).

#[global] Instance timed_bind : MBind timed :=
  fun A B k m n =>
    match m n with
    | Py.Ok (a, n') => k a n'
    | Py.Raise e => Py.Raise e
    end.

(** [datetime.now()], where [clock k] is what reading number [k] gives. *)
Definition now (clock : nat -> DateTime.datetime) : timed DateTime.datetime :=
  fun n => Py.Ok (clock n, S n).

Definition lift {A} (r : Py.result A) : timed A :=
  fun n =>
    match r with
    | Py.Ok a => Py.Ok (a, n)
    | Py.Raise e => Py.Raise e
    end.

(** [(now - datetime.fromisoformat(timestamp)).days]: the days of a
    [timedelta] are the whole days, rounded down.  (The message of the
    error quotes the text the way [repr] quotes a text that holds no
    quote and no escape.) *)
Definition day_microseconds (d : DateTime.datetime) : Z :=
  ((DateTime.hour d * 60 + DateTime.minute d) * 60 + DateTime.second d)
  * 1000000 + DateTime.microsecond d.

Definition age_days (now : DateTime.datetime) (timestamp : string)
  : Py.result Z :=
  match DateTime.fromisoformat timestamp with
  | Some t =>
      Py.Ok (DateTime.toordinal now - DateTime.toordinal t
             + (day_microseconds now - day_microseconds t) / 86400000000)
  | None =>
      Py.Raise (Py.ValueError
                  ("Invalid isoformat string: '" +:+ timestamp +:+ "'"))
  end.

(** The dictionary [get_recent_activity] returns. *)
Record activity := {
  total_tasks : Z;
  by_agent : counts;
  by_type : counts;
  recent_tasks : list task
}.

(** [(task['description'] + " " + (task['result'] or "")).lower()] *)
Definition text_of (task : task) : string :=
  lower (k_description task +:+ " "
         +:+ match k_result task with
             | Some result => if truthy result then result else EmptyString
             | None => EmptyString
             end).

(** [keyword.lower() in text] *)
Definition mentions (text keyword : string) : bool :=
  str_in (lower keyword) text.

(** The lines [get_context] writes for a consultation and for a task. *)
Definition consultation_item (i age : Z) (c : consultation) : string :=
  "[" +:+ Thinking.str_of_int i +:+ "] Il y a " +:+ Thinking.str_of_int age
  +:+ " jours:" +:+ Thinking.nl
  +:+ "    Q: " +:+ r_query c +:+ Thinking.nl
  +:+ "    R: " +:+ slice_to 150 (r_response c) +:+ "...".

Definition task_item (i age : Z) (task : task) : string :=
  "[" +:+ Thinking.str_of_int i +:+ "] Il y a " +:+ Thinking.str_of_int age
  +:+ " jours - " +:+ k_task_type task +:+ ":" +:+ Thinking.nl
  +:+ "    " +:+ k_description task +:+ Thinking.nl
  +:+ "    Resultat: "
  +:+ slice_to 150
        (match k_result task with
         | Some result => if truthy result then result else "N/A"
         | None => "N/A"
         end)
  +:+ "...".

Definition first_consultation : string :=
  "Premiere consultation avec cet agent".

Definition most_common_line (top_type : string) (count : Z) : string :=
  "Tu as deja fait " +:+ Thinking.str_of_int count +:+ " taches de type '"
  +:+ top_type +:+ "' avec cet agent".

Definition similar_done : string :=
  "Attention: Une tache similaire a ete faite recemment (voir contexte ci-dessus)".

Definition no_context : string := "[Pas de contexte anterieur trouve]".

Section Json.
Variable json_dumps : Py.pyval -> Py.result string.
Variable json_loads : string -> Py.result Py.pyval.

Definition log_task (now : DateTime.datetime)
    (agent_name task_type description : string) (result : option string)
    (status : string) (metadata : Py.pyval) (self : db)
  : Py.result (Z * db) :=
  remember_task json_dumps now agent_name task_type description result
    status metadata self.

Definition has_done_before (now : DateTime.datetime) (agent_name : string)
    (keywords : list string) (days : Z) (self : db) : Py.result bool :=
  tasks ← recall_tasks json_loads now (Some agent_name) None 50 (Some days)
            self;
  Py.Ok (existsb
           (fun task => existsb (mentions (text_of task)) keywords)
           tasks).

Definition get_task_history (now : DateTime.datetime)
    (agent_name task_type : option string) (days : Z) (self : db)
  : Py.result (list task) :=
  recall_tasks json_loads now agent_name task_type 50 (Some days) self.

Definition get_recent_activity (now : DateTime.datetime) (days : Z)
    (self : db) : Py.result activity :=
  tasks ← recall_tasks json_loads now None None 100 (Some days) self;
  let '(by_agent, by_type) :=
    fold_left
      (fun '(by_agent, by_type) task =>
         (count_up (k_agent task) by_agent,
          count_up (k_task_type task) by_type))
      tasks ([], []) in
  Py.Ok {| total_tasks := Z.of_nat (length tasks);
           by_agent := by_agent;
           by_type := by_type;
           recent_tasks := take 10 tasks |}.

(** [_get_suggestions] reads the clock once, and once more when it asks
    [has_done_before]. *)
Definition _get_suggestions (clock : nat -> DateTime.datetime)
    (agent_name query : string) (self : db) : timed (list string) :=
  let suggestions : list string := [] in
  t ← now clock;
  tasks ← lift (recall_tasks json_loads t (Some agent_name) None 50
                  (Some 90) self);
  match tasks with
  | [] => mret (suggestions ++ [first_consultation])
  | _ =>
      let task_types :=
        fold_left (fun task_types task => count_up (k_task_type task) task_types)
          tasks [] in
      let common_types := sorted_desc snd task_types in
      let suggestions :=
        match common_types with
        | (top_type, count) :: _ =>
            suggestions ++ [most_common_line top_type count]
        | [] => suggestions
        end in
      let keywords := elements (_extract_keywords query 4) in
      match keywords with
      | [] => mret suggestions
      | _ =>
          t ← now clock;
          done ← lift (has_done_before t agent_name keywords 14 self);
          mret (if done : bool then suggestions ++ [similar_done]
                else suggestions)
      end
  end.

(** The loops of [get_context] over the consultations and over the
    similar tasks, numbered from [i]; each turn reads the clock. *)
Fixpoint consultation_items (clock : nat -> DateTime.datetime) (i : Z)
    (l : list consultation) : timed (list string) :=
  match l with
  | [] => mret []
  | c :: l' =>
      t ← now clock;
      age ← lift (age_days t (r_timestamp c));
      rest ← consultation_items clock (i + 1) l';
      mret (consultation_item i age c :: rest)
  end.

Fixpoint task_items (clock : nat -> DateTime.datetime) (i : Z)
    (l : list (Z * task)) : timed (list string) :=
  match l with
  | [] => mret []
  | (matches, task) :: l' =>
      t ← now clock;
      age ← lift (age_days t (k_timestamp task));
      rest ← task_items clock (i + 1) l';
      mret (task_item i age task :: rest)
  end.

Definition get_context (clock : nat -> DateTime.datetime)
    (agent_name query : string) (max_items : Z) (self : db) : timed string :=
  let context_parts : list string := [] in
  t ← now clock;
  recent_consultations ←
    lift (recall_consultations json_loads t (Some agent_name) max_items
            (Some 14) self);
  context_parts ←
    match recent_consultations with
    | [] => mret context_parts
    | _ =>
        items ← consultation_items clock 1
                  (PyList.slice_to max_items recent_consultations);
        mret (context_parts ++ ["=== CONSULTATIONS RECENTES ==="] ++ items)
    end;
  let keywords := elements (_extract_keywords query 4) in
  context_parts ←
    match keywords with
    | [] => mret context_parts
    | _ =>
        t ← now clock;
        all_tasks ←
          lift (recall_tasks json_loads t (Some agent_name) None 20
                  (Some 30) self);
        let similar_tasks :=
          flat_map
            (fun task =>
               let matches :=
                 PyList.count_if (mentions (text_of task)) keywords in
               if 0 <? matches then [(matches, task)] else [])
            all_tasks in
        let similar_tasks := sorted_desc fst similar_tasks in
        match similar_tasks with
        | [] => mret context_parts
        | _ =>
            items ← task_items clock 1
                      (PyList.slice_to max_items similar_tasks);
            mret (context_parts
                  ++ [Thinking.nl +:+ "=== TACHES SIMILAIRES PASSEES ==="]
                  ++ items)
        end
    end;
  suggestions ← _get_suggestions clock agent_name query self;
  let context_parts :=
    match suggestions with
    | [] => context_parts
    | _ =>
        context_parts ++ [Thinking.nl +:+ "=== SUGGESTIONS ==="]
        ++ List.map (fun s => "- " +:+ s) suggestions
    end in
  match context_parts with
  | [] => mret no_context
  | _ => mret (Thinking.join Thinking.nl context_parts)
  end.

End Json.

(** [d.keys()] *)
Definition keys (d : counts) : list string := List.map fst d.

(** Every character of [s] passes [f]. *)
Fixpoint all_chars (f : ascii -> bool) (s : string) : bool :=
  match s with
  | EmptyString => true
  | String c s' => f c && all_chars f s'
  end.

(** The number of [tasks] whose field [field] is [value]. *)
Definition number_with (field : task -> string) (value : string)
    (tasks : list task) : Z :=
  PyList.count_if (fun task => String.eqb (field task) value) tasks.

End Tracker.
(* ================================================================== *)
(** * jarvis_router.py: the history of consultations *)
(* ================================================================== *)

Module RouterHistory.
Import Experts Router Memory.

Section Json.
Variable json_loads : string -> Py.result Py.pyval.

(** [get_history].  [store] is the database behind
    [self.brain.persistent_memory]; [started] is the clock the start of a
    newly loaded agent reads, [now] the one [recall_consultations]
    reads. *)
Definition get_history (memory_available loop_running : bool)
    (started now : DateTime.datetime) (agent_name : option string)
    (days : Z) (store : db) (self : router)
  : Py.result (list consultation) * router :=
  let self := _ensure_initialized memory_available self in
  let '(agent_name, self) :=
    match agent_name with
    | Some given =>
        if PyStr.truthy given then
          match _load_agent memory_available loop_running started given self with
          | (Py.Ok agent, self) => (Py.Ok (Some (name agent)), self)
          | (Py.Raise e, self) => (Py.Raise e, self)
          end
        else (Py.Ok agent_name, self)
    | None => (Py.Ok agent_name, self)
    end in
  (agent_name ← agent_name;
   recall_consultations json_loads now agent_name 20 (Some days) store,
   self).

End Json.

(** A sequence of [_load_agent] calls, each with the clock its agent
    would start at: the answers in order and the router they leave.
    With [loop_running] these are the loads [consult] makes, which runs
    [consult_async] inside [asyncio.run]. *)
Definition load_all (memory_available loop_running : bool)
    (requests : list (DateTime.datetime * string)) (self : router)
  : list (Py.result agent) * router :=
  fold_left
    (fun '(answers, self) '(now, agent_name) =>
       let '(answer, self) :=
         _load_agent memory_available loop_running now agent_name self in
       (answers ++ [answer], self))
    requests ([], self).

Definition raises {A} (answer : Py.result A) : Prop :=
  exists e, answer = Py.Raise e.

End RouterHistory.
(* ================================================================== *)
(** * start_jarvis.py: the agents of the portable system *)
(* ================================================================== *)

Module Portable.
Import Battery BatteryConfig.

(** The agent objects: the network monitor carries the interval the
    system sets; of the other agents the system only keeps the object. *)
Inductive agent :=
| NetworkMonitorAgent (name : string) (monitoring_interval : Z)
| OtherAgent (class_name name : string).

(** [self.agents], its keys in insertion order. *)
Definition agents_dict := list (string * agent).

Fixpoint set_agent (key : string) (a : agent) (d : agents_dict) : agents_dict :=
  match d with
  | [] => [(key, a)]
  | (k, a0) :: d' =>
      if String.eqb k key then (k, a) :: d' else (k, a0) :: set_agent key a d'
  end.

Fixpoint get_agent (key : string) (d : agents_dict) : option agent :=
  match d with
  | [] => None
  | (k, a) :: d' => if String.eqb k key then Some a else get_agent key d'
  end.

Definition keys (d : agents_dict) : list string := List.map fst d.

(** The system object; the brain and the start time, which the agents
    of this file do not depend on, are left out. *)
Record portable := {
  battery : manager;
  agents : agents_dict;
  running : bool;
  heartbeat_count : Z
}.

Definition __init__ (now : Z) : portable :=
  {| battery := Battery.__init__ now;
     agents := [];
     running := false;
     heartbeat_count := 0 |}.

Definition with_agents (agents : agents_dict) (self : portable) : portable :=
  {| battery := battery self;
     agents := agents;
     running := running self;
     heartbeat_count := heartbeat_count self |}.

Definition _init_agents (config : config) (self : portable) : portable :=
  let agents_count := agents_actifs config in
  let agents :=
    set_agent "monitor"
      (NetworkMonitorAgent "Monitor_Portable" (monitoring_interval config))
      (agents self) in
  let agents :=
    if 2 <=? agents_count
    then set_agent "indexer" (OtherAgent "MemoryIndexerAgent" "Indexer_Portable") agents
    else agents in
  let agents :=
    if 3 <=? agents_count
    then set_agent "learner" (OtherAgent "LearningAgent" "Learner_Portable") agents
    else agents in
  let agents :=
    if 4 <=? agents_count
    then set_agent "coder" (OtherAgent "CoderAgent" "Coder_Portable") agents
    else agents in
  let agents :=
    if 5 <=? agents_count
    then set_agent "reviewer" (OtherAgent "CodeReviewerAgent" "Reviewer_Portable") agents
    else agents in
  let agents :=
    if 6 <=? agents_count
    then set_agent "backend_expert" (OtherAgent "BackendExpertAgent" "BackendExpert") agents
    else agents in
  let agents :=
    if 7 <=? agents_count
    then set_agent "data_engineer" (OtherAgent "DataEngineerAgent" "DataEngineer") agents
    else agents in
  let agents :=
    if 8 <=? agents_count
    then set_agent "devops_sre" (OtherAgent "DevOpsSREAgent" "DevOpsSRE") agents
    else agents in
  let agents :=
    if 9 <=? agents_count
    then set_agent "ai_engineer" (OtherAgent "AIEngineerAgent" "AIEngineer") agents
    else agents in
  with_agents agents self.

(** [initialize]: the profile comes from a reading of the sensor, not
    from the manager's current profile. *)
Definition initialize (reading : sensor) (self : portable) : portable :=
  let profile := get_performance_profile reading in
  let config := get_profile_config (Some profile) (battery self) in
  _init_agents config self.

(** [_adapt_to_profile]; reading [monitoring_interval] of an object that
    has none raises. *)
Definition _adapt_to_profile (self : portable) : Py.result portable :=
  let config := get_profile_config None (battery self) in
  agents ←
    match get_agent "monitor" (agents self) with
    | Some (NetworkMonitorAgent name old_interval) =>
        let new_interval := monitoring_interval config in
        if negb (old_interval =? new_interval)
        then Py.Ok (set_agent "monitor" (NetworkMonitorAgent name new_interval)
                      (agents self))
        else Py.Ok (agents self)
    | Some (OtherAgent _ _) => Py.Raise Py.AttributeError
    | None => Py.Ok (agents self)
    end;
  let agents :=
    if profile_eqb (current_profile (battery self)) CRITICAL
    then List.filter (fun '(name, _) => String.eqb name "monitor") agents
    else agents in
  Py.Ok (with_agents agents self).

(** One turn of the loop of [run_forever]. *)
Definition heartbeat (c : call) (self : portable) : Py.result portable :=
  let '(profile_changed, battery) :=
    check_and_adapt (at_time c) (reading c) (reading' c) (battery self) in
  let self :=
    {| battery := battery;
       agents := agents self;
       running := running self;
       heartbeat_count := heartbeat_count self + 1 |} in
  if profile_changed then _adapt_to_profile self else Py.Ok self.

(** The turns of [run_forever] that a sequence of calls of
    [check_and_adapt] determines. *)
Fixpoint run_forever (calls : list call) (self : portable)
  : Py.result portable :=
  match calls with
  | [] => Py.Ok self
  | c :: calls' => self ← heartbeat c self; run_forever calls' self
  end.

(** The keys [_init_agents] gives out, in the order it does. *)
Definition roster : list string :=
  [ "monitor"; "indexer"; "learner"; "coder"; "reviewer"; "backend_expert";
    "data_engineer"; "devops_sre"; "ai_engineer" ].

(** What holds of the system at every turn: the monitor is the first
    agent and the only one of its key, and no other agent is left once
    the profile is CRITICAL. *)
Definition settled (self : portable) : Prop :=
  exists name monitoring_interval others,
    agents self = ("monitor", NetworkMonitorAgent name monitoring_interval) :: others
    /\ ~ In "monitor" (keys others)
    /\ (current_profile (battery self) = CRITICAL -> others = []).

End Portable.
(* ================================================================== *)
(** * Concrete inputs

    The readings, stores and clock values on which the examples below
    run the code. *)
(* ================================================================== *)

Module Scenarios.

(** ** Battery *)

Definition on_battery (p : Q) : Battery.status :=
  {| Battery.st_present := true; Battery.st_percent := p;
     Battery.st_plugged := false; Battery.st_time_left := None |}.

Definition low_battery : Battery.sensor :=
  Some {| Battery.percent := 10; Battery.secsleft := 600;
          Battery.power_plugged := false |}.

(** [n] rounds of a minute on a low battery followed by a minute on mains
    power: every call changes the profile. *)
Definition drained (n : nat) : list Battery.call :=
  flat_map (fun i =>
    [ {| Battery.at_time := Battery.microseconds (60 * (2 * Z.of_nat i + 1));
         Battery.reading := low_battery; Battery.reading' := low_battery |};
      {| Battery.at_time := Battery.microseconds (60 * (2 * Z.of_nat i + 2));
         Battery.reading := None; Battery.reading' := None |} ]) (seq 0 n).

(** ** Clock values *)

Definition noon : DateTime.datetime :=
  {| DateTime.year := 2025; DateTime.month := 11; DateTime.day := 23;
     DateTime.hour := 12; DateTime.minute := 0; DateTime.second := 0;
     DateTime.microsecond := 0 |}.

Definition morning : DateTime.datetime :=
  {| DateTime.year := 2025; DateTime.month := 11; DateTime.day := 23;
     DateTime.hour := 9; DateTime.minute := 30; DateTime.second := 0;
     DateTime.microsecond := 250000 |}.

(** The local time [h]:[m] on 26 October 2025, the night the clocks of
    central Europe go back an hour. *)
Definition clock (h m : Z) : DateTime.datetime :=
  {| DateTime.year := 2025; DateTime.month := 10; DateTime.day := 26;
     DateTime.hour := h; DateTime.minute := m; DateTime.second := 0;
     DateTime.microsecond := 0 |}.

Definition stamp (h m : Z) : string := DateTime.isoformat (clock h m).

(** ** Working memory *)

Definition fallback_brain : Brain.brain := Brain.__init__ false.

Definition two_memories : Brain.brain :=
  snd (Brain.remember None "id-2" noon "ab" "normal" Py.VNone
         (snd (Brain.remember None "id-1" noon "abc" "normal" Py.VNone
                 fallback_brain))).

Definition after_agent_start : Brain.brain :=
  snd (Experts.start noon
         {| Experts.ident := 0; Experts.class_of := Experts.DataEngineerAgent;
            Experts.name := "DataEngineer"; Experts.running := false |}
         fallback_brain).

(** ** Stores *)

Definition a_consultation (id : Z) (agent query response : string)
    (timestamp : string) : Memory.consultation_row :=
  {| Memory.c_id := id; Memory.c_agent_name := agent;
     Memory.c_query := query; Memory.c_response := response;
     Memory.c_importance := "normal"; Memory.c_metadata := Some "{}";
     Memory.c_timestamp := timestamp |}.

Definition a_task (id : Z) (agent description : string)
    (result : option string) (timestamp : string) : Memory.task_row :=
  {| Memory.t_id := id; Memory.t_agent_name := agent;
     Memory.t_task_type := "audit"; Memory.t_description := description;
     Memory.t_result := result; Memory.t_status := "completed";
     Memory.t_metadata := Some "{}"; Memory.t_timestamp := timestamp |}.

Definition store (cs : list Memory.consultation_row)
    (ts : list Memory.task_row) : Memory.db :=
  {| Memory.consultations := cs;
     Memory.consultations_seq := Z.of_nat (length cs);
     Memory.tasks := ts;
     Memory.tasks_seq := Z.of_nat (length ts) |}.

Definition two_agents : Memory.db :=
  store [ a_consultation 1 "DataEngineer" "q1" "r1" (stamp 9 0);
          a_consultation 2 "BackendExpert" "q2" "r2" (stamp 10 0) ] [].

Definition optimization_store : Memory.db :=
  store [ a_consultation 1 "BackendExpert" "FastAPI performance Optimization?"
            "Use async endpoints" (stamp 9 0) ]
        [ a_task 1 "DataEngineer" "optimize dbt models"
            (Some "done") (stamp 10 0) ].

Definition plain_store : Memory.db :=
  store [ a_consultation 1 "DataEngineer" "abc" "xyz" (stamp 9 0);
          a_consultation 2 "DataEngineer" "abd" "xyz" (stamp 10 0) ]
        [ a_task 1 "DataEngineer" "abc" None (stamp 11 0) ].

(** Two consultations of one agent, the second written after the local
    clock was set back from 02:30 to 02:10. *)
Definition clock_set_back : Py.result Memory.db :=
  '(_, d) ← Memory.remember_consultation Memory.dumps_empty (clock 2 30)
              "DataEngineer" "first question" "first answer" "normal"
              Py.VNone Memory._init_schema;
  '(_, d) ← Memory.remember_consultation Memory.dumps_empty (clock 2 10)
              "DataEngineer" "second question" "second answer" "high"
              Py.VNone d;
  Py.Ok d.

End Scenarios.

(* ================================================================== *)
(** * More concrete inputs *)
(* ================================================================== *)

Module Cases.
Import Scenarios.

(** A sensor that reads a low battery until mains power comes back at
    the third poll. *)
Definition mains_on_third_poll (i : nat) : Battery.sensor :=
  if (i =? 2)%nat then None else low_battery.

Definition greeting : string := "hello, how are you today?".

Definition data_engineer : Experts.agent :=
  {| Experts.ident := 0; Experts.class_of := Experts.DataEngineerAgent;
     Experts.name := "DataEngineer"; Experts.running := false |}.

Definition one_remember : list Thinking.remembered :=
  [ ("id-1", noon, "abc", "normal", Py.VNone) ].

Definition short_code : string := "x = 1".

Definition review_task : ReviewerTask.task :=
  {| ReviewerTask.code := Some "import os";
     ReviewerTask.description := Some "startup script" |}.

Definition the_reviewer : ReviewerTask.reviewer :=
  ReviewerTask.__init__ "Reviewer_Portable" (Some fallback_brain).

(** Noon of the day before [clock] and of the day thirty days before. *)
Definition yesterday_noon : DateTime.datetime :=
  {| DateTime.year := 2025; DateTime.month := 10; DateTime.day := 25;
     DateTime.hour := 12; DateTime.minute := 0; DateTime.second := 0;
     DateTime.microsecond := 0 |}.

Definition a_month_before : DateTime.datetime :=
  {| DateTime.year := 2025; DateTime.month := 9; DateTime.day := 26;
     DateTime.hour := 12; DateTime.minute := 0; DateTime.second := 0;
     DateTime.microsecond := 0 |}.

(** A task written at noon and then a consultation stamped in the
    morning of the same day. *)
Definition out_of_order_writes : list Store.write :=
  [ Store.Task noon "DataEngineer" "audit" "Audit PostgreSQL" (Some "done")
      "completed" Py.VNone;
    Store.Consultation morning "BackendExpert" "q" "r" "normal" Py.VNone ].

(** A clock that stands still at noon of 26 October 2025. *)
Definition steady_clock (k : nat) : DateTime.datetime := clock 12 0.

Definition question : string := "How to optimize dbt models?".

(** A context of two memories, the second without content. *)
Definition a_context : option (list Py.pyval) :=
  Some [ Py.VDict [("content", Py.VStr "dbt models are incremental")];
         Py.VDict [("id", Py.VStr "id-2")] ].

(** [n] copies of a text. *)
Fixpoint repeated (n : nat) (s : string) : string :=
  match n with
  | O => EmptyString
  | S n' => s +:+ repeated n' s
  end.

(** A consultation whose query holds a NUL character. *)
Definition nul_row : Memory.consultation_row :=
  a_consultation 1 "DataEngineer" (String "a" (String Ascii.zero "bcd")) "r"
    (stamp 9 0).

End Cases.
(* ================================================================== *)
(** * Theorems: reviewer *)
(* ================================================================== *)

Module ReviewerFacts.
Import PyStr Reviewer.

Lemma review_checks_range code :
  40 <= snd (review_checks code) <= 70.
Proof.
  unfold review_checks.
  repeat match goal with
         | |- context [if ?b then _ else _] => destruct b
         end; simpl; lia.
Qed.

(** The two inputs of the specification's scenario. *)
Example review_pass : score (_review_code "pass") = 40
                      /\ approved (_review_code "pass") = false.
Proof. split; reflexivity. Qed.

(** C9: the heuristic review scores every input between 40 and 70, so
    flooring at zero leaves the score as the four checks computed it, and
    the [approved] flag is [score >= 60] on the returned score. *)
Theorem review_score_between_40_and_70 (code : string) :
  40 <= score (_review_code code) <= 70
  /\ score (_review_code code) = snd (review_checks code)
  /\ approved (_review_code code) = (60 <=? score (_review_code code)).
Proof.
  pose proof (review_checks_range code) as Hr.
  unfold _review_code.
  destruct (review_checks code) as [iss sc]; simpl in *.
  rewrite Z.max_r by lia.
  repeat split; lia.
Qed.

End ReviewerFacts.

(* ================================================================== *)
(** * Theorems: complexity score *)
(* ================================================================== *)

Module BrainFacts.
Import PyStr Brain Scenarios.

Lemma count_if_length {A} (f : A -> bool) (l : list A) :
  PyList.count_if f l = Z.of_nat (length (List.filter f l)).
Proof.
  unfold PyList.count_if.
  induction l as [|x l IH]; simpl; [reflexivity|].
  destruct (f x); simpl; lia.
Qed.

(** The code lists its keywords in another order than the specification;
    the number of present keywords is the same. *)
Lemma complex_kw_count (f : string -> bool) :
  PyList.count_if f complex_kw = Z.of_nat (length (List.filter f code_keywords)).
Proof.
  rewrite count_if_length.
  unfold complex_kw, code_keywords; simpl.
  destruct (f "pourquoi"), (f "why"), (f "comment"), (f "how"),
    (f "analyse"), (f "architecture"), (f "implement"), (f "explain");
    reflexivity.
Qed.

Lemma simple_kw_any (f : string -> bool) :
  existsb f simple_kw = f "hello" || f "bonjour" || f "what is" || f "qui est".
Proof.
  unfold simple_kw; simpl.
  destruct (f "bonjour"), (f "hello"), (f "what is"), (f "qui est"); reflexivity.
Qed.

Lemma clamp_max_min (x : Z) : Z.max 0 (Z.min 10 x) = clamp 0 10 x.
Proof.
  unfold clamp.
  destruct (Z.ltb_spec x 0), (Z.ltb_spec 10 x); lia.
Qed.

Example complexity_greeting : _evaluate_complexity "Hello" = 3.
Proof. reflexivity. Qed.

Example complexity_explain : _evaluate_complexity "Explain how and why" = 8.
Proof. reflexivity. Qed.

(** C2, as stated: with [analyze] in the keyword set the formula gives 6
    on the prompt [analyze], where the code answers 5; on [analyse] it is
    the other way round. *)
Lemma complexity_claimed_keywords_fail :
  _evaluate_complexity "analyze" = 5
  /\ spec_complexity claimed_keywords "analyze" = 6
  /\ _evaluate_complexity "analyse" = 6
  /\ spec_complexity claimed_keywords "analyse" = 5
  /\ ~ (forall prompt,
          _evaluate_complexity prompt = spec_complexity claimed_keywords prompt).
Proof.
  repeat split; try reflexivity.
  intros H. specialize (H "analyze"). vm_compute in H. discriminate.
Qed.

(** C2, amended: the formula of the specification holds for every prompt
    once the keyword set reads [analyse] instead of [analyze]. *)
Theorem complexity_formula (prompt : string) :
  _evaluate_complexity prompt = spec_complexity code_keywords prompt.
Proof.
  unfold _evaluate_complexity, spec_complexity, keyword_points, present.
  rewrite complex_kw_count, simple_kw_any, clamp_max_min.
  f_equal.
  destruct (200 <? len prompt), (500 <? len prompt);
    destruct (str_in "hello" (lower prompt) || str_in "bonjour" (lower prompt)
              || str_in "what is" (lower prompt) || str_in "qui est" (lower prompt));
    lia.
Qed.

(** ** Working memory *)

Lemma dict_set_fresh (k : string) (v : Py.pyval) (d : Py.dict) :
  Py.dict_get k d = None -> Py.dict_set k v d = d ++ [(k, v)].
Proof.
  induction d as [|[k' v'] d IH]; simpl; [reflexivity|].
  destruct (String.eqb k k'); [discriminate|].
  intros H. now rewrite IH.
Qed.

Lemma dict_get_set (k : string) (v : Py.pyval) (d : Py.dict) :
  Py.dict_get k (Py.dict_set k v d) = Some v.
Proof.
  induction d as [|[k' v'] d IH]; simpl.
  - now rewrite String.eqb_refl.
  - destruct (String.eqb k k') eqn:E; simpl.
    + now rewrite String.eqb_refl.
    + now rewrite E.
Qed.

Lemma dict_get_set_other (k k' : string) (v : Py.pyval) (d : Py.dict) :
  String.eqb k' k = false ->
  Py.dict_get k' (Py.dict_set k v d) = Py.dict_get k' d.
Proof.
  intros Hne.
  induction d as [|[k0 v0] d IH]; simpl.
  - now rewrite Hne.
  - destruct (String.eqb k k0) eqn:E; simpl.
    + apply String.eqb_eq in E. subst k0. now rewrite Hne.
    + now rewrite IH.
Qed.

Lemma recall_loop_readable (query : string) (items : Py.dict)
    (results : list Py.pyval) :
  Forall (fun item => readable (snd item) = true) items ->
  recall_loop query items results
  = Py.Ok (results ++ List.map found_record (matching query items)).
Proof.
  intros Hall. revert results.
  induction Hall as [|[mem_id mem] items Hr _ IH]; intros results; simpl.
  - now rewrite app_nil_r.
  - unfold matching in *. simpl in *.
    unfold readable in Hr. unfold matches, subscript.
    destruct mem as [| | | | |l|d]; try discriminate.
    destruct (Py.dict_get "content" d) as [[| | | |c| |]|]; try discriminate.
    simpl.
    destruct (str_in (lower query) (lower c)); simpl.
    + rewrite IH. now rewrite <- app_assoc.
    + apply IH.
Qed.

Lemma found_record_fields (mem_id content : string) (d : Py.dict) :
  Py.dict_get "content" d = Some (Py.VStr content) ->
  let found := found_record (mem_id, Py.VDict d) in
  subscript found "content" = Py.Ok (Py.VStr content)
  /\ subscript found "score" = Py.Ok (Py.VFloat 1)
  /\ subscript found "id" = Py.Ok (Py.VStr mem_id).
Proof.
  intros Hc. unfold found_record, subscript; simpl.
  rewrite dict_get_set.
  rewrite !dict_get_set_other by reflexivity.
  rewrite dict_get_set, Hc. auto.
Qed.

(** C10, as stated: [recall] keeps the first [limit] matches in insertion
    order, so with [limit = 1] an older matching record hides the one
    just stored; and a working memory that holds the status record of a
    started expert agent, which has no [content], makes [recall] raise. *)
Lemma recall_misses_newest_memory :
  str_in (lower "a") (lower "ab") = true
  /\ (exists older,
        recall None "a" 1 two_memories = Py.Ok [older]
        /\ subscript older "content" = Py.Ok (Py.VStr "abc"))
  /\ ~ (exists results found,
          recall None "a" 1 two_memories = Py.Ok results
          /\ In found results
          /\ subscript found "content" = Py.Ok (Py.VStr "ab"))
  /\ recall None "a" 5
       (snd (remember None "id-1" noon "ab" "normal" Py.VNone after_agent_start))
     = Py.Raise (Py.KeyError "content").
Proof.
  split; [reflexivity|].
  split; [eexists; split; reflexivity|].
  split; [|reflexivity].
  intros (results & found & Hrec & Hin & Hc).
  vm_compute in Hrec. injection Hrec as <-.
  destruct Hin as [<- | []].
  vm_compute in Hc. discriminate.
Qed.

(** C10, amended: in fallback mode, with a fresh memory id, a working
    memory whose records all carry a string [content], and fewer than
    [limit] older records matching [q], [remember] followed by [recall q
    limit] returns a list containing the stored content with score 1.0
    under the id [remember] returned; and the working memory has grown by
    exactly one entry. *)
Theorem remember_then_recall
    (self : brain) (memory_id : string) (now : DateTime.datetime)
    (content importance : string) (metadata : Py.pyval)
    (delegated : option string) (delegated' : option (list Py.pyval))
    (q : string) (limit : Z) :
  memory self = false ->
  Py.dict_get memory_id (working_memory self) = None ->
  Forall (fun item => readable (snd item) = true) (working_memory self) ->
  str_in (lower q) (lower content) = true ->
  Z.of_nat (length (matching q (working_memory self))) < limit ->
  let stored := remember delegated memory_id now content importance metadata self in
  fst stored = memory_id
  /\ length (working_memory (snd stored)) = S (length (working_memory self))
  /\ exists results found,
      recall delegated' q limit (snd stored) = Py.Ok results
      /\ In found results
      /\ subscript found "content" = Py.Ok (Py.VStr content)
      /\ subscript found "score" = Py.Ok (Py.VFloat 1)
      /\ subscript found "id" = Py.Ok (Py.VStr memory_id).
Proof.
  intros Hmem Hfresh Hread Hq Hlimit.
  unfold remember. rewrite Hmem. cbn [fst snd working_memory memory].
  rewrite (dict_set_fresh _ _ _ Hfresh).
  split; [reflexivity|].
  split; [rewrite length_app; simpl; lia|].
  unfold recall. cbn [memory working_memory]. rewrite ?Hmem.
  set (record := Py.VDict _).
  assert (Hread' : Forall (fun item => readable (snd item) = true)
                     (working_memory self ++ [(memory_id, record)])).
  { apply Forall_app; split; [exact Hread|].
    constructor; [reflexivity | constructor]. }
  rewrite (recall_loop_readable _ _ _ Hread').
  unfold mbind, Py.result_bind.
  unfold matching. rewrite List.filter_app, List.map_app.
  cbn [List.filter List.map snd app].
  assert (matches q record = true) as -> by (simpl; exact Hq).
  cbn [List.map].
  eexists. exists (found_record (memory_id, record)).
  split; [reflexivity|].
  split.
  - unfold PyList.slice_to.
    destruct (Z.leb_spec 0 limit); [|lia].
    fold (matching q (working_memory self)).
    rewrite take_app_ge by (rewrite length_map; lia).
    apply in_or_app. right.
    rewrite length_map.
    destruct (Z.to_nat limit - length (matching q (working_memory self)))%nat
      eqn:E; [lia|].
    simpl. now left.
  - apply found_record_fields. reflexivity.
Qed.

Lemma remember_then_recall_witness :
  exists results found,
    recall None "OPTIM" 1
      (snd (remember None "id-1" noon "Optimize dbt" "high" Py.VNone fallback_brain))
    = Py.Ok results
    /\ In found results
    /\ subscript found "content" = Py.Ok (Py.VStr "Optimize dbt")
    /\ subscript found "score" = Py.Ok (Py.VFloat 1)
    /\ subscript found "id" = Py.Ok (Py.VStr "id-1").
Proof.
  apply (remember_then_recall fallback_brain "id-1" noon "Optimize dbt" "high"
           Py.VNone None None "OPTIM" 1);
    [reflexivity | reflexivity | constructor | reflexivity | simpl; lia].
Defined.

End BrainFacts.

(* ================================================================== *)
(** * Theorems: battery manager *)
(* ================================================================== *)

Module BatteryFacts.
Import Battery Scenarios.

Lemma Qgtb_true (a b : Q) : Qgtb a b = true <-> (b < a)%Q.
Proof.
  unfold Qgtb. rewrite negb_true_iff, <- not_true_iff_false, Qle_bool_iff.
  split; [apply Qnot_le_lt | apply Qlt_not_le].
Qed.

Lemma Qgtb_false (a b : Q) : Qgtb a b = false <-> (a <= b)%Q.
Proof.
  unfold Qgtb. rewrite negb_false_iff. apply Qle_bool_iff.
Qed.

Lemma profile_eqb_eq (a b : ProfileType) : profile_eqb a b = true <-> a = b.
Proof. destruct a, b; simpl; split; congruence. Qed.

Example profile_81 : profile_of_status (on_battery 81) = PERFORMANCE.
Proof. reflexivity. Qed.
Example profile_80 : profile_of_status (on_battery 80) = BALANCED.
Proof. reflexivity. Qed.
Example profile_40 : profile_of_status (on_battery 40) = ECO.
Proof. reflexivity. Qed.
Example profile_20 : profile_of_status (on_battery 20) = CRITICAL.
Proof. reflexivity. Qed.
Example profile_0 : profile_of_status (on_battery 0) = CRITICAL.
Proof. reflexivity. Qed.

(** C4: the profile is a function of the reading (plugged, present,
    percent) alone: PERFORMANCE when plugged or when no battery is
    present, otherwise PERFORMANCE above 80, BALANCED in (40, 80], ECO in
    (20, 40] and CRITICAL at 20 and below; and [get_performance_profile]
    is that function of the status of the sensor. *)
Theorem profile_pure_function_of_reading (st : status) :
  (st_plugged st = true \/ st_present st = false ->
     profile_of_status st = PERFORMANCE)
  /\ (st_plugged st = false -> st_present st = true ->
        ((80 < st_percent st)%Q -> profile_of_status st = PERFORMANCE)
        /\ ((40 < st_percent st)%Q /\ (st_percent st <= 80)%Q ->
              profile_of_status st = BALANCED)
        /\ ((20 < st_percent st)%Q /\ (st_percent st <= 40)%Q ->
              profile_of_status st = ECO)
        /\ ((st_percent st <= 20)%Q -> profile_of_status st = CRITICAL))
  /\ (forall battery : sensor,
        get_battery_status battery = st ->
        get_performance_profile battery = profile_of_status st).
Proof.
  unfold profile_of_status.
  split; [|split].
  - intros [-> | Hp]; [reflexivity|].
    rewrite Hp. destruct (st_plugged st); reflexivity.
  - intros -> ->; simpl.
    repeat split.
    + intros H. apply Qgtb_true in H. now rewrite H.
    + intros [H1 H2]. apply Qgtb_true in H1. apply Qgtb_false in H2.
      now rewrite H2, H1.
    + intros [H1 H2]. apply Qgtb_true in H1.
      assert (Qgtb (st_percent st) 80 = false) as H3.
      { apply Qgtb_false. eapply Qle_trans; [exact H2|]. discriminate. }
      apply Qgtb_false in H2.
      now rewrite H3, H2, H1.
    + intros H.
      assert (Qgtb (st_percent st) 80 = false) as H3.
      { apply Qgtb_false. eapply Qle_trans; [exact H|]. discriminate. }
      assert (Qgtb (st_percent st) 40 = false) as H4.
      { apply Qgtb_false. eapply Qle_trans; [exact H|]. discriminate. }
      apply Qgtb_false in H.
      now rewrite H3, H4, H.
  - intros battery <-. reflexivity.
Qed.

Lemma profile_pure_function_of_reading_witness :
  profile_of_status (on_battery 80) = BALANCED
  /\ profile_of_status (on_battery 20) = CRITICAL
  /\ get_performance_profile None = PERFORMANCE.
Proof.
  split; [|split].
  - destruct (profile_pure_function_of_reading (on_battery 80))
      as (_ & H & _).
    apply H; [reflexivity | reflexivity |].
    split; [reflexivity | discriminate].
  - destruct (profile_pure_function_of_reading (on_battery 20))
      as (_ & H & _).
    apply H; [reflexivity | reflexivity |]. discriminate.
  - destruct (profile_pure_function_of_reading (get_battery_status None))
      as (H & _ & H').
    rewrite (H' None eq_refl). apply H. left. reflexivity.
Defined.

(** ** Throttling *)

Lemma check_and_adapt_throttled now r r' self :
  now - last_check self < microseconds (check_interval self) ->
  check_and_adapt now r r' self = (false, self).
Proof.
  intros H. unfold check_and_adapt.
  destruct (Z.ltb_spec (now - last_check self)
              (microseconds (check_interval self))); [reflexivity | lia].
Qed.

Lemma check_and_adapt_checked now r r' self :
  microseconds (check_interval self) <= now - last_check self ->
  last_check (snd (check_and_adapt now r r' self)) = now
  /\ check_interval (snd (check_and_adapt now r r' self)) = check_interval self.
Proof.
  intros H. unfold check_and_adapt.
  destruct (Z.ltb_spec (now - last_check self)
              (microseconds (check_interval self))); [lia|].
  simpl. destruct (negb _); simpl; auto.
Qed.

Lemma check_and_adapt_true now r r' self :
  fst (check_and_adapt now r r' self) = true ->
  microseconds (check_interval self) <= now - last_check self
  /\ get_performance_profile r <> current_profile self.
Proof.
  unfold check_and_adapt.
  destruct (Z.ltb_spec (now - last_check self)
              (microseconds (check_interval self))); simpl; [discriminate|].
  destruct (profile_eqb (get_performance_profile r) (current_profile self))
    eqn:E; simpl; [discriminate|].
  intros _. split; [assumption|].
  intros Heq. apply profile_eqb_eq in Heq. congruence.
Qed.

(** C5, as stated: a check that finds the profile unchanged is not free
    of side effects.  It moves [last_check] to the present, which restarts
    the throttle window: the low-battery reading one microsecond later is
    reported from the untouched manager and suppressed after the check. *)
Lemma unchanged_profile_check_has_side_effect :
  let self := __init__ 0 in
  let after := snd (check_and_adapt 60000000 None None self) in
  get_performance_profile None = current_profile self
  /\ check_and_adapt 60000000 None None self = (false, after)
  /\ after <> self
  /\ fst (check_and_adapt 60000001 low_battery low_battery self) = true
  /\ fst (check_and_adapt 60000001 low_battery low_battery after) = false
  /\ ~ (forall now r r' m,
          get_performance_profile r = current_profile m ->
          check_and_adapt now r r' m = (false, m)).
Proof.
  repeat split; try reflexivity.
  - intros H. apply (f_equal last_check) in H. vm_compute in H. discriminate.
  - intros H. specialize (H 60000000 None None (__init__ 0) eq_refl).
    apply (f_equal (fun x => last_check (snd x))) in H.
    vm_compute in H. discriminate.
Qed.

(** C5, amended: for two calls less than 60 seconds apart, at most one
    reports a change; once a call has performed its check, a call inside
    the 60-second window returns false and leaves the manager untouched,
    whatever the sensor reads; and a check that finds the profile
    unchanged returns false and leaves profile and history as they were,
    the only state it may write being [last_check]. *)
Theorem check_and_adapt_throttle
    (self : manager) (t1 t2 : Z) (r1 r1' r2 r2' : sensor) :
  check_interval self = 60 ->
  t2 - t1 < microseconds 60 ->
  let first := check_and_adapt t1 r1 r1' self in
  let second := check_and_adapt t2 r2 r2' (snd first) in
  ~ (fst first = true /\ fst second = true)
  /\ (microseconds 60 <= t1 - last_check self ->
        second = (false, snd first))
  /\ (get_performance_profile r1 = current_profile self ->
        fst first = false
        /\ current_profile (snd first) = current_profile self
        /\ battery_history (snd first) = battery_history self
        /\ check_interval (snd first) = check_interval self
        /\ (last_check (snd first) = last_check self
            \/ last_check (snd first) = t1)).
Proof.
  intros Hci Hwin first second.
  assert (Hchecked : microseconds 60 <= t1 - last_check self ->
                     second = (false, snd first)).
  { intros Hge. rewrite <- Hci in Hge.
    destruct (check_and_adapt_checked t1 r1 r1' self Hge) as [Hl Hc].
    apply check_and_adapt_throttled.
    fold first in Hl, Hc. rewrite Hl, Hc, Hci. exact Hwin. }
  split; [|split].
  - intros [H1 H2].
    apply check_and_adapt_true in H1 as [Hge _].
    rewrite Hci in Hge. rewrite (Hchecked Hge) in H2. discriminate.
  - exact Hchecked.
  - intros Hsame. subst first. unfold check_and_adapt.
    destruct (_ <? _); simpl; [auto 6|].
    rewrite Hsame.
    assert (profile_eqb (current_profile self) (current_profile self) = true)
      as -> by (now apply profile_eqb_eq).
    simpl. auto 6.
Qed.

Lemma check_and_adapt_throttle_witness :
  let self := __init__ 0 in
  let first := check_and_adapt 60000000 low_battery low_battery self in
  fst first = true
  /\ check_and_adapt 90000000 None None (snd first) = (false, snd first).
Proof.
  split; [reflexivity|].
  apply (check_and_adapt_throttle (__init__ 0) 60000000 90000000
           low_battery low_battery None None);
    [reflexivity | reflexivity | discriminate].
Defined.

(** ** The bounded history *)

Lemma last_n_suffix {A} (n : nat) (l : list A) :
  take (length l - n) l ++ PyList.last_n n l = l.
Proof. unfold PyList.last_n. apply take_drop. Qed.

Lemma last_n_length {A} (n : nat) (l : list A) :
  length (PyList.last_n n l) = Nat.min n (length l).
Proof. unfold PyList.last_n. rewrite length_drop. lia. Qed.

(** What one call does to the history: nothing when it returns false;
    when it returns true, one entry is appended and the list is cut back
    to its last 100 entries. *)
Lemma check_and_adapt_history now r r' self :
  let res := check_and_adapt now r r' self in
  if fst res
  then exists entry dropped,
      h_timestamp entry = now
      /\ h_profile entry = current_profile (snd res)
      /\ battery_history self ++ [entry] = dropped ++ battery_history (snd res)
      /\ length (battery_history (snd res))
         = Nat.min 100 (length (battery_history self) + 1)
  else battery_history (snd res) = battery_history self.
Proof.
  unfold check_and_adapt.
  destruct (_ <? _); cbn [fst snd]; [reflexivity|].
  destruct (negb _); cbn [fst snd battery_history current_profile];
    [|reflexivity].
  match goal with
  | |- context [battery_history self ++ [?e]] => set (entry := e)
  end.
  exists entry.
  destruct (Nat.ltb_spec 100 (length (battery_history self ++ [entry])))
    as [Hlt | Hle].
  - exists (take (length (battery_history self ++ [entry]) - 100)
              (battery_history self ++ [entry])).
    repeat split; try reflexivity.
    + symmetry. apply last_n_suffix.
    + rewrite last_n_length. rewrite length_app in *. cbn [length] in *. lia.
  - exists []. repeat split; try reflexivity.
    rewrite length_app in *. cbn [length] in *. lia.
Qed.

Lemma step_history_bound (self : manager) (c : call) :
  (length (battery_history self) <= 100)%nat ->
  (length (battery_history (step self c)) <= 100)%nat.
Proof.
  intros H. unfold step.
  pose proof (check_and_adapt_history (at_time c) (reading c) (reading' c) self)
    as Hh.
  cbv zeta in Hh. destruct (fst _).
  - destruct Hh as (e & d & _ & _ & _ & Hlen). lia.
  - now rewrite Hh.
Qed.

Lemma run_history_bound (calls : list call) (self : manager) :
  (length (battery_history self) <= 100)%nat ->
  (length (battery_history (run calls self)) <= 100)%nat.
Proof.
  revert self. induction calls as [|c calls IH]; intros self H; simpl.
  - exact H.
  - apply IH, step_history_bound, H.
Qed.

Example history_fills_up :
  length (battery_history (run (drained 60) (__init__ 0))) = 100%nat
  /\ List.map h_timestamp
       (take 2 (battery_history (run (drained 60) (__init__ 0))))
     = [microseconds 1260; microseconds 1320].
Proof. split; vm_compute; reflexivity. Qed.

(** C7: after every call of [check_and_adapt], whatever the calls and
    readings before it, the history holds at most 100 entries; a call
    that records a change appends its entry at the end and what it then
    drops is a prefix of the list, the oldest entries. *)
Theorem history_bounded_oldest_dropped :
  (forall (t0 : Z) (calls : list call),
      (length (battery_history (run calls (__init__ t0))) <= 100)%nat)
  /\ (forall (self : manager) (now : Z) (r r' : sensor),
        let res := check_and_adapt now r r' self in
        if fst res
        then exists entry dropped,
            h_timestamp entry = now
            /\ h_profile entry = current_profile (snd res)
            /\ battery_history self ++ [entry]
               = dropped ++ battery_history (snd res)
            /\ length (battery_history (snd res))
               = Nat.min 100 (length (battery_history self) + 1)
        else battery_history (snd res) = battery_history self).
Proof.
  split.
  - intros t0 calls. apply run_history_bound. simpl. lia.
  - intros. apply check_and_adapt_history.
Qed.

End BatteryFacts.

(* ================================================================== *)
(** * Theorems: timestamps *)
(* ================================================================== *)

Module DateTimeFacts.
Import DateTime.

Lemma digit_value_digit (n : Z) : digit_value (digit n) = Some (n mod 10).
Proof.
  unfold digit.
  assert (0 <= n mod 10 < 10) as H by (apply Z.mod_pos_bound; lia).
  assert (n mod 10 = 0 \/ n mod 10 = 1 \/ n mod 10 = 2 \/ n mod 10 = 3
          \/ n mod 10 = 4 \/ n mod 10 = 5 \/ n mod 10 = 6 \/ n mod 10 = 7
          \/ n mod 10 = 8 \/ n mod 10 = 9) as Hc by lia.
  repeat destruct Hc as [-> | Hc]; try rewrite Hc; reflexivity.
Qed.

(** Reading back [w] digits that were written in front of [rest]. *)
Lemma read_digits_digits (w k : nat) (acc n : Z) (rest : string) :
  0 <= n < 10 ^ Z.of_nat w ->
  read_digits (w + k) acc (digits w n rest)
  = read_digits k (acc * 10 ^ Z.of_nat w + n) rest.
Proof.
  revert k acc n rest.
  induction w as [|w IH]; intros k acc n rest Hn.
  - simpl in *. f_equal. lia.
  - rewrite Nat2Z.inj_succ, Z.pow_succ_r in * by lia.
    cbn [digits].
    replace (S w + k)%nat with (w + S k)%nat by lia.
    rewrite IH.
    + cbn [read_digits]. rewrite digit_value_digit. f_equal.
      pose proof (Z.div_mod n 10). lia.
    + split.
      * apply Z.div_pos; lia.
      * apply Z.div_lt_upper_bound; lia.
Qed.

Lemma read_digits_exact (w : nat) (n : Z) (rest : string) :
  0 <= n < 10 ^ Z.of_nat w ->
  read_digits w 0 (digits w n rest) = Some (n, rest).
Proof.
  intros H.
  replace w with (w + 0)%nat at 1 by lia.
  rewrite read_digits_digits by assumption.
  simpl. reflexivity.
Qed.

Lemma valid_bounds (d : datetime) :
  valid d = true ->
  0 <= year d < 10 ^ 4 /\ 0 <= month d < 10 ^ 2 /\ 0 <= day d < 10 ^ 2
  /\ 0 <= hour d < 10 ^ 2 /\ 0 <= minute d < 10 ^ 2
  /\ 0 <= second d < 10 ^ 2 /\ 0 <= microsecond d < 10 ^ 6.
Proof.
  unfold valid. rewrite !andb_true_iff, !Z.leb_le.
  assert (days_in_month (year d) (month d) <= 31).
  { unfold days_in_month.
    repeat match goal with |- context [if ?b then _ else _] => destruct b end;
      lia. }
  lia.
Qed.

Example isoformat_whole_second :
  isoformat {| year := 2025; month := 11; day := 23; hour := 9;
               minute := 5; second := 7; microsecond := 0 |}
  = "2025-11-23T09:05:07".
Proof. reflexivity. Qed.

#[local] Opaque digits read_digits.

(** What [isoformat] writes, [fromisoformat] reads back. *)
Lemma fromisoformat_isoformat (d : datetime) :
  valid d = true -> fromisoformat (isoformat d) = Some d.
Proof.
  intros Hv.
  destruct (valid_bounds d Hv) as (Hy & Hmo & Hd & Hh & Hmi & Hs & Hus).
  unfold fromisoformat, isoformat.
  rewrite (read_digits_exact 4) by exact Hy. simpl.
  rewrite (read_digits_exact 2) by exact Hmo. simpl.
  rewrite (read_digits_exact 2) by exact Hd. simpl.
  rewrite (read_digits_exact 2) by exact Hh. simpl.
  rewrite (read_digits_exact 2) by exact Hmi. simpl.
  rewrite (read_digits_exact 2) by exact Hs. simpl.
  destruct (Z.eqb_spec (microsecond d) 0) as [H0 | Hn0].
  - simpl. destruct d; simpl in *. subst. rewrite Hv. reflexivity.
  - simpl. rewrite (read_digits_exact 6) by exact Hus. simpl.
    destruct d; simpl in *. rewrite Hv. reflexivity.
Qed.

End DateTimeFacts.

(* ================================================================== *)
(** * Theorems: SQLite primitives *)
(* ================================================================== *)

Module SqlFacts.
Import PyStr Sql.

(** ** LIKE against a keyword between two [%] *)

Lemma str_in_any_suffix (kw s : string) :
  str_in kw s = any_suffix (String.prefix kw) s.
Proof. induction s as [|c s IH]; simpl; [reflexivity | now rewrite IH]. Qed.

Lemma any_suffix_ext (f g : string -> bool) (t : string) :
  (forall s, f s = g s) -> any_suffix f t = any_suffix g t.
Proof.
  intros H. induction t as [|c t IH]; simpl; rewrite H; [reflexivity|].
  now rewrite IH.
Qed.

Lemma any_suffix_lower (f : string -> bool) (t : string) :
  any_suffix (fun s => f (lower s)) t = any_suffix f (lower t).
Proof. induction t as [|c t IH]; simpl; [reflexivity | now rewrite IH]. Qed.

Lemma compare_percent (t : string) : pattern_compare "%" t = true.
Proof.
  change (any_suffix (pattern_compare "") t = true).
  induction t as [|c t IH]; simpl; [reflexivity|].
  apply IH.
Qed.

Lemma compare_keyword_prefix (kw t : string) :
  Memory.no_wildcard kw = true ->
  pattern_compare (kw +:+ "%") t = String.prefix (lower kw) (lower t).
Proof.
  revert t. induction kw as [|c kw IH]; intros t Hw.
  - change (pattern_compare "%" t = String.prefix "" (lower t)).
    rewrite compare_percent. now destruct (lower t).
  - simpl in Hw. apply andb_true_iff in Hw as [Hw Hkw].
    apply andb_true_iff in Hw as [Hp Hu].
    apply negb_true_iff in Hp, Hu.
    change (String c kw +:+ "%") with (String c (kw +:+ "%")).
    cbn [pattern_compare]. rewrite Hp, Hu.
    destruct t as [|d t]; [reflexivity|].
    cbn [lower String.prefix].
    rewrite (IH t Hkw).
    destruct (ascii_dec (lower_char c) (lower_char d)) as [-> | Hne].
    + now rewrite Ascii.eqb_refl.
    + apply Ascii.eqb_neq in Hne. now rewrite Hne.
Qed.

(** Without wildcards in the keyword, the comparison against
    [%keyword%] is the case-insensitive substring test. *)
Lemma compare_contains (kw t : string) :
  Memory.no_wildcard kw = true ->
  pattern_compare ("%" +:+ kw +:+ "%") t = Memory.contains_ci kw t.
Proof.
  intros Hw. unfold Memory.contains_ci.
  rewrite str_in_any_suffix, <- any_suffix_lower.
  change (any_suffix (pattern_compare (kw +:+ "%")) t
          = any_suffix (fun s => String.prefix (lower kw) (lower s)) t).
  apply any_suffix_ext. intros s. now apply compare_keyword_prefix.
Qed.

Lemma c_string_no_nul (s : string) :
  Memory.no_nul s = true -> c_string s = s.
Proof.
  induction s as [|c s IH]; [reflexivity|].
  cbn [Memory.no_nul c_string]. intros H.
  apply andb_true_iff in H as [Hc Hs]. apply negb_true_iff in Hc.
  now rewrite Hc, IH.
Qed.

Lemma no_nul_append (a b : string) :
  Memory.no_nul a = true -> Memory.no_nul b = true ->
  Memory.no_nul (a +:+ b) = true.
Proof.
  intros Ha Hb. induction a as [|c a IH]; [exact Hb|].
  change (String c a +:+ b) with (String c (a +:+ b)).
  cbn [Memory.no_nul] in *. apply andb_true_iff in Ha as [Hc Ha].
  now rewrite Hc, IH.
Qed.

(** For a keyword without wildcard and without NUL, [LIKE %keyword%]
    is the case-insensitive substring test on the text up to its first
    NUL. *)
Lemma like_contains (kw t : string) :
  Memory.no_wildcard kw = true -> Memory.no_nul kw = true ->
  like ("%" +:+ kw +:+ "%") t = Memory.contains_ci kw (c_string t).
Proof.
  intros Hw Hn. unfold like.
  rewrite c_string_no_nul.
  - now apply compare_contains.
  - apply (no_nul_append "%"); [reflexivity|].
    now apply no_nul_append.
Qed.

Lemma bind_integer_ok (n : Z) :
  - 2 ^ 63 <= n <= 2 ^ 63 - 1 -> bind_integer n = Py.Ok n.
Proof.
  intros H. unfold bind_integer.
  destruct (Z.leb_spec (- 2 ^ 63) n); [|lia].
  destruct (Z.leb_spec n (2 ^ 63 - 1)); [reflexivity | lia].
Qed.

Lemma bind_integer_inv (n m : Z) :
  bind_integer n = Py.Ok m -> m = n /\ - 2 ^ 63 <= n <= 2 ^ 63 - 1.
Proof.
  unfold bind_integer.
  destruct (Z.leb_spec (- 2 ^ 63) n); [|discriminate].
  destruct (Z.leb_spec n (2 ^ 63 - 1)); [|discriminate].
  intros E. injection E as <-. lia.
Qed.

Lemma bind_integer_overflow (n : Z) :
  2 ^ 63 <= n \/ n < - 2 ^ 63 -> bind_integer n = Py.Raise Py.OverflowError.
Proof.
  intros H. unfold bind_integer.
  destruct (Z.leb_spec (- 2 ^ 63) n); [|reflexivity].
  destruct (Z.leb_spec n (2 ^ 63 - 1)); [lia | reflexivity].
Qed.

(** ** ORDER BY and LIMIT *)

Section Order.
Context {A : Type} (key : A -> string).

Lemma insert_desc_In (x z : A) (l : list A) :
  In z (insert_desc key x l) <-> z = x \/ In z l.
Proof.
  induction l as [|y l IH]; simpl.
  - intuition.
  - destruct (String.ltb (key x) (key y)); simpl; rewrite ?IH; intuition.
Qed.

Lemma order_by_desc_In (z : A) (l : list A) :
  In z (order_by_desc key l) <-> In z l.
Proof.
  unfold order_by_desc.
  induction l as [|y l IH]; simpl; [reflexivity|].
  rewrite insert_desc_In, IH. intuition.
Qed.

Lemma insert_desc_length (x : A) (l : list A) :
  length (insert_desc key x l) = S (length l).
Proof.
  induction l as [|y l IH]; simpl; [reflexivity|].
  destruct (String.ltb (key x) (key y)); simpl; now rewrite ?IH.
Qed.

Lemma order_by_desc_length (l : list A) :
  length (order_by_desc key l) = length l.
Proof.
  unfold order_by_desc.
  induction l as [|y l IH]; simpl; [reflexivity|].
  now rewrite insert_desc_length, IH.
Qed.

(** A row whose key is above every other key comes out first, also
    when it was inserted last. *)
Lemma order_by_desc_newest (l : list A) (x : A) :
  Forall (fun y => String.ltb (key y) (key x) = true) l ->
  order_by_desc key (l ++ [x]) = x :: order_by_desc key l.
Proof.
  unfold order_by_desc. rewrite fold_right_app. simpl.
  induction 1 as [|y l Hy _ IH]; simpl; [reflexivity|].
  rewrite IH. simpl. now rewrite Hy.
Qed.

Lemma ltb_false_leb (s1 s2 : string) :
  String.ltb s1 s2 = false <-> String.leb s2 s1 = true.
Proof.
  unfold String.ltb, String.leb. rewrite (String.compare_antisym s2 s1).
  destruct (String.compare s1 s2); simpl; intuition congruence.
Qed.

Lemma ltb_true_leb (s1 s2 : string) :
  String.ltb s1 s2 = true -> String.leb s1 s2 = true.
Proof.
  unfold String.ltb, String.leb.
  destruct (String.compare s1 s2); simpl; congruence.
Qed.

Lemma leb_trans (s1 s2 s3 : string) :
  String.leb s1 s2 = true -> String.leb s2 s3 = true ->
  String.leb s1 s3 = true.
Proof.
  unfold String.leb. intros H12 H23.
  destruct (String.compare s1 s3) eqn:H13; try reflexivity.
  exfalso.
  assert (String_as_OT.lt s3 s1) as L31.
  { apply String_as_OT.cmp_lt. unfold String_as_OT.cmp.
    rewrite String.compare_antisym, H13. reflexivity. }
  destruct (String.compare s1 s2) eqn:E12; try discriminate.
  - apply String.compare_eq_iff in E12. subst s2.
    rewrite H13 in H23. discriminate.
  - assert (String_as_OT.lt s1 s2) as L12 by now apply String_as_OT.cmp_lt.
    pose proof (String_as_OT.lt_trans _ _ _ L31 L12) as L32.
    apply String_as_OT.cmp_lt in L32. unfold String_as_OT.cmp in L32.
    rewrite String.compare_antisym, L32 in H23. discriminate.
Qed.

Lemma ge_key_trans (a b c : A) :
  ge_key key a b -> ge_key key b c -> ge_key key a c.
Proof. unfold ge_key. intros H1 H2. eapply leb_trans; eassumption. Qed.

Lemma insert_desc_sorted (x : A) (l : list A) :
  StronglySorted (ge_key key) l ->
  StronglySorted (ge_key key) (insert_desc key x l).
Proof.
  induction 1 as [|y l Hs IH Hy]; simpl.
  - constructor; constructor.
  - destruct (String.ltb (key x) (key y)) eqn:E.
    + constructor; [exact IH|].
      apply List.Forall_forall. intros z Hz.
      apply insert_desc_In in Hz as [-> | Hz].
      * unfold ge_key. now apply ltb_true_leb.
      * rewrite List.Forall_forall in Hy. now apply Hy.
    + apply ltb_false_leb in E.
      constructor; [constructor; assumption|].
      constructor; [exact E|].
      apply List.Forall_forall. intros z Hz.
      rewrite List.Forall_forall in Hy.
      eapply ge_key_trans; [exact E | now apply Hy].
Qed.

Lemma order_by_desc_sorted (l : list A) :
  StronglySorted (ge_key key) (order_by_desc key l).
Proof.
  unfold order_by_desc.
  induction l as [|y l IH]; simpl; [constructor|].
  now apply insert_desc_sorted.
Qed.

Lemma insert_desc_count (p : A -> bool) (x : A) (l : list A) :
  length (List.filter p (insert_desc key x l))
  = length (List.filter p (x :: l)).
Proof.
  induction l as [|y l IH]; [reflexivity|].
  cbn [insert_desc]. destruct (String.ltb (key x) (key y)); [|reflexivity].
  cbn [List.filter] in *. destruct (p y), (p x); cbn [length] in *; lia.
Qed.

Lemma order_by_desc_count (p : A -> bool) (l : list A) :
  length (List.filter p (order_by_desc key l)) = length (List.filter p l).
Proof.
  unfold order_by_desc.
  induction l as [|y l IH]; [reflexivity|].
  cbn [fold_right]. rewrite insert_desc_count.
  cbn [List.filter]. destruct (p y); cbn [length]; now rewrite IH.
Qed.

(** In a list sorted by descending key, an element is among the first
    [n] when at most [n] elements, itself included, have a key that is
    not below its own. *)
Lemma sorted_take_In (x : A) (l : list A) (n : nat) :
  StronglySorted (ge_key key) l -> In x l ->
  (length (List.filter (fun y => negb (String.ltb (key y) (key x))) l) <= n)%nat ->
  In x (take n l).
Proof.
  intros Hs. revert n. induction Hs as [|y l Hs IH Hy]; intros n Hin Hn.
  - destruct Hin.
  - destruct Hin as [-> | Hin].
    + cbn [List.filter] in Hn.
      assert (String.ltb (key x) (key x) = false) as E.
      { unfold String.ltb.
        assert (String.compare (key x) (key x) = Eq) as ->; [|reflexivity].
        generalize (key x). intros t. induction t as [|c t IHt]; [reflexivity|].
        cbn [String.compare]. unfold Ascii.compare. now rewrite N.compare_refl. }
      rewrite E in Hn. cbn [negb length] in Hn.
      destruct n; [lia|]. now left.
    + rewrite List.Forall_forall in Hy. specialize (Hy x Hin).
      unfold ge_key in Hy. cbn [List.filter] in Hn.
      assert (String.ltb (key y) (key x) = false) as E
        by now apply ltb_false_leb.
      rewrite E in Hn. cbn [negb length] in Hn.
      destruct n; [lia|]. right. apply IH; [assumption | lia].
Qed.

End Order.

Lemma limit_nonneg {A} (n : Z) (rows : list A) :
  0 <= n -> limit n rows = take (Z.to_nat n) rows.
Proof. intros H. unfold limit. destruct (Z.ltb_spec n 0); [lia | reflexivity]. Qed.

Lemma take_In {A} (n : nat) (l : list A) (x : A) :
  In x (take n l) -> In x l.
Proof.
  revert n. induction l as [|y l IH]; intros [|n]; simpl; try tauto.
  intros [-> | H]; [now left | right; eauto].
Qed.

Lemma limit_In {A} (n : Z) (rows : list A) (x : A) :
  In x (limit n rows) -> In x rows.
Proof.
  unfold limit. destruct (n <? 0); [auto|]. apply take_In.
Qed.

Lemma strongly_sorted_take {A} (R : A -> A -> Prop) (n : nat) (l : list A) :
  StronglySorted R l -> StronglySorted R (take n l).
Proof.
  intros H. revert n. induction H as [|x l Hs IH Hx]; intros [|n]; simpl;
    try constructor.
  - apply IH.
  - apply List.Forall_forall. intros z Hz. rewrite List.Forall_forall in Hx.
    apply Hx. eapply take_In; eassumption.
Qed.

(** A statement whose limit fits 64 bits and whose pattern is short
    returns the rows that pass its conditions, in order and capped. *)
Lemma select_like_ok {A} (pattern : string) (condition : A -> bool)
    (key : A -> string) (n : Z) (rows : list A) :
  - 2 ^ 63 <= n <= 2 ^ 63 - 1 ->
  pattern_too_complex pattern = false ->
  select_like pattern condition key n rows
  = Py.Ok (limit n (order_by_desc key (List.filter condition rows))).
Proof.
  intros Hn Hp. unfold select_like. rewrite bind_integer_ok by assumption.
  cbn [mbind Py.result_bind]. rewrite Hp.
  destruct (Z.eqb_spec n 0) as [-> | Hne].
  - reflexivity.
  - destruct rows as [|row rows]; [|reflexivity].
    unfold limit. cbn [List.filter order_by_desc fold_right].
    destruct (n <? 0); [reflexivity|]. now destruct (Z.to_nat n).
Qed.

End SqlFacts.

(* ================================================================== *)
(** * Theorems: persistent memory *)
(* ================================================================== *)

Module MemoryFacts.
Import PyStr Memory Scenarios.

(** ** Reading the selected rows *)

Lemma mapM_ok {A B} (f : A -> Py.result B) (l : list A) :
  (forall a, In a l -> exists b, f a = Py.Ok b) ->
  exists bs, mapM f l = Py.Ok bs.
Proof.
  induction l as [|a l IH]; intros H; simpl.
  - eexists. reflexivity.
  - destruct (H a (or_introl eq_refl)) as [b Hb].
    destruct IH as [bs Hbs]; [intros; apply H; now right|].
    exists (b :: bs). rewrite Hb, Hbs. reflexivity.
Qed.

Lemma mapM_cons {A B} (f : A -> Py.result B) (a : A) (l : list A) :
  mapM f (a :: l) = (y ← f a; k ← mapM f l; mret (y :: k)).
Proof. reflexivity. Qed.

Lemma mapM_Forall2 {A B} (f : A -> Py.result B) (l : list A) (bs : list B) :
  mapM f l = Py.Ok bs -> List.Forall2 (fun a b => f a = Py.Ok b) l bs.
Proof.
  revert bs. induction l as [|a l IH]; intros bs H.
  - cbn in H. injection H as <-. constructor.
  - rewrite mapM_cons in H.
    destruct (f a) as [b|e] eqn:Hb; [|discriminate].
    cbn [mbind Py.result_bind] in H.
    destruct (mapM f l) as [k|e] eqn:Hk; [|discriminate].
    cbn in H. injection H as <-. constructor; auto.
Qed.

Lemma Forall2_In_r {A B} (rel : A -> B -> Prop) (l : list A) (l' : list B)
    (b : B) :
  List.Forall2 rel l l' -> In b l' -> exists a, In a l /\ rel a b.
Proof.
  induction 1 as [|a0 b0 l l' H0 Hl IH]; intros Hin; [destruct Hin|].
  destruct Hin as [<- | Hin].
  - exists a0. split; [now left | assumption].
  - destruct (IH Hin) as (a & Ha & Hr). exists a. split; [now right | assumption].
Qed.

Lemma Forall2_In_l {A B} (rel : A -> B -> Prop) (l : list A) (l' : list B)
    (a : A) :
  List.Forall2 rel l l' -> In a l -> exists b, In b l' /\ rel a b.
Proof.
  induction 1 as [|a0 b0 l l' H0 Hl IH]; intros Hin; [destruct Hin|].
  destruct Hin as [<- | Hin].
  - exists b0. split; [now left | assumption].
  - destruct (IH Hin) as (b & Hb & Hr). exists b. split; [now right | assumption].
Qed.

Lemma Forall2_weaken {A B} (P Q : A -> B -> Prop) (l : list A) (l' : list B) :
  (forall a b, P a b -> Q a b) -> List.Forall2 P l l' -> List.Forall2 Q l l'.
Proof. intros H. induction 1; constructor; auto. Qed.

Lemma limit_covering {A} (n : Z) (l : list A) :
  Z.of_nat (length l) <= n -> Sql.limit n l = l.
Proof.
  intros H. rewrite SqlFacts.limit_nonneg by lia. apply take_ge. lia.
Qed.

Section Rows.
Variable json_loads : string -> Py.result Py.pyval.

Lemma task_of_row_record (row : task_row) (k : task) :
  task_of_row json_loads row = Py.Ok k -> Store.task_record_of k row.
Proof.
  unfold task_of_row. destruct (load_metadata json_loads (t_metadata row));
    [|discriminate].
  cbn. intros H. injection H as <-. repeat split.
Qed.

Lemma consultation_of_row_record (row : consultation_row) (r : consultation) :
  consultation_of_row json_loads row = Py.Ok r -> Store.record_of r row.
Proof.
  unfold consultation_of_row.
  destruct (load_metadata json_loads (c_metadata row)); [|discriminate].
  cbn. intros H. injection H as <-. repeat split.
Qed.

Lemma consultation_of_row_readable (row : consultation_row) :
  readable json_loads (c_metadata row)
  <-> exists r, consultation_of_row json_loads row = Py.Ok r.
Proof.
  unfold readable, consultation_of_row. split.
  - intros [v ->]. eexists. reflexivity.
  - destruct (load_metadata json_loads (c_metadata row)) as [v|e].
    + eauto.
    + intros [r H]. discriminate.
Qed.

Lemma task_of_row_readable (row : task_row) :
  readable json_loads (t_metadata row)
  <-> exists k, task_of_row json_loads row = Py.Ok k.
Proof.
  unfold readable, task_of_row. split.
  - intros [v ->]. eexists. reflexivity.
  - destruct (load_metadata json_loads (t_metadata row)) as [v|e].
    + eauto.
    + intros [r H]. discriminate.
Qed.

(** What [recall_consultations] and [recall_tasks] return, when they
    return: the records of the rows their statement selects. *)
Lemma recall_consultations_inv (now : DateTime.datetime)
    (agent_name : option string) (limit : Z) (days : option Z) (self : db)
    (found : list consultation) :
  recall_consultations json_loads now agent_name limit days self = Py.Ok found ->
  exists cutoff,
    cutoff_of now days = Py.Ok cutoff
    /\ - 2 ^ 63 <= limit <= 2 ^ 63 - 1
    /\ List.Forall2 (fun row r => consultation_of_row json_loads row = Py.Ok r)
         (select_consultations agent_name cutoff limit self) found.
Proof.
  unfold recall_consultations. intros H.
  destruct (cutoff_of now days) as [cutoff|e]; [|discriminate].
  cbn [mbind Py.result_bind] in H.
  destruct (Sql.bind_integer limit) as [n|e] eqn:Hn; [|discriminate].
  apply SqlFacts.bind_integer_inv in Hn as [-> Hn].
  cbn [mbind Py.result_bind] in H. apply mapM_Forall2 in H.
  exists cutoff. auto.
Qed.

Lemma recall_tasks_inv (now : DateTime.datetime)
    (agent_name task_type : option string) (limit : Z) (days : option Z)
    (self : db) (found : list task) :
  recall_tasks json_loads now agent_name task_type limit days self
  = Py.Ok found ->
  exists cutoff,
    cutoff_of now days = Py.Ok cutoff
    /\ - 2 ^ 63 <= limit <= 2 ^ 63 - 1
    /\ List.Forall2 (fun row k => task_of_row json_loads row = Py.Ok k)
         (select_tasks agent_name task_type cutoff limit self) found.
Proof.
  unfold recall_tasks. intros H.
  destruct (cutoff_of now days) as [cutoff|e]; [|discriminate].
  cbn [mbind Py.result_bind] in H.
  destruct (Sql.bind_integer limit) as [n|e] eqn:Hn; [|discriminate].
  apply SqlFacts.bind_integer_inv in Hn as [-> Hn].
  cbn [mbind Py.result_bind] in H. apply mapM_Forall2 in H.
  exists cutoff. auto.
Qed.

(** With no window of days, a recall whose limit fits 64 bits returns
    exactly when the metadata of the selected rows is readable. *)
Lemma recall_consultations_returns (now : DateTime.datetime)
    (agent_name : option string) (limit : Z) (self : db) :
  - 2 ^ 63 <= limit <= 2 ^ 63 - 1 ->
  (exists found,
     recall_consultations json_loads now agent_name limit None self
     = Py.Ok found)
  <-> (forall row, In row (select_consultations agent_name None limit self) ->
                   readable json_loads (c_metadata row)).
Proof.
  intros Hl. split.
  - intros [found H] row Hrow.
    apply recall_consultations_inv in H as (cutoff & Hc & _ & H).
    cbn in Hc. injection Hc as <-.
    destruct (Forall2_In_l _ _ _ _ H Hrow) as (r & _ & Hr).
    apply consultation_of_row_readable. eauto.
  - intros H. unfold recall_consultations.
    cbn [cutoff_of mbind Py.result_bind].
    rewrite SqlFacts.bind_integer_ok by assumption.
    cbn [mbind Py.result_bind]. apply mapM_ok.
    intros row Hrow. apply consultation_of_row_readable. auto.
Qed.

Lemma recall_tasks_returns (now : DateTime.datetime)
    (agent_name task_type : option string) (limit : Z) (self : db) :
  - 2 ^ 63 <= limit <= 2 ^ 63 - 1 ->
  (exists found,
     recall_tasks json_loads now agent_name task_type limit None self
     = Py.Ok found)
  <-> (forall row, In row (select_tasks agent_name task_type None limit self) ->
                   readable json_loads (t_metadata row)).
Proof.
  intros Hl. split.
  - intros [found H] row Hrow.
    apply recall_tasks_inv in H as (cutoff & Hc & _ & H).
    cbn in Hc. injection Hc as <-.
    destruct (Forall2_In_l _ _ _ _ H Hrow) as (r & _ & Hr).
    apply task_of_row_readable. eauto.
  - intros H. unfold recall_tasks.
    cbn [cutoff_of mbind Py.result_bind].
    rewrite SqlFacts.bind_integer_ok by assumption.
    cbn [mbind Py.result_bind]. apply mapM_ok.
    intros row Hrow. apply task_of_row_readable. auto.
Qed.

End Rows.

Lemma filter_all {A} (f : A -> bool) (l : list A) :
  (forall x, f x = true) -> List.filter f l = l.
Proof.
  intros H. induction l as [|x l IH]; [reflexivity|].
  cbn [List.filter]. now rewrite H, IH.
Qed.

(** ** Agent filter *)

Example recall_with_empty_agent_name :
  List.map c_agent_name (select_consultations (Some "") None 10 two_agents)
  = ["BackendExpert"; "DataEngineer"]
  /\ List.map c_agent_name
       (select_consultations (Some "DataEngineer") None 10 two_agents)
     = ["DataEngineer"].
Proof. split; vm_compute; reflexivity. Qed.

Lemma select_all_consultations (limit : Z) (self : db) (row : consultation_row) :
  Z.of_nat (length (consultations self)) <= limit ->
  In row (consultations self) ->
  In row (select_consultations (Some "") None limit self).
Proof.
  intros Hl Hin. unfold select_consultations.
  rewrite SqlFacts.limit_nonneg by lia.
  rewrite take_ge.
  - apply SqlFacts.order_by_desc_In, List.filter_In. auto.
  - rewrite SqlFacts.order_by_desc_length.
    etransitivity; [apply List.filter_length_le | lia].
Qed.

Lemma select_all_tasks (limit : Z) (self : db) (row : task_row) :
  Z.of_nat (length (tasks self)) <= limit ->
  In row (tasks self) ->
  In row (select_tasks (Some "") None None limit self).
Proof.
  intros Hl Hin. unfold select_tasks.
  rewrite SqlFacts.limit_nonneg by lia.
  rewrite take_ge.
  - apply SqlFacts.order_by_desc_In, List.filter_In. auto.
  - rewrite SqlFacts.order_by_desc_length.
    etransitivity; [apply List.filter_length_le | lia].
Qed.

(** C8: an empty agent name is no filter.  [recall_consultations] and
    [recall_tasks] answer for it what they answer for [None].  Whatever
    they return for it are the records, in order, of the rows selected
    with no condition on the agent: the newest rows of the window, of
    whatever agent, up to the limit.  And with no window, a limit that
    covers the table and readable metadata they do return, a record for
    every row of every agent. *)
Theorem empty_agent_name_is_no_filter
    (json_loads : string -> Py.result Py.pyval)
    (now : DateTime.datetime) (task_type : option string)
    (limit : Z) (days : option Z) (self : db) :
  recall_consultations json_loads now (Some "") limit days self
  = recall_consultations json_loads now None limit days self
  /\ recall_tasks json_loads now (Some "") task_type limit days self
     = recall_tasks json_loads now None task_type limit days self
  /\ (forall found,
        recall_consultations json_loads now (Some "") limit days self
        = Py.Ok found ->
        exists cutoff,
          cutoff_of now days = Py.Ok cutoff
          /\ List.Forall2 (fun row r => Store.record_of r row)
               (Sql.limit limit
                  (Sql.order_by_desc c_timestamp
                     (List.filter
                        (fun row => after_cutoff cutoff (c_timestamp row))
                        (consultations self))))
               found)
  /\ (forall found,
        recall_tasks json_loads now (Some "") task_type limit days self
        = Py.Ok found ->
        exists cutoff,
          cutoff_of now days = Py.Ok cutoff
          /\ List.Forall2 (fun row k => Store.task_record_of k row)
               (Sql.limit limit
                  (Sql.order_by_desc t_timestamp
                     (List.filter
                        (fun row => filter_given task_type (t_task_type row)
                                    && after_cutoff cutoff (t_timestamp row))
                        (tasks self))))
               found)
  /\ (Z.of_nat (length (consultations self)) <= limit <= 2 ^ 63 - 1 ->
      (forall row, In row (consultations self) ->
                   readable json_loads (c_metadata row)) ->
      exists found,
        recall_consultations json_loads now (Some "") limit None self
        = Py.Ok found
        /\ length found = length (consultations self)
        /\ forall row, In row (consultations self) ->
             exists r, In r found /\ Store.record_of r row)
  /\ (Z.of_nat (length (tasks self)) <= limit <= 2 ^ 63 - 1 ->
      (forall row, In row (tasks self) ->
                   readable json_loads (t_metadata row)) ->
      exists found,
        recall_tasks json_loads now (Some "") None limit None self
        = Py.Ok found
        /\ length found = length (tasks self)
        /\ forall row, In row (tasks self) ->
             exists k, In k found /\ Store.task_record_of k row).
Proof.
  split; [reflexivity|]. split; [reflexivity|]. split; [|split; [|split]].
  - intros found H.
    apply recall_consultations_inv in H as (cutoff & Hc & _ & H).
    exists cutoff. split; [assumption|].
    eapply Forall2_weaken; [|exact H].
    intros row r. apply consultation_of_row_record.
  - intros found H.
    apply recall_tasks_inv in H as (cutoff & Hc & _ & H).
    exists cutoff. split; [assumption|].
    eapply Forall2_weaken; [|exact H].
    intros row k. apply task_of_row_record.
  - intros Hl Hread.
    destruct (proj2 (recall_consultations_returns json_loads now (Some "")
                       limit self ltac:(lia))) as [found Hfound].
    { intros row Hrow. apply Hread.
      unfold select_consultations in Hrow.
      now apply SqlFacts.limit_In, SqlFacts.order_by_desc_In,
        List.filter_In in Hrow as [Hrow _]. }
    exists found. split; [exact Hfound|].
    apply recall_consultations_inv in Hfound as (cutoff & Hc & _ & H).
    cbn in Hc. injection Hc as <-.
    assert (Hsel : select_consultations (Some "") None limit self
                   = Sql.order_by_desc c_timestamp (consultations self)).
    { unfold select_consultations. rewrite limit_covering.
      - f_equal. now apply filter_all.
      - rewrite SqlFacts.order_by_desc_length.
        pose proof (List.filter_length_le
                      (fun row => filter_given (Some "") (c_agent_name row)
                                  && after_cutoff None (c_timestamp row))
                      (consultations self)). lia. }
    rewrite Hsel in H. split.
    + rewrite <- (List.Forall2_length H).
      apply SqlFacts.order_by_desc_length.
    + intros row Hrow.
      apply (SqlFacts.order_by_desc_In c_timestamp) in Hrow.
      destruct (Forall2_In_l _ _ _ _ H Hrow) as (r & Hr & Hrr).
      exists r. split; [assumption|].
      now apply (consultation_of_row_record json_loads).
  - intros Hl Hread.
    destruct (proj2 (recall_tasks_returns json_loads now (Some "") None
                       limit self ltac:(lia))) as [found Hfound].
    { intros row Hrow. apply Hread.
      unfold select_tasks in Hrow.
      now apply SqlFacts.limit_In, SqlFacts.order_by_desc_In,
        List.filter_In in Hrow as [Hrow _]. }
    exists found. split; [exact Hfound|].
    apply recall_tasks_inv in Hfound as (cutoff & Hc & _ & H).
    cbn in Hc. injection Hc as <-.
    assert (Hsel : select_tasks (Some "") None None limit self
                   = Sql.order_by_desc t_timestamp (tasks self)).
    { unfold select_tasks. rewrite limit_covering.
      - f_equal. now apply filter_all.
      - rewrite SqlFacts.order_by_desc_length.
        pose proof (List.filter_length_le
                      (fun row => filter_given (Some "") (t_agent_name row)
                                  && filter_given None (t_task_type row)
                                  && after_cutoff None (t_timestamp row))
                      (tasks self)). lia. }
    rewrite Hsel in H. split.
    + rewrite <- (List.Forall2_length H).
      apply SqlFacts.order_by_desc_length.
    + intros row Hrow.
      apply (SqlFacts.order_by_desc_In t_timestamp) in Hrow.
      destruct (Forall2_In_l _ _ _ _ H Hrow) as (k & Hk & Hkk).
      exists k. split; [assumption|].
      now apply (task_of_row_record json_loads).
Qed.

Lemma empty_agent_name_is_no_filter_witness :
  exists found,
    recall_consultations loads_empty noon (Some "") 2 None two_agents
    = Py.Ok found
    /\ length found = 2%nat
    /\ forall row, In row (consultations two_agents) ->
         exists r, In r found /\ Store.record_of r row.
Proof.
  destruct (empty_agent_name_is_no_filter loads_empty noon None 2 None two_agents)
    as (_ & _ & _ & _ & H & _).
  apply H.
  - vm_compute. split; discriminate.
  - intros row [<- | [<- | []]]; eexists; reflexivity.
Defined.

(** ** Search *)

Lemma slice_to_prefix (n : nat) (text : string) :
  String.prefix (slice_to n text) text = true
  /\ String.length (slice_to n text) = Nat.min n (String.length text).
Proof.
  revert n. induction text as [|c text IH]; intros [|n]; simpl; auto.
  destruct (IH n) as [Hp Hl]. rewrite Hl.
  destruct (ascii_dec c c); [auto | congruence].
Qed.

Lemma length_append (a b : string) :
  String.length (a +:+ b) = (String.length a + String.length b)%nat.
Proof.
  induction a as [|c a IH]; [reflexivity|].
  change (String c a +:+ b) with (String c (a +:+ b)).
  cbn [String.length]. now rewrite IH.
Qed.

Lemma plain_keyword_pattern (keyword : string) :
  plain_keyword keyword = true ->
  no_wildcard keyword = true /\ no_nul keyword = true
  /\ Sql.pattern_too_complex ("%" +:+ keyword +:+ "%") = false.
Proof.
  unfold plain_keyword. intros H.
  apply andb_true_iff in H as [H Hlen]. apply andb_true_iff in H as [Hw Hn].
  split; [assumption|]. split; [assumption|].
  unfold Sql.pattern_too_complex, len.
  change ("%" +:+ keyword +:+ "%") with (String "%" (keyword +:+ "%")).
  cbn [String.length]. rewrite length_append. cbn [String.length].
  apply Z.leb_le in Hlen. unfold len in Hlen.
  apply Z.ltb_ge. lia.
Qed.

Lemma search_unfold (keyword : string) (limit : Z) (self : db) :
  0 <= limit <= 2 ^ 63 - 1 ->
  Sql.pattern_too_complex ("%" +:+ keyword +:+ "%") = false ->
  search keyword limit self
  = Py.Ok
      (take (Z.to_nat limit)
         (Sql.order_by_desc sr_timestamp
            (List.map consultation_result
               (take (Z.to_nat limit)
                  (Sql.order_by_desc c_timestamp
                     (List.filter
                        (fun row =>
                           Sql.like ("%" +:+ keyword +:+ "%") (c_query row)
                           || Sql.like ("%" +:+ keyword +:+ "%") (c_response row))
                        (consultations self))))
             ++ List.map task_result
                  (take (Z.to_nat limit)
                     (Sql.order_by_desc t_timestamp
                        (List.filter
                           (fun row =>
                              Sql.like ("%" +:+ keyword +:+ "%") (t_description row)
                              || Sql.like_null ("%" +:+ keyword +:+ "%") (t_result row))
                           (tasks self))))))).
Proof.
  intros H Hp. unfold search, PyList.slice_to.
  rewrite !SqlFacts.select_like_ok by (assumption || lia).
  cbn [mbind Py.result_bind].
  rewrite !SqlFacts.limit_nonneg by lia.
  destruct (Z.leb_spec 0 limit); [reflexivity | lia].
Qed.

Lemma search_is_spec_search (keyword : string) (limit : Z) (self : db) :
  plain_keyword keyword = true -> 0 <= limit <= 2 ^ 63 - 1 ->
  search keyword limit self
  = Py.Ok (spec_search keyword (Z.to_nat limit) self).
Proof.
  intros Hk Hl. apply plain_keyword_pattern in Hk as (Hw & Hn & Hp).
  rewrite search_unfold by assumption. unfold spec_search.
  rewrite (List.filter_ext _ (consultation_matches keyword)).
  2:{ intros row. unfold consultation_matches, searched.
      now rewrite !SqlFacts.like_contains. }
  rewrite (List.filter_ext _ (task_matches keyword)).
  2:{ intros row. unfold task_matches, searched, Sql.like_null.
      rewrite SqlFacts.like_contains by assumption.
      destruct (t_result row); [|reflexivity].
      now rewrite SqlFacts.like_contains. }
  reflexivity.
Qed.

Lemma spec_search_from_rows (keyword : string) (limit : nat) (self : db) :
  Forall (from_matching_row keyword self) (spec_search keyword limit self).
Proof.
  apply List.Forall_forall. intros r Hr. unfold spec_search in Hr.
  apply SqlFacts.take_In, SqlFacts.order_by_desc_In, in_app_or in Hr.
  destruct Hr as [Hr | Hr]; apply in_map_iff in Hr as (row & <- & Hrow);
    apply SqlFacts.take_In, SqlFacts.order_by_desc_In, List.filter_In in Hrow
      as [Hin Hm]; [left | right]; (split; [reflexivity | eauto]).
Qed.

(** The scenario of the specification: a consultation about
    [Optimization] and a task about [optimize] are both found by
    [optim], each under its own type. *)
Example search_optim :
  (found ← search "optim" 10 optimization_store;
   Py.Ok (List.map (fun r => (sr_type r, sr_agent r)) found))
  = Py.Ok [("task", "DataEngineer"); ("consultation", "BackendExpert")].
Proof. vm_compute. reflexivity. Qed.

(** A limit that does not fit 64 bits is refused when it is bound, and a
    long pattern by the LIKE function when there is a row to read. *)
Example search_refused :
  search "ab" (2 ^ 63) plain_store = Py.Raise Py.OverflowError
  /\ search (Cases.repeated (Z.to_nat 49999) "x") 10 plain_store
     = Py.Raise (Py.OperationalError "LIKE or GLOB pattern too complex")
  /\ search (Cases.repeated (Z.to_nat 49999) "x") 0 plain_store = Py.Ok []
  /\ search (Cases.repeated (Z.to_nat 49999) "x") 10 _init_schema = Py.Ok [].
Proof. repeat split; vm_compute; reflexivity. Qed.

(** C3, as stated: the keyword [_] is a LIKE wildcard and finds rows
    that do not contain it; a text is searched up to its first NUL only,
    so that a later occurrence of the keyword is missed; a task without
    result text is returned with no preview instead of a truncated text
    with an ellipsis; a negative limit caps neither side and cuts the
    merged list from its end; and a limit of 2^63 raises. *)
Lemma search_wildcard_keyword :
  List.filter (consultation_matches "_") (consultations plain_store) = []
  /\ List.filter (task_matches "_") (tasks plain_store) = []
  /\ (found ← search "_" 10 plain_store; Py.Ok (length found)) = Py.Ok 3%nat
  /\ search "_" 10 plain_store <> Py.Ok (spec_search "_" 10 plain_store)
  /\ contains_ci "bcd" (c_query Cases.nul_row) = true
  /\ search "bcd" 10 (store [Cases.nul_row] []) = Py.Ok []
  /\ (found ← search "abc" 10 plain_store; Py.Ok (List.map sr_result found))
     = Py.Ok [Some None; None]
  /\ (found ← search "ab" (-1) plain_store; Py.Ok (length found))
     = Py.Ok 2%nat
  /\ search "ab" (2 ^ 63) plain_store = Py.Raise Py.OverflowError.
Proof.
  repeat split; try (vm_compute; reflexivity).
  vm_compute. discriminate.
Qed.

(** C3, amended: for a keyword without the LIKE wildcards [%] and [_],
    without NUL and of at most 49998 bytes, and a limit from 0 to
    2^63 - 1, [search] returns; it matches the keyword as a
    case-insensitive substring against query/response of consultations
    and description/result of tasks, each text read up to its first
    NUL, caps each side at [limit], merges, sorts by descending
    timestamp and truncates to [limit]; every result carries the type
    of the table its row comes from; and a preview is the first 200
    characters followed by [...], a task without result text having
    none. *)
Theorem search_without_wildcards (keyword : string) (limit : Z) (self : db) :
  plain_keyword keyword = true ->
  0 <= limit <= 2 ^ 63 - 1 ->
  let found := spec_search keyword (Z.to_nat limit) self in
  search keyword limit self = Py.Ok found
  /\ (length found <= Z.to_nat limit)%nat
  /\ StronglySorted not_older found
  /\ Forall (from_matching_row keyword self) found
  /\ (forall text,
        exists head,
          preview text = head +:+ "..."
          /\ String.prefix head text = true
          /\ String.length head = Nat.min 200 (String.length text))
  /\ (forall crow trow,
        sr_response (consultation_result crow)
        = Some (preview (c_response crow))
        /\ sr_result (task_result trow)
           = Some (match t_result trow with
                   | Some text =>
                       if truthy text then Some (preview text) else None
                   | None => None
                   end)).
Proof.
  intros Hk Hl found. subst found.
  split; [now apply search_is_spec_search|].
  split; [unfold spec_search; rewrite length_take; lia|].
  split.
  { unfold spec_search. apply SqlFacts.strongly_sorted_take.
    apply (SqlFacts.order_by_desc_sorted sr_timestamp). }
  split; [apply spec_search_from_rows|].
  split.
  - intros text. exists (slice_to 200 text).
    destruct (slice_to_prefix 200 text) as [Hp Hlen]. auto.
  - intros crow trow. split; reflexivity.
Qed.

Lemma search_without_wildcards_witness :
  search "OPTIM" 1 optimization_store
  = Py.Ok (spec_search "OPTIM" 1 optimization_store).
Proof.
  apply (search_without_wildcards "OPTIM" 1 optimization_store);
    [reflexivity | lia].
Defined.

(** ** Round trip of a consultation *)

Lemma filter_given_same (agent : string) :
  filter_given (Some agent) agent = true.
Proof.
  unfold filter_given. destruct (truthy agent); [apply String.eqb_refl | reflexivity].
Qed.

(** C6, as stated: [recall_consultations] orders by the stored timestamp,
    so with [limit = 1] a consultation written while the clock reads
    earlier than an older row is not the one returned; and the default
    metadata [None] comes back as the empty dictionary. *)
Lemma recall_misses_consultation_written_last :
  (d ← clock_set_back;
   found ← recall_consultations loads_empty (clock 2 11)
             (Some "DataEngineer") 1 None d;
   Py.Ok (List.map r_query found))
  = Py.Ok ["first question"]
  /\ (d ← clock_set_back;
      found ← recall_consultations loads_empty (clock 2 11)
                (Some "DataEngineer") 10 None d;
      Py.Ok (List.map r_metadata found))
     = Py.Ok [Py.VDict []; Py.VDict []]
  /\ Py.VDict [] <> Py.VNone.
Proof.
  split; [|split]; try (vm_compute; reflexivity). discriminate.
Qed.

Section RoundTrip.
Variable json_dumps : Py.pyval -> Py.result string.
Variable json_loads : string -> Py.result Py.pyval.

Lemma ltb_irrefl (s : string) : String.ltb s s = false.
Proof.
  unfold String.ltb.
  assert (String.compare s s = Eq) as ->; [|reflexivity].
  induction s as [|c s IH]; [reflexivity|].
  cbn [String.compare]. unfold Ascii.compare. now rewrite N.compare_refl.
Qed.

Lemma rank_counts (agent timestamp : string) (rows : list consultation_row) :
  length
    (List.filter (fun y => negb (String.ltb (c_timestamp y) timestamp))
       (List.filter
          (fun r => filter_given (Some agent) (c_agent_name r)
                    && after_cutoff None (c_timestamp r))
          rows))
  = length (List.filter (not_before agent timestamp) rows).
Proof.
  induction rows as [|y rows IH]; [reflexivity|].
  cbn [List.filter].
  change (not_before agent timestamp y)
    with (filter_given (Some agent) (c_agent_name y)
          && negb (String.ltb (c_timestamp y) timestamp)).
  change (after_cutoff None (c_timestamp y)) with true.
  destruct (filter_given (Some agent) (c_agent_name y)); cbn [andb List.filter].
  - destruct (negb (String.ltb (c_timestamp y) timestamp));
      cbn [length]; now rewrite IH.
  - exact IH.
Qed.

(** C6, amended: a consultation written via [remember_consultation]
    whose metadata (the empty dictionary standing for absent metadata)
    survives the JSON round trip is found again by
    [recall_consultations] for its agent, for every limit from 1 to
    2^63 - 1 that exceeds the number of stored consultations of the
    agent that are not strictly older than the write.  The recall
    returns exactly when the metadata of the selected consultations is
    readable, so it does when that of the agent's stored consultations
    is; what it returns holds a record whose id is the one the write
    returned, whose query, response and importance equal the inputs,
    whose metadata equals the input metadata, the empty dictionary
    standing for [None], and whose timestamp parses back to the time of
    the write; that record comes first when the stored consultations of
    the agent are strictly older. *)
Theorem consultation_round_trip
    (now now' : DateTime.datetime)
    (agent query response importance : string) (metadata : Py.pyval)
    (text : string) (limit : Z) (self : db) :
  json_dumps (Py.py_or metadata Py.empty_dict) = Py.Ok text ->
  truthy text = true ->
  json_loads text = Py.Ok (Py.py_or metadata Py.empty_dict) ->
  DateTime.valid now = true ->
  1 <= limit <= 2 ^ 63 - 1 ->
  rank agent (DateTime.isoformat now) self < limit ->
  exists id self',
    remember_consultation json_dumps now agent query response importance
      metadata self = Py.Ok (id, self')
    /\ ((exists found,
           recall_consultations json_loads now' (Some agent) limit None self'
           = Py.Ok found)
        <-> (forall row,
               In row (select_consultations (Some agent) None limit self') ->
               readable json_loads (c_metadata row)))
    /\ ((forall row, In row (consultations self) ->
                     same_agent agent row = true ->
                     readable json_loads (c_metadata row)) ->
        exists found,
          recall_consultations json_loads now' (Some agent) limit None self'
          = Py.Ok found)
    /\ (forall found,
          recall_consultations json_loads now' (Some agent) limit None self'
          = Py.Ok found ->
          exists r,
            In r found
            /\ r_id r = id /\ r_agent r = agent
            /\ r_query r = query /\ r_response r = response
            /\ r_importance r = importance
            /\ r_metadata r
               = (if Py.truthy metadata then metadata else Py.VDict [])
            /\ DateTime.fromisoformat (r_timestamp r) = Some now
            /\ ((forall row, In row (consultations self) ->
                             same_agent agent row = true ->
                             String.ltb (c_timestamp row)
                               (DateTime.isoformat now) = true) ->
                exists rest, found = r :: rest)).
Proof.
  intros Hdumps Htext Hloads Hvalid Hlimit Hrank.
  unfold remember_consultation. rewrite Hdumps. cbn [mbind Py.result_bind].
  eexists. eexists.
  set (row := {| c_id := consultations_seq self + 1; c_agent_name := agent;
                 c_query := query; c_response := response;
                 c_importance := importance; c_metadata := Some text;
                 c_timestamp := DateTime.isoformat now |}).
  set (self' := {| consultations := consultations self ++ [row];
                   consultations_seq := consultations_seq self + 1;
                   tasks := tasks self; tasks_seq := tasks_seq self |}).
  set (keep := fun r : consultation_row =>
                 filter_given (Some agent) (c_agent_name r)
                 && after_cutoff None (c_timestamp r)).
  set (older := List.filter keep (consultations self)).
  split; [reflexivity|].
  fold row. fold self'.
  assert (Hkeep : keep row = true).
  { unfold keep. cbn [c_agent_name c_timestamp row].
    now rewrite filter_given_same. }
  assert (Hselected :
    select_consultations (Some agent) None limit self'
    = take (Z.to_nat limit) (Sql.order_by_desc c_timestamp (older ++ [row]))).
  { unfold select_consultations. cbn [consultations self']. fold keep.
    rewrite List.filter_app. cbn [List.filter]. rewrite Hkeep. fold older.
    apply SqlFacts.limit_nonneg. lia. }
  assert (Hrow_in : In row (select_consultations (Some agent) None limit self')).
  { rewrite Hselected.
    apply (SqlFacts.sorted_take_In c_timestamp).
    - apply SqlFacts.order_by_desc_sorted.
    - apply SqlFacts.order_by_desc_In, List.in_app_iff. right. now left.
    - rewrite SqlFacts.order_by_desc_count, List.filter_app, List.length_app.
      cbn [List.filter c_timestamp row]. rewrite ltb_irrefl. cbn [negb length].
      unfold older, keep. rewrite rank_counts.
      unfold rank in Hrank. lia. }
  assert (Hsubset : forall x,
            In x (select_consultations (Some agent) None limit self') ->
            x = row \/ (In x (consultations self) /\ same_agent agent x = true)).
  { intros x Hx. rewrite Hselected in Hx.
    apply SqlFacts.take_In, SqlFacts.order_by_desc_In, List.in_app_iff in Hx.
    destruct Hx as [Hx | [<- | []]]; [right | now left].
    apply List.filter_In in Hx as [Hx Hk]. unfold keep in Hk.
    apply andb_true_iff in Hk as [Hk _]. auto. }
  assert (Hrow : consultation_of_row json_loads row
                 = Py.Ok {| r_id := c_id row; r_agent := agent;
                            r_query := query; r_response := response;
                            r_importance := importance;
                            r_metadata := Py.py_or metadata Py.empty_dict;
                            r_timestamp := DateTime.isoformat now |}).
  { unfold consultation_of_row. cbn [load_metadata c_metadata row].
    rewrite Htext, Hloads. reflexivity. }
  assert (Hreturns := recall_consultations_returns json_loads now' (Some agent)
                        limit self' ltac:(lia)).
  split; [exact Hreturns|]. split.
  { intros Hread. apply Hreturns. intros x Hx.
    destruct (Hsubset x Hx) as [-> | [Hin Hsame]]; [|now apply Hread].
    apply consultation_of_row_readable. rewrite Hrow. eauto. }
  intros found Hfound.
  apply recall_consultations_inv in Hfound as (cutoff & Hc & _ & H).
  cbn in Hc. injection Hc as <-.
  destruct (Forall2_In_l _ _ _ _ H Hrow_in) as (r & Hr & Hrr).
  rewrite Hrow in Hrr. injection Hrr as <-.
  eexists. split; [exact Hr|].
  cbn [r_id r_agent r_query r_response r_importance r_metadata r_timestamp
       c_id row].
  repeat (split; [reflexivity|]).
  split; [apply DateTimeFacts.fromisoformat_isoformat, Hvalid|].
  intros Hold.
  assert (Hfirst :
    select_consultations (Some agent) None limit self'
    = row :: take (Z.to_nat limit - 1) (Sql.order_by_desc c_timestamp older)).
  { rewrite Hselected, SqlFacts.order_by_desc_newest.
    - destruct (Z.to_nat limit) as [|n] eqn:E; [lia|].
      simpl. now rewrite Nat.sub_0_r.
    - apply List.Forall_forall. intros x Hx.
      apply List.filter_In in Hx as [Hx Hk]. unfold keep in Hk.
      apply andb_true_iff in Hk as [Hk _]. now apply Hold. }
  change (List.Forall2
            (fun row r => consultation_of_row json_loads row = Py.Ok r)
            (select_consultations (Some agent) None limit self') found) in H.
  rewrite Hfirst in H. inversion H as [|x r' l rest Hx Hl]; subst.
  rewrite Hrow in Hx. injection Hx as <-. now exists rest.
Qed.

End RoundTrip.

Lemma consultation_round_trip_witness :
  exists id self',
    remember_consultation dumps_empty (clock 11 0) "DataEngineer"
      "How to optimize dbt models?" "Use incremental models" "high"
      Py.VNone two_agents = Py.Ok (id, self')
    /\ exists found,
         recall_consultations loads_empty (clock 11 1) (Some "DataEngineer") 1
           None self' = Py.Ok found
         /\ exists r,
              In r found
              /\ r_id r = id /\ r_agent r = "DataEngineer"
              /\ r_query r = "How to optimize dbt models?"
              /\ r_response r = "Use incremental models"
              /\ r_importance r = "high"
              /\ r_metadata r = Py.VDict []
              /\ DateTime.fromisoformat (r_timestamp r) = Some (clock 11 0).
Proof.
  destruct (consultation_round_trip dumps_empty loads_empty (clock 11 0)
              (clock 11 1) "DataEngineer" "How to optimize dbt models?"
              "Use incremental models" "high" Py.VNone "{}" 1 two_agents)
    as (id & self' & Hwrite & _ & Hreturns & Hfound);
    try reflexivity; try (vm_compute; split; discriminate).
  exists id, self'. split; [exact Hwrite|].
  destruct Hreturns as [found Hrecall].
  { intros row [<- | [<- | []]] _; eexists; reflexivity. }
  exists found. split; [exact Hrecall|].
  destruct (Hfound found Hrecall)
    as (r & H1 & H2 & H3 & H4 & H5 & H6 & H7 & H8 & _).
  exists r. repeat split; assumption.
Defined.

End MemoryFacts.

(* ================================================================== *)
(** * Theorems: router *)
(* ================================================================== *)

Module RouterFacts.
Import Experts Router Scenarios.

Section Loading.
Variable memory_available : bool.
Implicit Types now : DateTime.datetime.

Local Abbreviation load now := (_load_agent memory_available false now).

Lemma load_cached now (n : string) (self : router) (a : agent) :
  agents self !! normalize n = Some a ->
  load now n self = (Py.Ok a, self).
Proof. intros H. unfold _load_agent. now rewrite H. Qed.

Lemma ensure_initialized_agents (self : router) :
  agents (_ensure_initialized memory_available self) = agents self
  /\ next_ident (_ensure_initialized memory_available self) = next_ident self
  /\ initialized (_ensure_initialized memory_available self) = true.
Proof.
  unfold _ensure_initialized.
  destruct (initialized self) eqn:E; simpl; auto.
Qed.

Lemma ensure_initialized_idem (self : router) :
  initialized self = true ->
  _ensure_initialized memory_available self = self.
Proof. intros H. unfold _ensure_initialized. now rewrite H. Qed.

Lemma load_unknown now (n : string) (self : router) :
  agents self !! normalize n = None ->
  agent_for (normalize n) = None ->
  load now n self
  = (Py.Raise (unknown_agent (normalize n)),
     _ensure_initialized memory_available self).
Proof. intros H1 H2. unfold _load_agent. now rewrite H1, H2. Qed.

Lemma load_fresh now (n : string) (self : router) (c : agent_class) (nm : string) :
  agents self !! normalize n = None ->
  agent_for (normalize n) = Some (c, nm) ->
  exists a self',
    load now n self = (Py.Ok a, self')
    /\ ident a = next_ident self /\ class_of a = c /\ name a = nm
    /\ agents self' = <[normalize n := a]> (agents self)
    /\ next_ident self' = S (next_ident self).
Proof.
  intros H1 H2. unfold _load_agent. rewrite H1, H2.
  destruct (ensure_initialized_agents self) as (Ha & Hn & _).
  destruct (brain (_ensure_initialized memory_available self)) as [b|];
    simpl; eexists; eexists; (split; [reflexivity|]); simpl;
    rewrite ?Ha, ?Hn; repeat split; reflexivity.
Qed.

Lemma load_consistent now (n : string) (self : router) :
  consistent self -> consistent (snd (load now n self)).
Proof.
  intros [Hc Hinj].
  destruct (agents self !! normalize n) as [a|] eqn:Hk.
  { rewrite (load_cached now _ _ _ Hk). split; assumption. }
  destruct (agent_for (normalize n)) as [[c nm]|] eqn:Hf.
  - destruct (load_fresh now _ _ _ _ Hk Hf)
      as (a & self' & -> & Hid & Hcl & Hnm & Hag & Hnext).
    simpl. split.
    + intros k a0. rewrite Hag, Hnext.
      destruct (decide (normalize n = k)) as [<- | Hne].
      * rewrite lookup_insert_eq. intros [= <-].
        rewrite Hcl, Hnm, Hid. split; [assumption | lia].
      * rewrite lookup_insert_ne by assumption.
        intros H. destruct (Hc _ _ H). split; [assumption | lia].
    + intros k1 k2 a1 a2. rewrite Hag.
      destruct (decide (normalize n = k1)) as [<- | Hne1];
        destruct (decide (normalize n = k2)) as [<- | Hne2];
        rewrite ?lookup_insert_eq, ?lookup_insert_ne by assumption;
        try reflexivity.
      * intros [= <-] H2 Heq. destruct (Hc _ _ H2). lia.
      * intros H1 [= <-] Heq. destruct (Hc _ _ H1). lia.
      * apply Hinj.
  - rewrite (load_unknown now _ _ Hk Hf). simpl.
    unfold consistent.
    destruct (ensure_initialized_agents self) as (-> & -> & _).
    split; assumption.
Qed.

Lemma load_keeps_cache now (n : string) (self : router) (k : string) (a : agent) :
  agents self !! k = Some a -> agents (snd (load now n self)) !! k = Some a.
Proof.
  intros H.
  destruct (agents self !! normalize n) as [a0|] eqn:Hk.
  { now rewrite (load_cached now _ _ _ Hk). }
  destruct (agent_for (normalize n)) as [[c nm]|] eqn:Hf.
  - destruct (load_fresh now _ _ _ _ Hk Hf) as (a1 & self' & -> & _ & _ & _ & Hag & _).
    simpl. rewrite Hag, lookup_insert_ne; [assumption|]. congruence.
  - rewrite (load_unknown now _ _ Hk Hf). simpl.
    now destruct (ensure_initialized_agents self) as (-> & _).
Qed.

(** Loading the same normalized name again returns what the first
    load returned and changes nothing. *)
Lemma load_again now now' (n1 n2 : string) (self : router) :
  normalize n1 = normalize n2 ->
  load now' n2 (snd (load now n1 self)) = load now n1 self.
Proof.
  intros Heq.
  destruct (agents self !! normalize n1) as [a|] eqn:Hk.
  { rewrite (load_cached now _ _ _ Hk). simpl. apply load_cached. now rewrite <- Heq. }
  destruct (agent_for (normalize n1)) as [[c nm]|] eqn:Hf.
  - destruct (load_fresh now _ _ _ _ Hk Hf) as (a & self' & -> & _ & _ & _ & Hag & _).
    simpl. apply load_cached. rewrite <- Heq, Hag. apply lookup_insert_eq.
  - rewrite (load_unknown now _ _ Hk Hf). simpl.
    destruct (ensure_initialized_agents self) as (Ha & _ & Hi).
    rewrite load_unknown; rewrite <- ?Heq, ?Ha; try assumption.
    now rewrite ensure_initialized_idem.
Qed.

(** A load from inside a running event loop, whatever it answers, keeps
    the router consistent as well. *)
Lemma load_in_loop_consistent now (n : string) (self : router) :
  consistent self ->
  consistent (snd (_load_agent memory_available true now n self)).
Proof.
  intros [Hc Hinj]. unfold _load_agent.
  destruct (agents self !! normalize n) as [a|] eqn:Hk; [split; assumption|].
  destruct (ensure_initialized_agents self) as (Ha & Hn & _).
  destruct (agent_for (normalize n)) as [[c nm]|]; simpl;
    unfold consistent; simpl; rewrite ?Ha, ?Hn.
  - split; [|assumption].
    intros k a H. destruct (Hc _ _ H). split; [assumption | lia].
  - split; assumption.
Qed.

End Loading.

Lemma alias_agent_for (c : agent_class) (nm : string) (aliases : list string)
    (k : string) :
  In (c, nm, aliases) alias_sets -> In k aliases ->
  agent_for k = Some (c, nm).
Proof.
  unfold alias_sets. simpl.
  intros [H | [H | [H | [H | []]]]]; injection H as <- <- <-; simpl;
    intuition (subst; reflexivity).
Qed.

Lemma not_alias_agent_for (k : string) :
  is_alias k = false -> agent_for k = None.
Proof.
  unfold is_alias, agent_for, alias_sets. cbn [existsb snd].
  repeat match goal with
         | |- context [in_list k ?l] => destruct (in_list k l); cbn [orb]
         end; congruence.
Qed.

Lemma init_consistent : consistent __init__.
Proof. split; simpl; intros *; rewrite lookup_empty; discriminate. Qed.

(** A name the [if]/[elif] chain accepts loads, on a consistent router,
    to an agent of the class and name the chain selects, cached under
    the normalized name. *)
Lemma load_known memory_available now (n : string) (self : router)
    (c : agent_class) (nm : string) :
  consistent self ->
  agent_for (normalize n) = Some (c, nm) ->
  exists a,
    fst (_load_agent memory_available false now n self) = Py.Ok a
    /\ class_of a = c /\ name a = nm
    /\ agents (snd (_load_agent memory_available false now n self)) !! normalize n
       = Some a.
Proof.
  intros [Hc _] Hf.
  destruct (agents self !! normalize n) as [a|] eqn:Hk.
  - rewrite (load_cached memory_available now _ _ _ Hk). simpl.
    destruct (Hc _ _ Hk) as [Hf' _]. rewrite Hf in Hf'.
    injection Hf' as -> ->. eauto.
  - destruct (load_fresh memory_available now _ _ _ _ Hk Hf)
      as (a & self' & -> & _ & Hcl & Hnm & Hag & _).
    simpl. exists a. rewrite Hag, lookup_insert_eq. auto.
Qed.

Example load_same_alias_twice :
  let first := _load_agent false false morning "dataengineer" __init__ in
  _load_agent false false morning " DataEngineer " (snd first) = first.
Proof. vm_compute. reflexivity. Qed.

(** From inside a running event loop, as [consult_async] calls it, the
    first load of an agent fails in [asyncio.run] and caches nothing. *)
Example load_inside_event_loop :
  fst (_load_agent false true morning "dataengineer" __init__)
  = Py.Raise
      (Py.RuntimeError "asyncio.run() cannot be called from a running event loop")
  /\ agents (snd (_load_agent false true morning "dataengineer" __init__))
     !! "dataengineer" = None.
Proof. split; vm_compute; reflexivity. Qed.

(** C1, as stated: two aliases of one alias set are cached under their
    own keys and each constructs its own agent object; and the error for
    an unknown name quotes the normalized name, not the input string. *)
Lemma aliases_get_distinct_instances :
  let first := _load_agent false false morning "dataengineer" __init__ in
  let second := _load_agent false false morning "data" (snd first) in
  (exists a1 a2,
      fst first = Py.Ok a1 /\ fst second = Py.Ok a2
      /\ class_of a1 = class_of a2
      /\ ident a1 <> ident a2)
  /\ fst (_load_agent false false morning " Coder" __init__)
     = Py.Raise
         (Py.ValueError
            "Unknown agent: coder. Available: dataengineer, backend, devops, ai")
  /\ fst (_load_agent false false morning " Coder" __init__)
     <> Py.Raise (unknown_agent " Coder").
Proof.
  split; [|split].
  - vm_compute. eexists; eexists.
    repeat split; try reflexivity. discriminate.
  - vm_compute. reflexivity.
  - vm_compute. discriminate.
Qed.

(** C1, amended: within one router lifetime every load of the same
    normalized (lower-cased, trimmed) name yields the identity-same
    cached agent, and a cached agent is never unloaded; two aliases of
    one alias set yield agents of the same canonical class and name,
    which are the same object exactly when the normalized names are
    equal; and a name outside the four alias sets raises the
    Invalid-Input error that quotes the normalized name and lists the
    four valid keys. *)
Theorem load_agent_cached_per_normalized_name
    (memory_available : bool) (now1 now2 : DateTime.datetime)
    (n1 n2 : string) (self : router) :
  consistent self ->
  let first := _load_agent memory_available false now1 n1 self in
  let second := _load_agent memory_available false now2 n2 (snd first) in
  consistent (snd first)
  /\ (forall k a, agents self !! k = Some a -> agents (snd first) !! k = Some a)
  /\ (normalize n1 = normalize n2 -> second = first)
  /\ (forall c nm aliases,
        In (c, nm, aliases) alias_sets ->
        In (normalize n1) aliases -> In (normalize n2) aliases ->
        exists a1 a2,
          fst first = Py.Ok a1 /\ fst second = Py.Ok a2
          /\ class_of a1 = c /\ class_of a2 = c
          /\ name a1 = nm /\ name a2 = nm
          /\ (ident a1 = ident a2 <-> normalize n1 = normalize n2))
  /\ (is_alias (normalize n1) = false ->
        fst first
        = Py.Raise
            (Py.ValueError
               ("Unknown agent: " +:+ normalize n1
                +:+ ". Available: dataengineer, backend, devops, ai"))).
Proof.
  intros Hcons first second.
  assert (Hcons1 : consistent (snd first)) by (apply load_consistent, Hcons).
  split; [exact Hcons1|].
  split; [intros k a; apply load_keeps_cache|].
  split; [intros Heq; apply load_again, Heq|].
  split.
  - intros c nm aliases Hset H1 H2.
    pose proof (alias_agent_for _ _ _ _ Hset H1) as Hf1.
    pose proof (alias_agent_for _ _ _ _ Hset H2) as Hf2.
    destruct (load_known memory_available now1 n1 self c nm Hcons Hf1)
      as (a1 & Hr1 & Hc1 & Hn1 & Hk1).
    destruct (load_known memory_available now2 n2 (snd first) c nm Hcons1 Hf2)
      as (a2 & Hr2 & Hc2 & Hn2 & Hk2).
    exists a1, a2. fold first in Hr1, Hk1. fold second in Hr2, Hk2.
    repeat split; try assumption.
    + intros Hid.
      pose proof (load_keeps_cache memory_available now2 n2 _ _ _ Hk1) as Hk1'.
      fold second in Hk1'.
      pose proof (load_consistent memory_available now2 n2 _ Hcons1) as [_ Hinj].
      fold second in Hinj.
      exact (Hinj _ _ _ _ Hk1' Hk2 Hid).
    + intros Heq.
      assert (second = first) as Hsame by (apply load_again, Heq).
      rewrite Hsame, Hr1 in Hr2. now injection Hr2 as <-.
  - intros Hna.
    pose proof (not_alias_agent_for _ Hna) as Hf.
    destruct (agents self !! normalize n1) as [a|] eqn:Hk.
    + destruct Hcons as [Hc _]. destruct (Hc _ _ Hk) as [Hf' _]. congruence.
    + subst first. rewrite (load_unknown memory_available now1 _ _ Hk Hf).
      reflexivity.
Qed.

Lemma load_agent_cached_per_normalized_name_witness :
  let first := _load_agent false false morning "SRE" __init__ in
  _load_agent false false morning " sre " (snd first) = first.
Proof.
  apply (load_agent_cached_per_normalized_name false morning morning
           "SRE" " sre " __init__ init_consistent).
  reflexivity.
Defined.

End RouterFacts.

(* ================================================================== *)
(** * Theorems: battery history, configuration and waiting *)
(* ================================================================== *)

Module BatteryConfigFacts.
Import Battery BatteryConfig.

(** ** Lists with a relation between neighbours *)

Lemma adjacent_drop {A} (R : A -> A -> Prop) (n : nat) (l : list A) :
  adjacent R l -> adjacent R (drop n l).
Proof.
  revert l. induction n as [|n IH]; intros l H; [now rewrite drop_0|].
  destruct l as [|x l]; [exact H|].
  simpl. apply IH. apply H.
Qed.

Lemma adjacent_snoc {A} (R : A -> A -> Prop) (l : list A) (y : A) :
  adjacent R l ->
  match last l with Some x => R x y | None => True end ->
  adjacent R (l ++ [y]).
Proof.
  induction l as [|x l IH]; intros Hl Hlast; simpl; [auto|].
  destruct Hl as [Hx Hl].
  destruct l as [|x' l].
  - simpl in *. auto.
  - split; [exact Hx|]. apply IH; [exact Hl|].
    exact Hlast.
Qed.

Lemma last_drop {A} (n : nat) (l : list A) :
  (n < length l)%nat -> last (drop n l) = last l.
Proof.
  revert l. induction n as [|n IH]; intros l H; [now rewrite drop_0|].
  destruct l as [|x l]; [simpl in H; lia|].
  simpl in H. simpl drop. rewrite IH by lia.
  destruct l; [simpl in H; lia | reflexivity].
Qed.

(** ** What every reachable manager satisfies *)

Lemma init_sound (t0 : Z) : sound t0 (__init__ t0).
Proof. split; simpl; try reflexivity; try lia; constructor. Qed.

Lemma recorded_profile_snoc (history : list history_entry) (e : history_entry) :
  recorded_profile (history ++ [e]) = h_profile e.
Proof.
  unfold recorded_profile. rewrite List.map_app. simpl.
  now rewrite last_snoc.
Qed.

Lemma recorded_profile_last (history : list history_entry) :
  match last history with
  | Some e => h_profile e = recorded_profile history
  | None => True
  end.
Proof.
  unfold recorded_profile.
  induction history as [|e history IH]; [exact I|].
  destruct history as [|e' history]; [reflexivity|].
  exact IH.
Qed.

Lemma step_sound (t0 : Z) (self : manager) (c : call) :
  sound t0 self -> sound t0 (step self c).
Proof.
  intros [Hi Hs Ha Hp Hsp Hw]. unfold step, check_and_adapt.
  destruct (Z.ltb_spec (at_time c - last_check self)
              (microseconds (check_interval self))) as [Hlt | Hge];
    [split; assumption|].
  rewrite Hi in Hge. cbn [current_profile battery_history check_interval].
  destruct (profile_eqb (get_performance_profile (reading c)) (current_profile self))
    eqn:E; cbn [negb snd].
  - split; cbn; try assumption; [unfold microseconds in *; lia|].
    eapply Forall_impl; [exact Hw|]. cbn. intros e He.
    unfold microseconds in *. lia.
  - assert (Hne : get_performance_profile (reading c) <> current_profile self).
    { intros Heq. rewrite Heq in E.
      destruct (current_profile self); discriminate. }
    match goal with
    | |- context [battery_history self ++ [?x]] => set (entry := x)
    end.
    set (history := battery_history self ++ [entry]).
    assert (Ha' : alternating history).
    { apply adjacent_snoc; [exact Ha|].
      pose proof (recorded_profile_last (battery_history self)) as Hl.
      destruct (last (battery_history self)); [|exact I].
      cbn. rewrite Hl, Hp. auto. }
    assert (Hsp' : spaced (microseconds 60) history).
    { apply adjacent_snoc; [exact Hsp|].
      destruct (last (battery_history self)) as [e|] eqn:El; [|exact I].
      cbn. apply last_Some_elem_of in El.
      rewrite List.Forall_forall in Hw.
      apply list_elem_of_In in El. specialize (Hw e El). cbn in Hw. lia. }
    assert (Hw' : Forall (fun e => t0 + microseconds 60 <= h_timestamp e
                                   <= at_time c) history).
    { apply Forall_app. split.
      - eapply Forall_impl; [exact Hw|]. cbn. intros e He.
        unfold microseconds in *. lia.
      - constructor; [|constructor]. cbn. unfold microseconds in *. lia. }
    assert (Hp' : recorded_profile history = get_performance_profile (reading c)).
    { apply recorded_profile_snoc. }
    destruct (Nat.ltb_spec 100 (length history)) as [Hlong | Hshort].
    + split; cbn [check_interval last_check battery_history current_profile];
        try assumption.
      * unfold microseconds in *. lia.
      * apply adjacent_drop, Ha'.
      * rewrite <- Hp'. unfold recorded_profile, PyList.last_n.
        rewrite <- List.skipn_map.
        rewrite last_drop by (rewrite List.length_map; lia).
        reflexivity.
      * apply adjacent_drop, Hsp'.
      * apply Forall_drop, Hw'.
    + split; cbn [check_interval last_check battery_history current_profile];
        try assumption.
      unfold microseconds in *. lia.
Qed.

Lemma run_sound (t0 : Z) (calls : list call) (self : manager) :
  sound t0 self -> sound t0 (run calls self).
Proof.
  revert self. induction calls as [|c calls IH]; intros self H; simpl.
  - exact H.
  - apply IH, step_sound, H.
Qed.

(** X1: the history of a manager driven from [__init__] through any
    calls of [check_and_adapt] never records the same profile twice in a
    row, and its last entry is the current profile (PERFORMANCE when
    nothing was recorded). *)
Theorem history_alternates_and_ends_in_current_profile
    (t0 : Z) (calls : list call) :
  alternating (battery_history (run calls (__init__ t0)))
  /\ recorded_profile (battery_history (run calls (__init__ t0)))
     = current_profile (run calls (__init__ t0)).
Proof.
  destruct (run_sound t0 calls _ (init_sound t0)). auto.
Qed.

(** X2: in the history of a manager created at [t0], every two
    consecutive entries are at least 60 seconds apart, and every entry
    lies between 60 seconds after [t0] and the last check. *)
Theorem history_entries_a_minute_apart (t0 : Z) (calls : list call) :
  spaced (microseconds 60) (battery_history (run calls (__init__ t0)))
  /\ Forall (fun e => t0 + microseconds 60 <= h_timestamp e
                      <= last_check (run calls (__init__ t0)))
       (battery_history (run calls (__init__ t0))).
Proof.
  destruct (run_sound t0 calls _ (init_sound t0)). auto.
Qed.

(** ** Configuration *)

Lemma rank_profile_of_status (st : status) :
  rank (profile_of_status st)
  = if st_plugged st then 3
    else if negb (st_present st) then 3
    else if Qgtb (st_percent st) 80 then 3
    else if Qgtb (st_percent st) 40 then 2
    else if Qgtb (st_percent st) 20 then 1
    else 0.
Proof.
  unfold profile_of_status.
  repeat match goal with |- context [if ?b then _ else _] => destruct b end;
    reflexivity.
Qed.

Lemma Qgtb_mono (a b c : Q) :
  (a <= b)%Q -> Qgtb a c = true -> Qgtb b c = true.
Proof.
  unfold Qgtb. rewrite !negb_true_iff, <- !not_true_iff_false, !Qle_bool_iff.
  intros Hab Hac Hbc. apply Hac. eapply Qle_trans; eassumption.
Qed.

Lemma profile_rank_monotone (st1 st2 : status) :
  st_plugged st1 = st_plugged st2 ->
  st_present st1 = st_present st2 ->
  (st_percent st1 <= st_percent st2)%Q ->
  rank (profile_of_status st1) <= rank (profile_of_status st2).
Proof.
  intros Hp Hb Hle. rewrite !rank_profile_of_status, Hp, Hb.
  destruct (st_plugged st2); [lia|].
  destruct (negb (st_present st2)); [lia|].
  pose proof (Qgtb_mono _ _ 80 Hle) as H80.
  pose proof (Qgtb_mono _ _ 40 Hle) as H40.
  pose proof (Qgtb_mono _ _ 20 Hle) as H20.
  destruct (Qgtb (st_percent st1) 80); [rewrite H80 by reflexivity; lia|].
  destruct (Qgtb (st_percent st1) 40).
  { rewrite H40 by reflexivity. destruct (Qgtb (st_percent st2) 80); lia. }
  destruct (Qgtb (st_percent st1) 20).
  { rewrite H20 by reflexivity.
    destruct (Qgtb (st_percent st2) 80), (Qgtb (st_percent st2) 40); lia. }
  destruct (Qgtb (st_percent st2) 80), (Qgtb (st_percent st2) 40),
    (Qgtb (st_percent st2) 20); lia.
Qed.

(** X3: a fuller battery never gets a tighter budget.  For two readings
    that agree on mains power and battery presence, the one with the
    higher percentage is given at least as many agents, as much RAM and
    CPU, a cache lifetime and a monitoring interval at most as long, and
    every backend the other is given. *)
Theorem fuller_battery_never_tighter_budget (st1 st2 : status) :
  st_plugged st1 = st_plugged st2 ->
  st_present st1 = st_present st2 ->
  (st_percent st1 <= st_percent st2)%Q ->
  let c1 := configs (profile_of_status st1) in
  let c2 := configs (profile_of_status st2) in
  agents_actifs c1 <= agents_actifs c2
  /\ ram_target_mb c1 <= ram_target_mb c2
  /\ cpu_limit_percent c1 <= cpu_limit_percent c2
  /\ cache_ttl c2 <= cache_ttl c1
  /\ monitoring_interval c2 <= monitoring_interval c1
  /\ (use_claude_sdk c1 = true -> use_claude_sdk c2 = true)
  /\ (use_ollama c1 = true -> use_ollama c2 = true).
Proof.
  intros Hp Hb Hle.
  pose proof (profile_rank_monotone st1 st2 Hp Hb Hle) as Hr.
  destruct (profile_of_status st1), (profile_of_status st2);
    simpl in *; repeat split; try lia; auto; discriminate.
Qed.

(** ** Runtime estimate *)

(** X4: [estimate_runtime] never returns its [0.0] fallback, answers
    infinity exactly when the status says plugged (which includes a
    machine without battery), and otherwise divides by a positive
    number. *)
Theorem estimate_runtime_never_zero (battery : sensor) (self : manager) :
  estimate_runtime battery self <> Zero
  /\ (estimate_runtime battery self = Infinity <-> is_on_power battery = true)
  /\ estimate_runtime None self = Infinity
  /\ (forall num den,
        estimate_runtime battery self = Quotient num den -> (0 < den)%Q).
Proof.
  unfold estimate_runtime, is_on_power.
  assert (Hrate : (0 <? consumption_rates (current_profile self)) = true)
    by (destruct (current_profile self); reflexivity).
  assert (Hpos : (0 < inject_Z (consumption_rates (current_profile self)))%Q)
    by (destruct (current_profile self); reflexivity).
  rewrite Hrate.
  destruct (st_plugged (get_battery_status battery)) eqn:Ep.
  - repeat split; try discriminate; auto.
  - repeat split; try discriminate; auto;
      destruct (st_time_left (get_battery_status battery)) as [tl|];
      try destruct (0 <? tl); try discriminate;
      intros num den [= <- <-]; try exact Hpos; reflexivity.
Qed.

(** ** Waiting for mains power *)

Lemma wait_loop_spec (readings : nat -> sensor) (max_wait : Z)
    (fuel polls : nat) (elapsed : Z) :
  elapsed = 30 * Z.of_nat polls ->
  (Z.to_nat ((max_wait - elapsed + 29) / 30) < fuel)%nat ->
  exists b,
    wait_loop fuel polls elapsed max_wait readings = Some b
    /\ (b = true <->
        exists i, (polls <= i)%nat /\ 30 * Z.of_nat i < max_wait
                  /\ is_on_power (readings i) = true).
Proof.
  revert polls elapsed.
  induction fuel as [|fuel IH]; intros polls elapsed He Hfuel; [lia|].
  cbn [wait_loop].
  destruct (Z.ltb_spec elapsed max_wait) as [Hlt | Hge].
  - destruct (is_on_power (readings polls)) eqn:Hp.
    + exists true. split; [reflexivity|].
      split; [|reflexivity]. intros _. exists polls. repeat split; [lia | lia | exact Hp].
    + destruct (IH (S polls) (elapsed + 30)) as (b & Hb & Hiff); [lia| |].
      { assert (0 < (max_wait - elapsed + 29) / 30)
          by (apply Z.div_str_pos; lia).
        replace (max_wait - (elapsed + 30) + 29)
          with (max_wait - elapsed + 29 + (-1) * 30) by lia.
        rewrite Z.div_add by lia. lia. }
      exists b. split; [exact Hb|].
      rewrite Hiff. split.
      * intros (i & Hi & Hw & Hon). exists i. repeat split; [lia | lia | exact Hon].
      * intros (i & Hi & Hw & Hon).
        destruct (Nat.eq_dec i polls) as [-> | Hne]; [congruence|].
        exists i. repeat split; [lia | lia | exact Hon].
  - exists false. split; [reflexivity|].
    split; [discriminate|].
    intros (i & Hi & Hw & _). lia.
Qed.

(** X5: [wait_for_power] polls the sensor every 30 seconds while less
    than [max_wait] seconds have elapsed: it returns, and it returns true
    exactly when one of the polls at 0, 30, 60, ... seconds before
    [max_wait] finds mains power; with [max_wait] at most 0 it returns
    false without polling. *)
Theorem wait_for_power_polls (fuel : nat) (max_wait : Z)
    (readings : nat -> sensor) :
  (Z.to_nat ((max_wait + 29) / 30) < fuel)%nat ->
  exists b,
    wait_for_power fuel max_wait readings = Some b
    /\ (b = true <->
        exists i, 30 * Z.of_nat i < max_wait
                  /\ is_on_power (readings i) = true)
    /\ (max_wait <= 0 -> b = false).
Proof.
  intros Hfuel. unfold wait_for_power.
  destruct (wait_loop_spec readings max_wait fuel 0 0) as (b & Hb & Hiff);
    [reflexivity | now rewrite Z.sub_0_r |].
  exists b. split; [exact Hb|]. split.
  - rewrite Hiff. split.
    + intros (i & _ & H). eauto.
    + intros (i & H). exists i. split; [lia | exact H].
  - intros Hneg. destruct b; [|reflexivity].
    destruct (proj1 Hiff eq_refl) as (i & _ & Hw & _). lia.
Qed.

Lemma fuller_battery_never_tighter_budget_witness :
  let c1 := configs (profile_of_status (Scenarios.on_battery 30)) in
  let c2 := configs (profile_of_status (Scenarios.on_battery 90)) in
  agents_actifs c1 <= agents_actifs c2
  /\ ram_target_mb c1 <= ram_target_mb c2
  /\ cpu_limit_percent c1 <= cpu_limit_percent c2
  /\ cache_ttl c2 <= cache_ttl c1
  /\ monitoring_interval c2 <= monitoring_interval c1
  /\ (use_claude_sdk c1 = true -> use_claude_sdk c2 = true)
  /\ (use_ollama c1 = true -> use_ollama c2 = true).
Proof.
  apply (fuller_battery_never_tighter_budget
           (Scenarios.on_battery 30) (Scenarios.on_battery 90));
    [reflexivity | reflexivity | vm_compute; discriminate].
Defined.

Lemma wait_for_power_polls_witness :
  wait_for_power 5 90 Cases.mains_on_third_poll = Some true.
Proof.
  destruct (wait_for_power_polls 5 90 Cases.mains_on_third_poll)
    as (b & Hb & Hiff & _); [vm_compute; lia|].
  rewrite Hb. f_equal. apply Hiff.
  exists 2%nat. split; [lia | reflexivity].
Defined.

End BatteryConfigFacts.

(* ================================================================== *)
(** * Theorems: routing of [think], reading the working memory *)
(* ================================================================== *)

Module ThinkingFacts.
Import PyStr Brain Thinking.

Lemma count_if_bounds {A} (f : A -> bool) (l : list A) :
  0 <= PyList.count_if f l <= Z.of_nat (length l).
Proof.
  unfold PyList.count_if.
  induction l as [|x l IH]; simpl; [lia|].
  destruct (f x); simpl; lia.
Qed.

(** The score before clamping: the local variable [score] at the
    [return] of [_evaluate_complexity]. *)
Lemma complexity_unclamped (prompt : string) :
  exists bonus points penalty,
    _evaluate_complexity prompt = 5 + bonus + points - penalty
    /\ 0 <= bonus <= 2
    /\ (len prompt <= 200 -> bonus = 0)
    /\ (len prompt <= 500 -> bonus <= 1)
    /\ 0 <= points <= 3
    /\ (PyList.count_if (fun kw => str_in kw (lower prompt)) complex_kw = 0 ->
        points = 0)
    /\ (penalty = 0 \/ penalty = 2)
    /\ (existsb (fun kw => str_in kw (lower prompt)) simple_kw = true ->
        penalty = 2).
Proof.
  unfold _evaluate_complexity.
  pose proof (count_if_bounds (fun kw => str_in kw (lower prompt)) complex_kw) as Hc.
  set (n := PyList.count_if _ complex_kw) in *.
  exists ((if 200 <? len prompt then 1 else 0) + (if 500 <? len prompt then 1 else 0)),
    (Z.min n 3),
    (if existsb (fun kw => str_in kw (lower prompt)) simple_kw then 2 else 0).
  destruct (Z.ltb_spec 200 (len prompt)), (Z.ltb_spec 500 (len prompt)),
    (existsb (fun kw => str_in kw (lower prompt)) simple_kw);
    repeat split; try lia; try (intros; lia); auto; try discriminate.
Qed.

(** X6: the complexity score of every prompt lies between 3 and 10: the
    lower clamp at 0 never applies. *)
Theorem complexity_between_3_and_10 (prompt : string) :
  3 <= _evaluate_complexity prompt <= 10.
Proof.
  destruct (complexity_unclamped prompt)
    as (bonus & points & penalty & -> & Hb & _ & _ & Hp & _ & Hpen & _).
  lia.
Qed.

(** X7: a prompt of at most 200 characters that contains a greeting or
    lookup keyword, and a prompt of at most 500 characters without any
    complex keyword, score below 7: [think] answers them through Ollama
    when it is available and locally otherwise, whatever the state of
    the Claude SDK and whatever the context. *)
Theorem simple_prompts_never_reach_claude
    (claude_sdk_available ollama_available : bool)
    (claude : option (list string)) (ollama : option string)
    (prompt : string) (context : option (list Py.pyval)) :
  (existsb (fun kw => str_in kw (lower prompt)) simple_kw = true
   /\ len prompt <= 200)
  \/ (PyList.count_if (fun kw => str_in kw (lower prompt)) complex_kw = 0
      /\ len prompt <= 500) ->
  _evaluate_complexity prompt <= 6
  /\ think claude_sdk_available ollama_available claude ollama prompt context
     = (if ollama_available then _think_with_ollama ollama prompt context
        else Py.Ok (_think_local prompt context)).
Proof.
  intros H.
  assert (Hs : _evaluate_complexity prompt <= 6).
  { destruct (complexity_unclamped prompt)
      as (bonus & points & penalty & -> & Hb & Hb200 & Hb500 & Hp & Hp0 & Hpen & Hpen2).
    destruct H as [[Hg Hl] | [Hc Hl]].
    - specialize (Hb200 Hl). specialize (Hpen2 Hg). lia.
    - specialize (Hb500 Hl). specialize (Hp0 Hc). lia. }
  split; [exact Hs|].
  unfold think.
  destruct (Z.leb_spec 7 (_evaluate_complexity prompt)); [lia|].
  reflexivity.
Qed.

Lemma prefix_append (s t : string) : String.prefix s (s +:+ t) = true.
Proof.
  induction s as [|c s IH]; simpl; [now destruct t|].
  destruct (ascii_dec c c); [exact IH | congruence].
Qed.

Lemma prefix_append2 (a s t : string) :
  String.prefix (a +:+ s) (a +:+ s +:+ t) = true.
Proof.
  induction a as [|c a IH].
  - change (String.prefix s (s +:+ t) = true). apply prefix_append.
  - change (String.prefix (String c (a +:+ s)) (String c (a +:+ s +:+ t)) = true).
    simpl. destruct (ascii_dec c c); [exact IH | congruence].
Qed.

Lemma mapM_result_ok {A B} (f : A -> Py.result B) (l : list A) :
  (forall a, In a l -> exists b, f a = Py.Ok b) ->
  exists bs, mapM f l = Py.Ok bs
             /\ List.Forall2 (fun a b => f a = Py.Ok b) l bs.
Proof.
  induction l as [|a l IH]; intros H.
  - exists []. split; [reflexivity | constructor].
  - destruct (H a (or_introl eq_refl)) as [b Hb].
    destruct IH as (bs & Hbs & Hall); [intros; apply H; now right|].
    exists (b :: bs). split; [|now constructor].
    change (mapM f (a :: l)) with (y ← f a; k ← mapM f l; mret (y :: k)).
    rewrite Hb, Hbs. reflexivity.
Qed.

Lemma item_ok_slice (n : nat) (c : Py.pyval) :
  item_ok c = true -> exists s, content_slice n c = Py.Ok (Py.VStr s).
Proof.
  unfold item_ok, content_slice.
  destruct c as [| | | | | |d]; try discriminate.
  destruct (Py.dict_get "content" d) as [[| | | |s| |]|]; try discriminate;
    intros _; eexists; reflexivity.
Qed.

(** Both prompt builders accept a usable context. *)
Lemma usable_context (context : option (list Py.pyval)) :
  usable context = true ->
  (exists items, claude_context context = Py.Ok items)
  /\ (exists text, ollama_context context = Py.Ok text).
Proof.
  unfold usable, claude_context, ollama_context.
  destruct context as [[|c items]|]; intros H;
    try (split; eexists; reflexivity).
  set (first := take 3 (c :: items)) in *.
  assert (Hall : forall n a, In a first ->
                   exists s, content_slice n a = Py.Ok (Py.VStr s)).
  { intros n a Ha. apply item_ok_slice.
    rewrite forallb_forall in H. now apply H. }
  split.
  - destruct (mapM_result_ok (content_slice 150) first) as (bs & -> & _).
    + intros a Ha. destruct (Hall 150%nat a Ha) as [s Hs]. eauto.
    + eauto.
  - destruct (mapM_result_ok (content_slice 100) first) as (bs & -> & Hbs).
    { intros a Ha. destruct (Hall 100%nat a Ha) as [s Hs]. eauto. }
    cbn [mbind Py.result_bind].
    destruct (mapM_result_ok as_str bs) as (texts & -> & _).
    + intros b Hb.
      assert (exists a, In a first /\ content_slice 100 a = Py.Ok b)
        as (a & Ha & Hab).
      { clear -Hbs Hb. induction Hbs as [|a0 b0 l l' H0 Hl IH]; [destruct Hb|].
        destruct Hb as [<- | Hb].
        - exists a0. split; [now left | assumption].
        - destruct (IH Hb) as (a & Ha & Hab). exists a.
          split; [now right | assumption]. }
      destruct (Hall 100%nat a Ha) as [s Hs]. rewrite Hs in Hab.
      injection Hab as <-. eexists. reflexivity.
    + cbn [mbind Py.result_bind]. eauto.
Qed.

(** The prompt builders run before the [try] blocks: a context item
    that is no dictionary makes [think] raise although the backend that
    fails would have been caught. *)
Example think_raises_on_malformed_context :
  think false true None None "why?" (Some [Py.VNone])
  = Py.Raise Py.AttributeError
  /\ think false true None None "why?"
       (Some [Py.VDict [("content", Py.VInt 1)]])
     = Py.Raise Py.TypeError
  /\ think false false None None "why?" (Some [Py.VNone])
     = Py.Ok (_think_local "why?" (Some [Py.VNone])).
Proof. repeat split; vm_compute; reflexivity. Qed.

(** X8: when every backend [think] may turn to is unavailable or fails,
    and the context is one the prompt builders accept (or no backend is
    available, so that none is built), the answer is the local message,
    which opens with the question. *)
Theorem think_falls_back_to_local
    (claude_sdk_available ollama_available : bool)
    (claude : option (list string)) (ollama : option string)
    (prompt : string) (context : option (list Py.pyval)) :
  claude_sdk_available = false \/ claude = None ->
  ollama_available = false \/ ollama = None ->
  usable context = true
  \/ (claude_sdk_available = false /\ ollama_available = false) ->
  think claude_sdk_available ollama_available claude ollama prompt context
  = Py.Ok (_think_local prompt context)
  /\ String.prefix ("**Question:** " +:+ prompt)
       (_think_local prompt context)
     = true.
Proof.
  intros Hc Ho Hctx.
  split; [|unfold _think_local; apply prefix_append2].
  unfold think.
  destruct Hctx as [Hu | [-> ->]].
  2:{ rewrite andb_false_r. reflexivity. }
  destruct (usable_context context Hu) as [[items Hitems] [text Htext]].
  assert (Hollama : ollama_available = false \/ ollama = None ->
            (if ollama_available
             then _think_with_ollama ollama prompt context
             else Py.Ok (_think_local prompt context))
            = Py.Ok (_think_local prompt context)).
  { intros [-> | ->]; [reflexivity|].
    destruct ollama_available; [|reflexivity].
    unfold _think_with_ollama. rewrite Htext. reflexivity. }
  destruct ((7 <=? _evaluate_complexity prompt) && claude_sdk_available)
    eqn:E; [|now apply Hollama].
  apply andb_true_iff in E as [_ ->].
  destruct Hc as [Hc | ->]; [discriminate|].
  unfold _think_with_claude_sdk. rewrite Hitems.
  cbn [mbind Py.result_bind]. now apply Hollama.
Qed.

(** ** Reading the working memory *)

Lemma recall_loop_ok_readable (query : string) (items : Py.dict)
    (results found : list Py.pyval) :
  recall_loop query items results = Py.Ok found ->
  Forall (fun item => readable (snd item) = true) items.
Proof.
  revert results.
  induction items as [|[mem_id mem] items IH]; intros results H; [constructor|].
  cbn [recall_loop] in H. unfold subscript in H.
  destruct mem as [| | | | |l|d]; try discriminate.
  destruct (Py.dict_get "content" d) as [content|] eqn:Ec; [|discriminate].
  cbn [mbind Py.result_bind] in H. unfold str_lower in H.
  destruct content as [| | | |c| |]; try discriminate.
  cbn [mbind Py.result_bind] in H.
  constructor.
  - cbn. now rewrite Ec.
  - destruct (str_in (lower query) (lower c)); cbn in H; eapply IH; exact H.
Qed.

Lemma matching_item_fields (query : string) (wm : Py.dict)
    (item : string * Py.pyval) :
  In item (matching query wm) ->
  exists c,
    subscript (found_record item) "content" = Py.Ok (Py.VStr c)
    /\ str_in (lower query) (lower c) = true
    /\ subscript (found_record item) "score" = Py.Ok (Py.VFloat 1)
    /\ subscript (found_record item) "id" = Py.Ok (Py.VStr (fst item)).
Proof.
  unfold matching. intros H. apply List.filter_In in H as [_ Hm].
  destruct item as [mem_id mem]. cbn [snd] in Hm. unfold matches in Hm.
  destruct mem as [| | | | |l|d]; try discriminate.
  destruct (Py.dict_get "content" d) as [[| | | |c| |]|] eqn:Ec; try discriminate.
  exists c.
  destruct (BrainFacts.found_record_fields mem_id c d Ec) as (H1 & H2 & H3).
  auto.
Qed.

Lemma slice_to_In {A} (n : Z) (l : list A) (x : A) :
  In x (PyList.slice_to n l) -> In x l.
Proof.
  unfold PyList.slice_to. destruct (0 <=? n); apply SqlFacts.take_In.
Qed.

(** X9: in fallback mode [recall] returns exactly when every record of
    the working memory carries a string [content], and raises otherwise.
    What it returns are the first [limit] matching records in insertion
    order: each contains the query, ignoring case, and has the score
    1.0, and for a limit that is not negative there are at most [limit]
    of them. *)
Theorem recall_returns_iff_readable
    (delegated : option (list Py.pyval)) (query : string) (limit : Z)
    (self : brain) :
  memory self = false ->
  ((exists results, recall delegated query limit self = Py.Ok results)
   <-> Forall (fun item => readable (snd item) = true) (working_memory self))
  /\ (forall results,
        recall delegated query limit self = Py.Ok results ->
        results = PyList.slice_to limit
                    (List.map found_record (matching query (working_memory self)))
        /\ Forall (fun r =>
                     exists c,
                       subscript r "content" = Py.Ok (Py.VStr c)
                       /\ str_in (lower query) (lower c) = true
                       /\ subscript r "score" = Py.Ok (Py.VFloat 1))
             results
        /\ (0 <= limit -> (length results <= Z.to_nat limit)%nat)).
Proof.
  intros Hmem. unfold recall. rewrite Hmem.
  split.
  - split.
    + intros [results H].
      destruct (recall_loop query (working_memory self) []) as [found|e] eqn:E;
        [|discriminate].
      eapply recall_loop_ok_readable, E.
    + intros Hall. rewrite (BrainFacts.recall_loop_readable _ _ _ Hall).
      eexists. reflexivity.
  - intros results H.
    destruct (recall_loop query (working_memory self) []) as [found|e] eqn:E;
      [|discriminate].
    pose proof (recall_loop_ok_readable _ _ _ _ E) as Hall.
    rewrite (BrainFacts.recall_loop_readable _ _ _ Hall) in E.
    injection E as <-. cbn in H. injection H as <-.
    split; [reflexivity|]. split.
    + apply List.Forall_forall. intros r Hr.
      apply slice_to_In, in_map_iff in Hr as (item & <- & Hitem).
      destruct (matching_item_fields _ _ _ Hitem) as (c & H1 & H2 & H3 & _).
      eauto.
    + intros Hl. unfold PyList.slice_to.
      destruct (Z.leb_spec 0 limit); [|lia].
      rewrite length_take. lia.
Qed.

Lemma dict_get_In (k : string) (v : Py.pyval) (d : Py.dict) :
  Py.dict_get k d = Some v -> In (k, v) d.
Proof.
  induction d as [|[k' v'] d IH]; simpl; [discriminate|].
  destruct (String.eqb k k') eqn:E.
  - apply String.eqb_eq in E. intros [= ->]. left. now subst.
  - intros H. right. auto.
Qed.

Lemma remember_all_keeps (calls : list remembered) (self : brain)
    (k : string) (v : Py.pyval) :
  memory self = false ->
  Forall (fun call : remembered => fst (fst (fst (fst call))) <> k) calls ->
  Py.dict_get k (working_memory self) = Some v ->
  memory (remember_all calls self) = false
  /\ Py.dict_get k (working_memory (remember_all calls self)) = Some v.
Proof.
  intros Hmem Hcalls. revert self Hmem.
  induction Hcalls as [|[[[[memory_id now] content] importance] metadata] calls Hne _ IH];
    intros self Hmem Hk; [auto|].
  cbn [remember_all fold_left]. apply IH.
  - unfold remember. now rewrite Hmem.
  - unfold remember. rewrite Hmem. cbn [snd working_memory].
    rewrite BrainFacts.dict_get_set_other; [exact Hk|].
    apply String.eqb_neq. cbn in Hne. congruence.
Qed.

(** X10: once an expert agent has started on a brain in fallback mode,
    its status record, which has no [content], sits in the working
    memory, and every [recall] raises, also after any number of later
    [remember] calls. *)
Theorem started_expert_breaks_recall
    (now : DateTime.datetime) (a : Experts.agent) (b : brain)
    (calls : list remembered)
    (delegated : option (list Py.pyval)) (query : string) (limit : Z) :
  memory b = false ->
  Forall (fun call : remembered =>
            fst (fst (fst (fst call))) <> Experts.name a +:+ "_status") calls ->
  exists e,
    recall delegated query limit
      (remember_all calls (snd (Experts.start now a b))) = Py.Raise e.
Proof.
  intros Hmem Hcalls.
  set (started := snd (Experts.start now a b)).
  assert (Hm : memory started = false) by exact Hmem.
  destruct (Py.dict_get (Experts.name a +:+ "_status") (working_memory started))
    as [v|] eqn:Ev.
  2:{ exfalso. subst started. cbn in Ev.
      rewrite BrainFacts.dict_get_set in Ev. discriminate. }
  assert (Hv : readable v = false).
  { subst started. cbn in Ev. rewrite BrainFacts.dict_get_set in Ev.
    injection Ev as <-. reflexivity. }
  destruct (remember_all_keeps calls started _ v Hm Hcalls Ev) as [Hm' Hk].
  destruct (recall delegated query limit (remember_all calls started))
    as [results|e] eqn:E; [|eauto].
  exfalso.
  unfold recall in E. rewrite Hm' in E.
  destruct (recall_loop query (working_memory (remember_all calls started)) [])
    as [found|e] eqn:El; [|discriminate].
  pose proof (recall_loop_ok_readable _ _ _ _ El) as Hall.
  rewrite List.Forall_forall in Hall.
  specialize (Hall _ (dict_get_In _ _ _ Hk)). cbn in Hall. congruence.
Qed.

Lemma simple_prompts_never_reach_claude_witness :
  _evaluate_complexity Cases.greeting <= 6
  /\ Thinking.think true true (Some ["from Claude"]) (Some "from Ollama")
       Cases.greeting None
     = Py.Ok "from Ollama".
Proof.
  apply (simple_prompts_never_reach_claude true true (Some ["from Claude"])
           (Some "from Ollama") Cases.greeting None).
  left. split; [reflexivity | vm_compute; discriminate].
Defined.

Lemma think_falls_back_to_local_witness :
  Thinking.think true true None None "why?" Cases.a_context
  = Py.Ok (Thinking._think_local "why?" Cases.a_context)
  /\ String.prefix ("**Question:** " +:+ "why?")
       (Thinking._think_local "why?" Cases.a_context)
     = true.
Proof.
  apply (think_falls_back_to_local true true None None "why?" Cases.a_context);
    [now right | now right | now left].
Defined.

Lemma recall_returns_iff_readable_witness :
  exists results,
    recall None "AB" 1 Scenarios.two_memories = Py.Ok results
    /\ (length results <= 1)%nat.
Proof.
  destruct (recall_returns_iff_readable None "AB" 1 Scenarios.two_memories
              eq_refl) as [Hiff Hall].
  destruct (proj2 Hiff) as [results Hr]; [repeat constructor|].
  exists results. split; [exact Hr|].
  destruct (Hall results Hr) as (_ & _ & Hlen). apply Hlen. lia.
Defined.

Lemma started_expert_breaks_recall_witness :
  exists e,
    recall None "abc" 5
      (Thinking.remember_all Cases.one_remember
         (snd (Experts.start Scenarios.noon Cases.data_engineer
                 Scenarios.fallback_brain)))
    = Py.Raise e.
Proof.
  apply (started_expert_breaks_recall Scenarios.noon Cases.data_engineer
           Scenarios.fallback_brain Cases.one_remember None "abc" 5);
    [reflexivity|].
  constructor; [|constructor].
  intros H. vm_compute in H. discriminate.
Defined.

End ThinkingFacts.

(* ================================================================== *)
(** * Theorems: code review *)
(* ================================================================== *)

Module ReviewerTaskFacts.
Import PyStr Reviewer ReviewerTask.

(** ** Score and issues *)

(** X11: the score a review returns is 70 less the points of the issues
    it lists, the issues are listed in the order of the checks, and the
    review is approved exactly when its issues cost at most 10 points. *)
Theorem score_is_70_less_deductions (code : string) :
  score (_review_code code) = 70 - deductions (issues (_review_code code))
  /\ sublist (issues (_review_code code))
       ["Code trop court"; "Pas de fonction/classe détectée";
        "Pas de commentaires/docstrings"; "Pas d'imports détectés"]
  /\ (approved (_review_code code) = true
      <-> deductions (issues (_review_code code)) <= 10).
Proof.
  unfold _review_code, review_checks.
  destruct (len code <? 10);
    destruct (negb (str_in "def" code) && negb (str_in "function" code)
              && negb (str_in "class" code));
    destruct (negb (str_in "# " code) && negb (str_in triple_quote code));
    destruct (negb (str_in "import" code));
    cbn [score issues approved app];
    (split; [vm_compute; reflexivity|]);
    (split; [repeat first [apply sublist_nil | apply sublist_skip
                          | apply sublist_cons]|]);
    vm_compute; split; intros; congruence.
Qed.

(** ** Code too short to pass *)

Lemma count_prefix (p : ascii -> bool) (kw s : string) :
  String.prefix kw s = true -> (count_chars p kw <= count_chars p s)%nat.
Proof.
  revert kw. induction s as [|c s IH]; intros [|k kw]; simpl; try lia;
    try discriminate.
  destruct (ascii_dec k c) as [-> | _]; [|discriminate].
  intros H. specialize (IH _ H). lia.
Qed.

Lemma count_str_in (p : ascii -> bool) (kw s : string) :
  str_in kw s = true -> (count_chars p kw <= count_chars p s)%nat.
Proof.
  induction s as [|c s IH]; cbn [str_in].
  - rewrite orb_false_r. apply count_prefix.
  - intros H. apply orb_true_iff in H as [H | H].
    + apply (count_prefix p) in H. exact H.
    + specialize (IH H). cbn [count_chars]. lia.
Qed.

Lemma classes_disjoint (c : ascii) :
  ((if in_import c then 1 else 0) + (if in_construct c then 1 else 0)
   + (if in_comment c then 1 else 0) <= 1)%nat.
Proof.
  destruct c as [[] [] [] [] [] [] [] []]; vm_compute; lia.
Qed.

Lemma classes_fit (s : string) :
  (count_chars in_import s + count_chars in_construct s
   + count_chars in_comment s <= String.length s)%nat.
Proof.
  induction s as [|c s IH]; simpl; [lia|].
  pose proof (classes_disjoint c). lia.
Qed.

(** Code that passes the last three checks holds [import], one of [def],
    [function] and [class], and a comment marker: 11 characters at least. *)
Lemma markers_need_room (code : string) :
  str_in "import" code = true ->
  str_in "def" code || str_in "function" code || str_in "class" code = true ->
  str_in "# " code || str_in triple_quote code = true ->
  (11 <= String.length code)%nat.
Proof.
  intros Hi Hc Hm.
  pose proof (classes_fit code) as Hfit.
  pose proof (count_str_in in_import _ _ Hi) as H1.
  change (count_chars in_import "import") with 6%nat in H1.
  assert (3 <= count_chars in_construct code)%nat as H2.
  { apply orb_true_iff in Hc as [Hc | Hc];
      [apply orb_true_iff in Hc as [Hc | Hc]|];
      apply (count_str_in in_construct) in Hc;
      vm_compute in Hc |- *; vm_compute (count_chars in_construct _) in Hc.
    all: etransitivity; [|exact Hc]; vm_compute; lia. }
  assert (2 <= count_chars in_comment code)%nat as H3.
  { apply orb_true_iff in Hm as [Hm | Hm];
      apply (count_str_in in_comment) in Hm.
    all: etransitivity; [|exact Hm]; vm_compute; lia. }
  lia.
Qed.

(** X12: code shorter than 10 characters is never approved: besides
    being too short it misses an import, a function or class keyword, or
    a comment marker, so its score is at most 55. *)
Theorem short_code_never_approved (code : string) :
  len code < 10 ->
  approved (_review_code code) = false
  /\ score (_review_code code) <= 55.
Proof.
  intros Hshort.
  assert (Hroom :
    str_in "import" code = true ->
    str_in "def" code || str_in "function" code || str_in "class" code = true ->
    str_in "# " code || str_in triple_quote code = true -> False).
  { intros Hi Hc Hm. pose proof (markers_need_room code Hi Hc Hm).
    unfold len in Hshort. lia. }
  unfold _review_code, review_checks.
  destruct (Z.ltb_spec (len code) 10); [|lia].
  destruct (str_in "def" code), (str_in "function" code), (str_in "class" code),
    (str_in "# " code), (str_in triple_quote code), (str_in "import" code);
    cbn [negb andb orb] in *;
    solve [split; vm_compute; congruence | exfalso; apply Hroom; reflexivity].
Qed.

(** ** A review and the memory of the brain *)

Lemma lower_append (a b : string) : lower (a +:+ b) = lower a +:+ lower b.
Proof.
  induction a as [|c a IH]; [reflexivity|].
  change (String (lower_char c) (lower (a +:+ b))
          = String (lower_char c) (lower a +:+ lower b)).
  now rewrite IH.
Qed.

Lemma prefix_str_in (kw s : string) :
  String.prefix kw s = true -> str_in kw s = true.
Proof. intros H. destruct s; simpl in *; rewrite H; reflexivity. Qed.

Lemma review_content_matches (rest : string) :
  str_in (lower "code review") (lower ("Code review: " +:+ rest)) = true.
Proof.
  apply prefix_str_in. rewrite lower_append.
  change (String.prefix ("code review" +:+ EmptyString)
            ("code review" +:+ EmptyString +:+ (": " +:+ lower rest)) = true).
  apply ThinkingFacts.prefix_append2.
Qed.

(** X13: [execute_task] on a reviewer whose brain is in fallback mode
    returns the review of the code, counts it, and leaves one new record
    in the working memory; when the records there carry a string content
    and fewer than [limit] older ones mention code review, a recall of
    [code review] returns that record, whose metadata holds the score
    of the review. *)
Theorem review_is_remembered
    (delegated : option string) (delegated' : option (list Py.pyval))
    (memory_id : string) (now : DateTime.datetime) (task : task)
    (self : reviewer) (b : Brain.brain) (limit : Z) :
  brain self = Some b ->
  Brain.memory b = false ->
  Py.dict_get memory_id (Brain.working_memory b) = None ->
  Forall (fun item => Brain.readable (snd item) = true) (Brain.working_memory b) ->
  Z.of_nat (length (Brain.matching "code review" (Brain.working_memory b))) < limit ->
  let out := execute_task delegated memory_id now task self in
  fst out = _review_code (get_default (code task) "")
  /\ reviews_completed (snd out) = reviews_completed self + 1
  /\ exists b' results found,
      brain (snd out) = Some b'
      /\ length (Brain.working_memory b') = S (length (Brain.working_memory b))
      /\ Brain.recall delegated' "code review" limit b' = Py.Ok results
      /\ In found results
      /\ Brain.subscript found "id" = Py.Ok (Py.VStr memory_id)
      /\ Brain.subscript found "metadata"
         = Py.Ok (Py.VDict
                    [ ("agent", Py.VStr (name self));
                      ("task_type", Py.VStr "code_review");
                      ("score", Py.VInt (score (fst out))) ]).
Proof.
  intros Hb Hmem Hfresh Hread Hlimit.
  unfold execute_task. rewrite Hb.
  set (result := _review_code (get_default (code task) "")).
  assert (Hs : success result = true)
    by (unfold result, _review_code; destruct (review_checks _); reflexivity).
  rewrite Hs. cbn [fst snd reviews_completed brain].
  split; [reflexivity|]. split; [reflexivity|].
  unfold Brain.remember. rewrite Hmem. cbn [snd].
  rewrite (BrainFacts.dict_set_fresh _ _ _ Hfresh).
  set (record := Py.VDict _).
  eexists. eexists. exists (Brain.found_record (memory_id, record)).
  split; [reflexivity|].
  cbn [Brain.working_memory Brain.memory].
  split; [rewrite length_app; simpl; lia|].
  unfold Brain.recall. cbn [Brain.working_memory Brain.memory]. rewrite ?Hmem.
  assert (Hread' : Forall (fun item => Brain.readable (snd item) = true)
                     (Brain.working_memory b ++ [(memory_id, record)])).
  { apply Forall_app; split; [exact Hread|].
    constructor; [reflexivity | constructor]. }
  rewrite (BrainFacts.recall_loop_readable _ _ _ Hread').
  unfold mbind, Py.result_bind.
  split; [reflexivity|].
  split.
  - unfold Brain.matching. rewrite List.filter_app, List.map_app.
    cbn [List.filter List.map snd app].
    assert (Brain.matches "code review" record = true) as ->.
    { unfold record, Brain.matches.
      change (Py.dict_get "content" _) with
        (Some (Py.VStr ("Code review: "
                        +:+ get_default (description task) "Code review"
                        +:+ Thinking.nl +:+ "Score: "
                        +:+ Thinking.str_of_int (score result) +:+ "/100"))).
      apply review_content_matches. }
    cbn [List.map].
    unfold PyList.slice_to. destruct (Z.leb_spec 0 limit); [|lia].
    fold (Brain.matching "code review" (Brain.working_memory b)).
    rewrite take_app_ge by (rewrite length_map; lia).
    apply in_or_app. right. rewrite length_map.
    destruct (Z.to_nat limit
              - length (Brain.matching "code review" (Brain.working_memory b)))%nat
      eqn:E; [lia|].
    simpl. now left.
  - split; reflexivity.
Qed.

Lemma short_code_never_approved_witness :
  approved (_review_code Cases.short_code) = false
  /\ score (_review_code Cases.short_code) <= 55.
Proof.
  apply (short_code_never_approved Cases.short_code). reflexivity.
Defined.

Lemma review_is_remembered_witness :
  let out :=
    execute_task None "id-9" Scenarios.noon Cases.review_task
      Cases.the_reviewer in
  fst out = _review_code "import os"
  /\ reviews_completed (snd out) = 1.
Proof.
  destruct (review_is_remembered None None "id-9" Scenarios.noon
              Cases.review_task Cases.the_reviewer Scenarios.fallback_brain 5)
    as (H1 & H2 & _);
    [reflexivity | reflexivity | reflexivity | constructor
     | vm_compute; reflexivity |].
  split; [exact H1 | exact H2].
Defined.

End ReviewerTaskFacts.

(* ================================================================== *)
(** * Theorems: timestamps as text, statistics, sequences of writes *)
(* ================================================================== *)

Module StoreFacts.
Import PyStr Memory Store.

(** ** The text order of timestamps *)

Lemma ascii_compare_refl (c : ascii) : Ascii.compare c c = Eq.
Proof. unfold Ascii.compare. apply N.compare_refl. Qed.

Lemma compare_same_head (c : ascii) (r1 r2 : string) :
  String.compare (String c r1) (String c r2) = String.compare r1 r2.
Proof. simpl. now rewrite ascii_compare_refl. Qed.

Lemma digit_compare (a b : Z) :
  Ascii.compare (DateTime.digit a) (DateTime.digit b) = (a mod 10 ?= b mod 10).
Proof.
  unfold DateTime.digit.
  assert (0 <= a mod 10 < 10) as Ha by (apply Z.mod_pos_bound; lia).
  assert (0 <= b mod 10 < 10) as Hb by (apply Z.mod_pos_bound; lia).
  assert (a mod 10 = 0 \/ a mod 10 = 1 \/ a mod 10 = 2 \/ a mod 10 = 3
          \/ a mod 10 = 4 \/ a mod 10 = 5 \/ a mod 10 = 6 \/ a mod 10 = 7
          \/ a mod 10 = 8 \/ a mod 10 = 9) as Ca by lia.
  assert (b mod 10 = 0 \/ b mod 10 = 1 \/ b mod 10 = 2 \/ b mod 10 = 3
          \/ b mod 10 = 4 \/ b mod 10 = 5 \/ b mod 10 = 6 \/ b mod 10 = 7
          \/ b mod 10 = 8 \/ b mod 10 = 9) as Cb by lia.
  clear Ha Hb.
  repeat destruct Ca as [-> | Ca]; try rewrite Ca;
    repeat destruct Cb as [-> | Cb]; try rewrite Cb; reflexivity.
Qed.

Lemma compare_by_quotient (a b : Z) (next : comparison) :
  then_compare (a / 10 ?= b / 10) (then_compare (a mod 10 ?= b mod 10) next)
  = then_compare (a ?= b) next.
Proof.
  pose proof (Z.div_mod a 10 ltac:(lia)) as Ha.
  pose proof (Z.div_mod b 10 ltac:(lia)) as Hb.
  pose proof (Z.mod_pos_bound a 10 ltac:(lia)) as Ma.
  pose proof (Z.mod_pos_bound b 10 ltac:(lia)) as Mb.
  destruct (Z.compare_spec (a / 10) (b / 10)) as [Hq | Hq | Hq];
    destruct (Z.compare_spec (a mod 10) (b mod 10)) as [Hr | Hr | Hr];
    destruct (Z.compare_spec a b) as [Hc | Hc | Hc];
    cbn [then_compare]; try reflexivity; exfalso; lia.
Qed.

(** Two numbers written with the same number of digits compare as
    texts the way they compare as numbers. *)
Lemma compare_digits (w : nat) (a b : Z) (r1 r2 : string) :
  0 <= a < 10 ^ Z.of_nat w -> 0 <= b < 10 ^ Z.of_nat w ->
  String.compare (DateTime.digits w a r1) (DateTime.digits w b r2)
  = then_compare (a ?= b) (String.compare r1 r2).
Proof.
  revert a b r1 r2.
  induction w as [|w IH]; intros a b r1 r2 Ha Hb.
  - simpl in *. assert (a = 0) as -> by lia. assert (b = 0) as -> by lia.
    reflexivity.
  - rewrite Nat2Z.inj_succ, Z.pow_succ_r in * by lia.
    cbn [DateTime.digits].
    rewrite IH.
    + cbn [String.compare]. rewrite digit_compare.
      rewrite <- (compare_by_quotient a b).
      f_equal. now destruct (a mod 10 ?= b mod 10).
    + split; [apply Z.div_pos; lia | apply Z.div_lt_upper_bound; lia].
    + split; [apply Z.div_pos; lia | apply Z.div_lt_upper_bound; lia].
Qed.

Lemma compare_fraction (a b : Z) :
  0 <= a < 10 ^ 6 -> 0 <= b < 10 ^ 6 ->
  String.compare
    (if a =? 0 then EmptyString
     else String "." (DateTime.digits 6 a EmptyString))
    (if b =? 0 then EmptyString
     else String "." (DateTime.digits 6 b EmptyString))
  = (a ?= b).
Proof.
  intros Ha Hb.
  destruct (Z.eqb_spec a 0) as [-> | Hna], (Z.eqb_spec b 0) as [-> | Hnb].
  - reflexivity.
  - transitivity Lt; [reflexivity | symmetry; apply Z.compare_lt_iff; lia].
  - transitivity Gt; [reflexivity | symmetry; apply Z.compare_gt_iff; lia].
  - rewrite compare_same_head, (compare_digits 6) by assumption.
    simpl. now destruct (a ?= b).
Qed.

Lemma isoformat_compare (a b : DateTime.datetime) :
  DateTime.valid a = true -> DateTime.valid b = true ->
  String.compare (DateTime.isoformat a) (DateTime.isoformat b)
  = chrono_compare a b.
Proof.
  intros Va Vb.
  destruct (DateTimeFacts.valid_bounds a Va) as (Hy & Hmo & Hd & Hh & Hmi & Hs & Hus).
  destruct (DateTimeFacts.valid_bounds b Vb) as (Hy' & Hmo' & Hd' & Hh' & Hmi' & Hs' & Hus').
  unfold DateTime.isoformat, chrono_compare.
  rewrite (compare_digits 4), compare_same_head by assumption.
  rewrite (compare_digits 2), compare_same_head by assumption.
  rewrite (compare_digits 2), compare_same_head by assumption.
  rewrite (compare_digits 2), compare_same_head by assumption.
  rewrite (compare_digits 2), compare_same_head by assumption.
  rewrite (compare_digits 2) by assumption.
  rewrite compare_fraction by assumption.
  reflexivity.
Qed.

(** X14: the timestamps the store writes sort chronologically.  On
    valid [datetime] values the [isoformat] texts compare the way the
    instants do, so the text order by which the store sorts and filters
    timestamps is the chronological order; and two instants have the
    same text only when they are the same instant. *)
Theorem isoformat_order_is_chronological (a b : DateTime.datetime) :
  DateTime.valid a = true -> DateTime.valid b = true ->
  String.compare (DateTime.isoformat a) (DateTime.isoformat b)
  = chrono_compare a b
  /\ (String.ltb (DateTime.isoformat a) (DateTime.isoformat b) = true
      <-> chrono_compare a b = Lt)
  /\ (DateTime.isoformat a = DateTime.isoformat b <-> a = b).
Proof.
  intros Va Vb. split; [now apply isoformat_compare|]. split.
  - unfold String.ltb. rewrite isoformat_compare by assumption.
    destruct (chrono_compare a b); intuition congruence.
  - split; [|now intros ->].
    intros E.
    pose proof (DateTimeFacts.fromisoformat_isoformat a Va) as Ha.
    pose proof (DateTimeFacts.fromisoformat_isoformat b Vb) as Hb.
    rewrite E in Ha. congruence.
Qed.

(** ** Identifiers *)

Section WriteFacts.
Variable json_dumps : Py.pyval -> Py.result string.

Lemma ids_up_to_snoc (n : nat) :
  ids_up_to (S n) = ids_up_to n ++ [Z.of_nat n + 1].
Proof.
  unfold ids_up_to. rewrite seq_S, List.map_app. simpl.
  do 2 f_equal. lia.
Qed.

Lemma ids_up_to_In (n : nat) (id : Z) :
  In id (ids_up_to n) -> 1 <= id <= Z.of_nat n.
Proof.
  unfold ids_up_to. intros H. apply List.in_map_iff in H as (k & <- & Hk).
  apply List.in_seq in Hk. lia.
Qed.

Lemma apply_write_numbered (self : db) (w : write) :
  List.map c_id (consultations self) = ids_up_to (length (consultations self)) ->
  consultations_seq self = Z.of_nat (length (consultations self)) ->
  List.map t_id (tasks self) = ids_up_to (length (tasks self)) ->
  tasks_seq self = Z.of_nat (length (tasks self)) ->
  let self' := apply_write json_dumps self w in
  List.map c_id (consultations self') = ids_up_to (length (consultations self'))
  /\ consultations_seq self' = Z.of_nat (length (consultations self'))
  /\ List.map t_id (tasks self') = ids_up_to (length (tasks self'))
  /\ tasks_seq self' = Z.of_nat (length (tasks self')).
Proof.
  intros Hc Hcs Ht Hts.
  destruct w as [now a q r i m | now a ty d r st m]; cbn -[ids_up_to];
    unfold remember_consultation, remember_task;
    destruct (json_dumps (Py.py_or m Py.empty_dict)) as [text|e];
    cbn -[ids_up_to]; auto.
  - rewrite List.map_app, List.length_app, Nat.add_1_r, ids_up_to_snoc, Hc, Hcs.
    cbn -[ids_up_to]. repeat split; auto. lia.
  - rewrite List.map_app, List.length_app, Nat.add_1_r, ids_up_to_snoc, Ht, Hts.
    cbn -[ids_up_to]. repeat split; auto. lia.
Qed.

Lemma apply_writes_numbered (writes : list write) (self : db) :
  List.map c_id (consultations self) = ids_up_to (length (consultations self)) ->
  consultations_seq self = Z.of_nat (length (consultations self)) ->
  List.map t_id (tasks self) = ids_up_to (length (tasks self)) ->
  tasks_seq self = Z.of_nat (length (tasks self)) ->
  let self' := apply_writes json_dumps writes self in
  List.map c_id (consultations self') = ids_up_to (length (consultations self'))
  /\ consultations_seq self' = Z.of_nat (length (consultations self'))
  /\ List.map t_id (tasks self') = ids_up_to (length (tasks self'))
  /\ tasks_seq self' = Z.of_nat (length (tasks self')).
Proof.
  revert self. induction writes as [|w writes IH]; intros self Hc Hcs Ht Hts.
  - cbn -[ids_up_to]. auto.
  - destruct (apply_write_numbered self w Hc Hcs Ht Hts) as (Hc' & Hcs' & Ht' & Hts').
    exact (IH _ Hc' Hcs' Ht' Hts').
Qed.

(** X15: whatever consultations and tasks were written into a fresh
    store, in whatever order and whether or not some of the writes
    raised, the identifiers of each table are 1, 2, ... in the order the
    rows were written, and the next write to a table returns the number
    of its rows plus one, an identifier no row of the table carries. *)
Theorem identifiers_count_the_rows (writes : list write) :
  let self := apply_writes json_dumps writes _init_schema in
  List.map c_id (consultations self) = ids_up_to (length (consultations self))
  /\ List.map t_id (tasks self) = ids_up_to (length (tasks self))
  /\ (forall now agent query response importance metadata id self',
        remember_consultation json_dumps now agent query response importance
          metadata self = Py.Ok (id, self') ->
        id = Z.of_nat (length (consultations self)) + 1
        /\ ~ In id (List.map c_id (consultations self)))
  /\ (forall now agent task_type description result status metadata id self',
        remember_task json_dumps now agent task_type description result
          status metadata self = Py.Ok (id, self') ->
        id = Z.of_nat (length (tasks self)) + 1
        /\ ~ In id (List.map t_id (tasks self))).
Proof.
  intros self.
  destruct (apply_writes_numbered writes _init_schema)
    as (Hc & Hcs & Ht & Hts); try reflexivity.
  fold self in Hc, Hcs, Ht, Hts.
  split; [exact Hc|]. split; [exact Ht|]. split.
  - intros now agent query response importance metadata id self' H.
    unfold remember_consultation in H.
    destruct (json_dumps (Py.py_or metadata Py.empty_dict)); [|discriminate].
    cbn in H. injection H as <- _.
    split; [lia|]. rewrite Hc. intros Hin. apply ids_up_to_In in Hin. lia.
  - intros now agent task_type description result status metadata id self' H.
    unfold remember_task in H.
    destruct (json_dumps (Py.py_or metadata Py.empty_dict)); [|discriminate].
    cbn in H. injection H as <- _.
    split; [lia|]. rewrite Ht. intros Hin. apply ids_up_to_In in Hin. lia.
Qed.

End WriteFacts.

(** ** What a recall returns *)

Lemma Forall2_sorted {A B} (R : A -> A -> Prop) (S : B -> B -> Prop)
    (rel : A -> B -> Prop) (l : list A) (l' : list B) :
  (forall a a' b b', rel a b -> rel a' b' -> R a a' -> S b b') ->
  List.Forall2 rel l l' -> StronglySorted R l -> StronglySorted S l'.
Proof.
  intros Hrel H. induction H as [|a b l l' Hab Hl IH]; intros Hs.
  - constructor.
  - apply StronglySorted_inv in Hs as [Hs Ha].
    constructor; [auto|].
    clear IH Hs. induction Hl as [|a' b' l l' Hab' Hl IH]; constructor.
    + apply List.Forall_inv in Ha. eauto.
    + apply IH. now apply List.Forall_inv_tail in Ha.
Qed.

Lemma limit_sorted {A} (R : A -> A -> Prop) (n : Z) (l : list A) :
  StronglySorted R l -> StronglySorted R (Sql.limit n l).
Proof.
  intros H. unfold Sql.limit. destruct (n <? 0); [assumption|].
  now apply SqlFacts.strongly_sorted_take.
Qed.

Lemma limit_length {A} (n : Z) (l : list A) :
  0 <= n -> Z.of_nat (length (Sql.limit n l)) <= n.
Proof.
  intros H. rewrite SqlFacts.limit_nonneg by assumption.
  rewrite length_take. lia.
Qed.

Section RecallFacts.
Variable json_loads : string -> Py.result Py.pyval.

(** X16: whatever [recall_tasks] returns comes from the table: each
    record carries the fields of a stored row that passes the agent and
    type filters, the records are listed newest first by timestamp, and
    a limit that is not negative bounds their number. *)
Theorem recalled_tasks_are_stored_newest_first
    (now : DateTime.datetime) (agent task_type : option string) (limit : Z)
    (days : option Z) (self : db) (found : list task) :
  recall_tasks json_loads now agent task_type limit days self = Py.Ok found ->
  (forall k, In k found ->
     exists row, In row (tasks self)
                 /\ same_agent_and_type agent task_type row = true
                 /\ task_record_of k row)
  /\ StronglySorted newest_first found
  /\ (0 <= limit -> Z.of_nat (length found) <= limit).
Proof.
  intros H.
  apply MemoryFacts.recall_tasks_inv in H as (cutoff & _ & _ & H).
  split; [|split].
  - intros k Hk.
    destruct (MemoryFacts.Forall2_In_r _ _ _ _ H Hk) as (row & Hrow & Hk').
    exists row.
    unfold select_tasks in Hrow.
    apply SqlFacts.limit_In, SqlFacts.order_by_desc_In, List.filter_In in Hrow
      as [Hin Hf].
    apply andb_true_iff in Hf as [Hf _].
    split; [assumption|]. split; [exact Hf|].
    now apply (MemoryFacts.task_of_row_record json_loads).
  - eapply Forall2_sorted; [|exact H|].
    + intros a a' b b' Hb Hb' Hr.
      apply MemoryFacts.task_of_row_record in Hb as (_ & _ & _ & _ & _ & _ & Hb).
      apply MemoryFacts.task_of_row_record in Hb' as (_ & _ & _ & _ & _ & _ & Hb').
      unfold newest_first. rewrite Hb, Hb'. exact Hr.
    + unfold select_tasks. apply limit_sorted, SqlFacts.order_by_desc_sorted.
  - intros Hl. rewrite <- (List.Forall2_length H).
    unfold select_tasks. now apply limit_length.
Qed.

(** X17: the window of [days] is chronological.  When the clock minus
    [days] days is the valid instant [c], every consultation
    [recall_consultations] returns whose timestamp is the text of a
    valid instant was written strictly after [c]; and with a limit that
    covers the table, every stored consultation of the agent written
    strictly after [c] is returned. *)
Theorem days_window_is_chronological
    (now c : DateTime.datetime) (days : Z) (agent : option string)
    (limit : Z) (self : db) (found : list consultation) :
  DateTime.minus_days now days = Py.Ok c ->
  DateTime.valid c = true ->
  recall_consultations json_loads now agent limit (Some days) self
  = Py.Ok found ->
  (forall r t, In r found ->
     r_timestamp r = DateTime.isoformat t -> DateTime.valid t = true ->
     chrono_compare c t = Lt)
  /\ (Z.of_nat (length (consultations self)) <= limit ->
      forall row t, In row (consultations self) ->
        filter_given agent (c_agent_name row) = true ->
        c_timestamp row = DateTime.isoformat t -> DateTime.valid t = true ->
        chrono_compare c t = Lt ->
        exists r, In r found /\ record_of r row).
Proof.
  intros Hminus Hc H.
  apply MemoryFacts.recall_consultations_inv in H as (cutoff & Hcut & _ & H).
  unfold cutoff_of in Hcut. rewrite Hminus in Hcut.
  cbn [mbind Py.result_bind] in Hcut. injection Hcut as <-.
  split.
  - intros r t Hr Ht Hvalid.
    destruct (MemoryFacts.Forall2_In_r _ _ _ _ H Hr) as (row & Hrow & Hr').
    apply MemoryFacts.consultation_of_row_record in Hr'
      as (_ & _ & _ & _ & _ & Hts).
    unfold select_consultations in Hrow.
    apply SqlFacts.limit_In, SqlFacts.order_by_desc_In, List.filter_In in Hrow
      as [_ Hf].
    apply andb_true_iff in Hf as [_ Hf].
    cbn [after_cutoff] in Hf. rewrite <- Hts, Ht in Hf.
    unfold String.ltb in Hf. rewrite isoformat_compare in Hf by assumption.
    now destruct (chrono_compare c t).
  - intros Hl row t Hin Hagent Ht Hvalid Hlt.
    assert (In row (select_consultations agent
                      (Some (DateTime.isoformat c)) limit self)) as Hsel.
    { unfold select_consultations. rewrite MemoryFacts.limit_covering.
      - apply SqlFacts.order_by_desc_In, List.filter_In.
        split; [assumption|]. rewrite Hagent. cbn [andb after_cutoff].
        rewrite Ht. unfold String.ltb.
        rewrite isoformat_compare by assumption. now rewrite Hlt.
      - rewrite SqlFacts.order_by_desc_length.
        etransitivity; [|exact Hl].
        apply inj_le, List.filter_length_le. }
    destruct (MemoryFacts.Forall2_In_l _ _ _ _ H Hsel) as (r & Hr & Hr').
    exists r. split; [assumption|].
    now apply (MemoryFacts.consultation_of_row_record json_loads).
Qed.

End RecallFacts.

(** ** Statistics *)

Lemma leb_refl (s : string) : String.leb s s = true.
Proof.
  unfold String.leb.
  assert (String.compare s s = Eq) as ->; [|reflexivity].
  induction s as [|c s IH]; [reflexivity|].
  cbn [String.compare]. now rewrite ascii_compare_refl.
Qed.

Lemma max_text_greatest (l : list string) :
  match max_text l with
  | None => l = []
  | Some t => In t l /\ forall t', In t' l -> String.leb t' t = true
  end.
Proof.
  induction l as [|t0 l IH]; [reflexivity|].
  cbn [max_text fold_right]. fold (max_text l).
  destruct (max_text l) as [b|].
  - destruct IH as [Hb Hmax].
    destruct (String.ltb b t0) eqn:E.
    + split; [now left|]. intros t' [<- | Ht']; [apply leb_refl|].
      eapply SqlFacts.leb_trans; [now apply Hmax|].
      now apply SqlFacts.ltb_true_leb.
    + split; [now right|]. intros t' [<- | Ht']; [|now apply Hmax].
      now apply SqlFacts.ltb_false_leb.
  - subst l. split; [now left|]. intros t' [<- | []]. apply leb_refl.
Qed.

Section StatsFacts.
Variable json_dumps : Py.pyval -> Py.result string.

Lemma apply_write_timestamps (self : db) (w : write) (t : string) :
  In t (timestamps (apply_write json_dumps self w))
  <-> In t (timestamps self)
      \/ (stored json_dumps w = true /\ t = DateTime.isoformat (clock_of w)).
Proof.
  unfold stored, timestamps.
  destruct w as [now a q r i m | now a ty d r st m];
    cbn [apply_write metadata_of clock_of];
    unfold remember_consultation, remember_task;
    destruct (json_dumps (Py.py_or m Py.empty_dict)) as [text|e];
    cbn [mbind Py.result_bind consultations tasks];
    rewrite ?List.map_app, ?List.in_app_iff; cbn [List.map In
      c_timestamp t_timestamp];
    rewrite ?List.in_app_iff; cbn [In]; intuition congruence.
Qed.

Lemma apply_writes_timestamps (writes : list write) (self : db) (t : string) :
  In t (timestamps (apply_writes json_dumps writes self))
  <-> In t (timestamps self)
      \/ exists w, In w writes /\ stored json_dumps w = true
                   /\ t = DateTime.isoformat (clock_of w).
Proof.
  revert self. induction writes as [|w writes IH]; intros self.
  - cbn. split; [auto|]. intros [H | (w & [] & _)]. exact H.
  - change (apply_writes json_dumps (w :: writes) self)
      with (apply_writes json_dumps writes (apply_write json_dumps self w)).
    rewrite IH, apply_write_timestamps. split.
    + intros [[H | (Hs & Ht)] | (w' & Hin & Hs & Ht)]; [now left | |].
      * right. exists w. split; [now left | auto].
      * right. exists w'. split; [now right | auto].
    + intros [H | (w' & [<- | Hin] & Hs & Ht)]; [now left; left | |].
      * left. right. auto.
      * right. exists w'. auto.
Qed.

(** X18: [last_activity] of [get_stats] is the time of the latest write.
    After writes into a fresh store whose clocks read valid instants,
    [last_activity] is the timestamp of a write that stored its row and
    that no other such write is chronologically later than, whatever
    the order in which the writes were made; it is [None] exactly when
    no write stored a row. *)
Theorem last_activity_is_latest_write (writes : list write) :
  (forall w, In w writes -> DateTime.valid (clock_of w) = true) ->
  let s := get_stats (apply_writes json_dumps writes _init_schema) in
  (forall t, last_activity s = Some t ->
     exists w, In w writes /\ stored json_dumps w = true
               /\ t = DateTime.isoformat (clock_of w)
               /\ forall w', In w' writes -> stored json_dumps w' = true ->
                     chrono_compare (clock_of w') (clock_of w) <> Gt)
  /\ (last_activity s = None <->
      forall w, In w writes -> stored json_dumps w = false).
Proof.
  intros Hvalid s.
  pose proof (max_text_greatest
                (timestamps (apply_writes json_dumps writes _init_schema)))
    as Hmax.
  change (last_activity s)
    with (max_text (timestamps (apply_writes json_dumps writes _init_schema))).
  destruct (max_text _) as [b|]; split.
  - intros t Ht. injection Ht as <-. destruct Hmax as [Hin Hmax].
    apply apply_writes_timestamps in Hin as [[] | (w & Hw & Hs & Hb)].
    exists w. repeat split; try assumption.
    intros w' Hw' Hs' Hgt.
    assert (String.leb (DateTime.isoformat (clock_of w')) b = true) as Hle.
    { apply Hmax, apply_writes_timestamps. right. exists w'. auto. }
    rewrite Hb in Hle. unfold String.leb in Hle.
    rewrite isoformat_compare, Hgt in Hle by auto. discriminate.
  - split; [discriminate|]. intros Hnone. exfalso.
    destruct Hmax as [Hin _].
    apply apply_writes_timestamps in Hin as [[] | (w & Hw & Hs & _)].
    rewrite (Hnone w Hw) in Hs. discriminate.
  - discriminate.
  - split; [|reflexivity]. intros _ w Hw.
    destruct (stored json_dumps w) eqn:Hs; [|reflexivity]. exfalso.
    assert (In (DateTime.isoformat (clock_of w))
              (timestamps (apply_writes json_dumps writes _init_schema))) as Hin.
    { apply apply_writes_timestamps. right. exists w. auto. }
    rewrite Hmax in Hin. destruct Hin.
Qed.

End StatsFacts.

(** ** The theorems at work *)

Lemma isoformat_order_is_chronological_witness :
  String.ltb (DateTime.isoformat Scenarios.morning)
    (DateTime.isoformat Scenarios.noon) = true.
Proof.
  destruct (isoformat_order_is_chronological Scenarios.morning Scenarios.noon)
    as (_ & H & _); [reflexivity | reflexivity |].
  apply H. reflexivity.
Defined.

Lemma recalled_tasks_are_stored_newest_first_witness :
  exists found,
    recall_tasks loads_empty (Scenarios.clock 12 0) (Some "DataEngineer") None
      5 None Scenarios.plain_store = Py.Ok found
    /\ StronglySorted newest_first found
    /\ Z.of_nat (length found) <= 5.
Proof.
  destruct (recall_tasks loads_empty (Scenarios.clock 12 0)
              (Some "DataEngineer") None 5 None Scenarios.plain_store)
    as [found|e] eqn:E; [|vm_compute in E; discriminate].
  exists found. split; [reflexivity|].
  destruct (recalled_tasks_are_stored_newest_first loads_empty _ _ _ _ _ _ _ E)
    as (_ & Hs & Hl).
  split; [exact Hs | apply Hl; lia].
Defined.

Lemma days_window_is_chronological_witness :
  exists found,
    recall_consultations loads_empty (Scenarios.clock 12 0) None 20 (Some 1)
      Scenarios.two_agents = Py.Ok found
    /\ exists r,
         In r found
         /\ record_of r
              (Scenarios.a_consultation 1 "DataEngineer" "q1" "r1"
                 (Scenarios.stamp 9 0)).
Proof.
  destruct (recall_consultations loads_empty (Scenarios.clock 12 0) None 20
              (Some 1) Scenarios.two_agents)
    as [found|e] eqn:E; [|vm_compute in E; discriminate].
  exists found. split; [reflexivity|].
  destruct (days_window_is_chronological loads_empty (Scenarios.clock 12 0)
              Cases.yesterday_noon 1 None 20 Scenarios.two_agents found)
    as [_ H]; [reflexivity | reflexivity | exact E |].
  apply (H ltac:(vm_compute; discriminate) _ (Scenarios.clock 9 0));
    [now left | reflexivity | reflexivity | reflexivity | reflexivity].
Defined.

Lemma last_activity_is_latest_write_witness :
  exists w,
    In w Cases.out_of_order_writes
    /\ stored dumps_empty w = true
    /\ DateTime.isoformat Scenarios.noon = DateTime.isoformat (clock_of w)
    /\ forall w', In w' Cases.out_of_order_writes ->
          stored dumps_empty w' = true ->
          chrono_compare (clock_of w') (clock_of w) <> Gt.
Proof.
  apply (last_activity_is_latest_write dumps_empty Cases.out_of_order_writes).
  - intros w [<- | [<- | []]]; reflexivity.
  - vm_compute. reflexivity.
Defined.

End StoreFacts.

(* ================================================================== *)
(** * Theorems: the task tracker *)
(* ================================================================== *)

Module TrackerFacts.
Import PyStr Memory Tracker.

(** ** Dictionaries of counters *)

Lemma get_set_item (key key' : string) (v default : Z) (d : counts) :
  get key' default (set_item key v d)
  = if String.eqb key key' then v else get key' default d.
Proof.
  induction d as [|[k v0] d IH]; cbn [set_item get].
  - reflexivity.
  - destruct (String.eqb_spec k key) as [-> | Hk]; cbn [get].
    + destruct (String.eqb_spec key key'); reflexivity.
    + rewrite IH. destruct (String.eqb_spec k key') as [-> | Hk'];
        [|reflexivity].
      destruct (String.eqb_spec key key'); [congruence | reflexivity].
Qed.

Lemma total_set_item (key : string) (v : Z) (d : counts) :
  total (set_item key v d) = total d - get key 0 d + v.
Proof.
  unfold total.
  induction d as [|[k v0] d IH]; cbn [set_item get List.map fold_right snd].
  - lia.
  - destruct (String.eqb k key); cbn [List.map fold_right snd]; lia.
Qed.

Lemma total_count_up (key : string) (d : counts) :
  total (count_up key d) = total d + 1.
Proof. unfold count_up. rewrite total_set_item. lia. Qed.

Lemma keys_set_item (key : string) (v : Z) (d : counts) :
  keys (set_item key v d)
  = if existsb (String.eqb key) (keys d) then keys d else keys d ++ [key].
Proof.
  unfold keys.
  induction d as [|[k v0] d IH]; cbn [set_item List.map existsb fst].
  - reflexivity.
  - rewrite (String.eqb_sym key k).
    destruct (String.eqb_spec k key) as [-> | Hk];
      cbn [List.map fst orb]; [reflexivity|].
    rewrite IH.
    destruct (existsb (String.eqb key) (List.map fst d)); reflexivity.
Qed.

Lemma existsb_eqb_In (key : string) (l : list string) :
  existsb (String.eqb key) l = true <-> In key l.
Proof.
  rewrite List.existsb_exists. split.
  - intros (x & Hx & E). apply String.eqb_eq in E. now subst.
  - intros H. exists key. split; [assumption | apply String.eqb_refl].
Qed.

Lemma keys_count_up_NoDup (key : string) (d : counts) :
  List.NoDup (keys d) -> List.NoDup (keys (count_up key d)).
Proof.
  intros H. unfold count_up. rewrite keys_set_item.
  destruct (existsb (String.eqb key) (keys d)) eqn:E; [assumption|].
  apply List.NoDup_app; [assumption | repeat constructor; intros [] |].
  intros x Hx [<- | []].
  apply existsb_eqb_In in Hx. congruence.
Qed.

Lemma set_item_In (key : string) (v : Z) (d : counts) (kv : string * Z) :
  In kv (set_item key v d) -> kv = (key, v) \/ In kv d.
Proof.
  induction d as [|[k v0] d IH]; cbn [set_item].
  - intros [<- | []]. now left.
  - destruct (String.eqb_spec k key) as [-> | Hk].
    + intros [<- | H]; [now left | right; now right].
    + intros [<- | H]; [right; now left|].
      destruct (IH H); [now left | right; now right].
Qed.

Lemma get_In (key : string) (v : Z) (d : counts) :
  List.NoDup (keys d) -> In (key, v) d -> get key 0 d = v.
Proof.
  unfold keys.
  induction d as [|[k v0] d IH]; intros Hnd Hin; [destruct Hin|].
  cbn [List.map fst] in Hnd. apply List.NoDup_cons_iff in Hnd as [Hk Hnd].
  cbn [get]. destruct Hin as [E | Hin].
  - injection E as -> ->. now rewrite String.eqb_refl.
  - destruct (String.eqb_spec k key) as [-> | Hne]; [|auto].
    exfalso. apply Hk. apply List.in_map_iff. now exists (key, v).
Qed.

Lemma get_not_key (key : string) (d : counts) :
  ~ In key (keys d) -> get key 0 d = 0.
Proof.
  unfold keys.
  induction d as [|[k v0] d IH]; intros H; [reflexivity|].
  cbn [get]. cbn [List.map fst In] in H.
  destruct (String.eqb_spec k key) as [-> | Hne]; [tauto|].
  apply IH. tauto.
Qed.

(** ** Counting by a field *)

Section Tally.
Context {A : Type} (field : A -> string).

Lemma count_if_cons (f : A -> bool) (x : A) (l : list A) :
  PyList.count_if f (x :: l) = (if f x then 1 else 0) + PyList.count_if f l.
Proof.
  unfold PyList.count_if. cbn [List.filter].
  destruct (f x); cbn [List.map fold_right]; lia.
Qed.

Lemma count_if_nonneg (f : A -> bool) (l : list A) :
  0 <= PyList.count_if f l.
Proof.
  induction l as [|x l IH]; [unfold PyList.count_if; simpl; lia|].
  rewrite count_if_cons. destruct (f x); lia.
Qed.

Lemma tally_get (l : list A) (d : counts) (key : string) :
  get key 0 (fold_left (tally_step field) l d)
  = get key 0 d + PyList.count_if (fun x => String.eqb (field x) key) l.
Proof.
  revert d. induction l as [|x l IH]; intros d.
  - unfold PyList.count_if. simpl. lia.
  - cbn [fold_left]. rewrite IH, count_if_cons.
    unfold tally_step, count_up. rewrite get_set_item.
    destruct (String.eqb_spec (field x) key) as [-> | Hne]; lia.
Qed.

Lemma tally_total (l : list A) (d : counts) :
  total (fold_left (tally_step field) l d) = total d + Z.of_nat (length l).
Proof.
  revert d. induction l as [|x l IH]; intros d.
  - simpl. lia.
  - cbn [fold_left length]. rewrite IH. unfold tally_step.
    rewrite total_count_up. lia.
Qed.

Lemma tally_NoDup (l : list A) (d : counts) :
  List.NoDup (keys d) -> List.NoDup (keys (fold_left (tally_step field) l d)).
Proof.
  revert d. induction l as [|x l IH]; intros d H; [assumption|].
  cbn [fold_left]. apply IH. now apply keys_count_up_NoDup.
Qed.

Lemma tally_keys (l : list A) (d : counts) (key : string) :
  In key (keys (fold_left (tally_step field) l d)) ->
  In key (keys d) \/ In key (List.map field l).
Proof.
  revert d. induction l as [|x l IH]; intros d H; [now left|].
  cbn [fold_left] in H. apply IH in H as [H | H].
  - unfold tally_step, count_up in H. rewrite keys_set_item in H.
    destruct (existsb _ _); [now left|].
    apply List.in_app_iff in H as [H | [<- | []]]; [now left|].
    right. now left.
  - right. now right.
Qed.

Lemma tally_nonempty (l : list A) (d : counts) :
  l <> [] \/ d <> [] -> fold_left (tally_step field) l d <> [].
Proof.
  revert d. induction l as [|x l IH]; intros d H.
  - destruct H; [congruence | assumption].
  - cbn [fold_left]. apply IH. right.
    unfold tally_step, count_up.
    destruct d as [|[k v] d]; cbn [set_item]; [discriminate|].
    destruct (String.eqb k (field x)); discriminate.
Qed.

End Tally.

Lemma fold_pair {A} (f g : A -> string) (l : list A) (a b : counts) :
  fold_left
    (fun '(by_f, by_g) x => (count_up (f x) by_f, count_up (g x) by_g))
    l (a, b)
  = (fold_left (tally_step f) l a, fold_left (tally_step g) l b).
Proof.
  revert a b. induction l as [|x l IH]; intros a b; [reflexivity|].
  cbn [fold_left]. now rewrite IH.
Qed.

(** ** Sorting by descending key *)

Section Sorting.
Context {A : Type} (key : A -> Z).

Lemma insert_desc_elements (x z : A) (l : list A) :
  In z (insert_desc key x l) <-> z = x \/ In z l.
Proof.
  induction l as [|y l IH]; cbn [insert_desc].
  - cbn [In]. intuition.
  - destruct (key x <? key y); cbn [In]; rewrite ?IH; cbn [In]; intuition.
Qed.

Lemma sorted_desc_elements (z : A) (l : list A) :
  In z (sorted_desc key l) <-> In z l.
Proof.
  unfold sorted_desc.
  induction l as [|y l IH]; cbn [fold_right]; [reflexivity|].
  rewrite insert_desc_elements, IH. cbn [In]. intuition.
Qed.

Lemma insert_desc_head (x : A) (l : list A) :
  (forall h rest, l = h :: rest -> forall z, In z l -> key z <= key h) ->
  forall h rest, insert_desc key x l = h :: rest ->
  forall z, In z (insert_desc key x l) -> key z <= key h.
Proof.
  intros Hl h rest E z Hz. apply insert_desc_elements in Hz.
  destruct l as [|y l]; cbn [insert_desc] in E.
  - injection E as <- <-. destruct Hz as [-> | []]. lia.
  - pose proof (Hl y l eq_refl) as Hy.
    destruct (Z.ltb_spec (key x) (key y)); injection E as <- _.
    + destruct Hz as [-> | Hz]; [lia | now apply Hy].
    + destruct Hz as [-> | Hz]; [lia|]. specialize (Hy z Hz). lia.
Qed.

Lemma sorted_desc_head (l : list A) (h : A) (rest : list A) :
  sorted_desc key l = h :: rest ->
  In h l /\ forall z, In z l -> key z <= key h.
Proof.
  intros E. split.
  - apply sorted_desc_elements. rewrite E. now left.
  - intros z Hz. apply sorted_desc_elements in Hz.
    revert h rest E z Hz. unfold sorted_desc.
    induction l as [|y l IH]; cbn [fold_right]; [discriminate|].
    apply insert_desc_head. exact IH.
Qed.

Lemma sorted_desc_nonempty (l : list A) :
  l <> [] -> sorted_desc key l <> [].
Proof.
  destruct l as [|x l]; [congruence|]. intros _ E.
  assert (In x (sorted_desc key (x :: l))) as Hin
    by (apply sorted_desc_elements; now left).
  rewrite E in Hin. destruct Hin.
Qed.

End Sorting.

(** ** Texts *)

Lemma append_cons (c : ascii) (a b : string) :
  String c a +:+ b = String c (a +:+ b).
Proof. reflexivity. Qed.

Lemma append_empty_l (b : string) : EmptyString +:+ b = b.
Proof. reflexivity. Qed.

Lemma append_snoc (a : string) (c : ascii) (b : string) :
  (a +:+ String c EmptyString) +:+ b = a +:+ String c b.
Proof.
  induction a as [|d a IH]; [reflexivity|].
  rewrite !append_cons. now rewrite IH.
Qed.

Lemma prefix_empty (s : string) : String.prefix EmptyString s = true.
Proof. now destruct s. Qed.

Lemma prefix_of_empty (kw : string) :
  String.prefix kw EmptyString = true -> kw = EmptyString.
Proof. destruct kw; [reflexivity | discriminate]. Qed.

Lemma prefix_app_l (kw a b : string) :
  String.prefix kw a = true -> String.prefix kw (a +:+ b) = true.
Proof.
  revert a. induction kw as [|k kw IH]; intros a H.
  - apply prefix_empty.
  - destruct a as [|c a]; [discriminate|].
    rewrite append_cons. cbn [String.prefix] in *.
    destruct (ascii_dec k c); [now apply IH | discriminate].
Qed.

Lemma str_in_cons (kw : string) (c : ascii) (s : string) :
  str_in kw s = true -> str_in kw (String c s) = true.
Proof. intros H. cbn [str_in]. rewrite H. apply orb_true_r. Qed.

Lemma str_in_app_r (kw a b : string) :
  str_in kw b = true -> str_in kw (a +:+ b) = true.
Proof.
  intros H. induction a as [|c a IH]; [exact H|].
  rewrite append_cons. now apply str_in_cons.
Qed.

Lemma str_in_app_l (kw a b : string) :
  str_in kw a = true -> str_in kw (a +:+ b) = true.
Proof.
  induction a as [|c a IH]; intros H.
  - cbn [str_in] in H. rewrite orb_false_r in H.
    apply prefix_of_empty in H. subst kw.
    apply ReviewerTaskFacts.prefix_str_in, prefix_empty.
  - cbn [str_in] in H. apply orb_true_iff in H as [H | H].
    + apply ReviewerTaskFacts.prefix_str_in. now apply prefix_app_l.
    + rewrite append_cons. apply str_in_cons. now apply IH.
Qed.

Lemma join_str_in (kw sep p : string) (parts : list string) :
  In p parts -> str_in kw p = true ->
  str_in kw (Thinking.join sep parts) = true.
Proof.
  intros Hin Hp. induction parts as [|x parts IH]; [destruct Hin|].
  cbn [Thinking.join]. destruct parts as [|y parts].
  - destruct Hin as [-> | []]. exact Hp.
  - destruct Hin as [-> | Hin].
    + now apply str_in_app_l.
    + apply str_in_app_r, str_in_app_r. now apply IH.
Qed.

(** ** Computations that read the clock *)

Lemma bind_ok {A B} (m : timed A) (k : A -> timed B) (n : nat)
    (r : B * nat) :
  (x ← m; k x) n = Py.Ok r ->
  exists a n1, m n = Py.Ok (a, n1) /\ k a n1 = Py.Ok r.
Proof.
  unfold mbind, timed_bind. destruct (m n) as [[a n1]|e]; [|discriminate].
  intros H. now exists a, n1.
Qed.

Lemma lift_ok {A} (r : Py.result A) (n : nat) (a : A) (n' : nat) :
  lift r n = Py.Ok (a, n') -> r = Py.Ok a /\ n' = n.
Proof.
  unfold lift. destruct r; [|discriminate]. intros H. injection H as -> ->.
  auto.
Qed.

Lemma now_ok (clock : nat -> DateTime.datetime) (n : nat)
    (t : DateTime.datetime) (n' : nat) :
  now clock n = Py.Ok (t, n') -> t = clock n /\ n' = S n.
Proof. unfold now. intros H. injection H as <- <-. auto. Qed.

Lemma ret_ok {A} (a b : A) (n n' : nat) :
  (mret a : timed A) n = Py.Ok (b, n') -> b = a /\ n' = n.
Proof. unfold mret, timed_ret. intros H. injection H as <- <-. auto. Qed.

Lemma count_if_In {A} (f : A -> bool) (x : A) (l : list A) :
  In x l -> f x = true -> 1 <= PyList.count_if f l.
Proof.
  intros Hin Hf. induction l as [|y l IH]; [destruct Hin|].
  rewrite count_if_cons. destruct Hin as [-> | Hin].
  - rewrite Hf. pose proof (count_if_nonneg f l). lia.
  - specialize (IH Hin). destruct (f y); lia.
Qed.

Section TrackerJson.
Variable json_dumps : Py.pyval -> Py.result string.
Variable json_loads : string -> Py.result Py.pyval.

(** X19: the summary [get_recent_activity] returns is consistent with
    the tasks it recalled: [by_agent] holds for every agent the number
    of recalled tasks of that agent and [by_type] for every type the
    number of that type, no key is listed twice, the counters of each
    dictionary add up to [total_tasks], which is at most 100, and
    [recent_tasks] are the first ten. *)
Theorem activity_counts_add_up
    (now : DateTime.datetime) (days : Z) (self : db) (a : activity) :
  get_recent_activity json_loads now days self = Py.Ok a ->
  exists tasks,
    recall_tasks json_loads now None None 100 (Some days) self = Py.Ok tasks
    /\ total_tasks a = Z.of_nat (length tasks)
    /\ total_tasks a <= 100
    /\ (forall agent, get agent 0 (by_agent a) = number_with k_agent agent tasks)
    /\ (forall task_type,
          get task_type 0 (by_type a) = number_with k_task_type task_type tasks)
    /\ List.NoDup (keys (by_agent a)) /\ List.NoDup (keys (by_type a))
    /\ total (by_agent a) = total_tasks a
    /\ total (by_type a) = total_tasks a
    /\ recent_tasks a = take 10 tasks.
Proof.
  unfold get_recent_activity. intros H.
  destruct (recall_tasks json_loads now None None 100 (Some days) self)
    as [tasks|e] eqn:Hrecall; [|discriminate].
  cbn [mbind Py.result_bind] in H. rewrite fold_pair in H.
  injection H as <-. exists tasks. cbn [total_tasks by_agent by_type recent_tasks].
  split; [reflexivity|]. split; [reflexivity|]. split.
  { apply MemoryFacts.recall_tasks_inv in Hrecall as (cutoff & _ & _ & Hrecall).
    apply List.Forall2_length in Hrecall.
    rewrite <- Hrecall. unfold select_tasks.
    now apply StoreFacts.limit_length. }
  split; [intros agent; now rewrite tally_get|].
  split; [intros task_type; now rewrite tally_get|].
  split; [apply tally_NoDup; constructor|].
  split; [apply tally_NoDup; constructor|].
  rewrite !tally_total. unfold total. simpl. auto.
Qed.

(** ** Suggestions *)

(** X20: [_get_suggestions] never comes back empty-handed.  When it
    returns, either no task of the agent was recalled for the last 90
    days and the only suggestion is the first-consultation line, or the
    first suggestion names a task type together with the number of
    recalled tasks of that type, no type has more of them, and at most
    the reminder of a similar task follows. *)
Theorem suggestions_name_the_most_common_type
    (clock : nat -> DateTime.datetime) (agent query : string) (self : db)
    (n : nat) (suggestions : list string) (n' : nat) :
  _get_suggestions json_loads clock agent query self n
  = Py.Ok (suggestions, n') ->
  exists tasks,
    recall_tasks json_loads (clock n) (Some agent) None 50 (Some 90) self
    = Py.Ok tasks
    /\ (tasks = [] -> suggestions = [first_consultation])
    /\ (tasks <> [] ->
        exists top_type count rest,
          suggestions = most_common_line top_type count :: rest
          /\ (rest = [] \/ rest = [similar_done])
          /\ count = number_with k_task_type top_type tasks
          /\ 1 <= count
          /\ forall task_type,
               number_with k_task_type task_type tasks <= count).
Proof.
  unfold _get_suggestions. intros H.
  apply bind_ok in H as (t & n1 & Hnow & H).
  apply now_ok in Hnow as [-> ->].
  apply bind_ok in H as (tasks & n2 & Hrecall & H).
  apply lift_ok in Hrecall as [Hrecall ->].
  exists tasks. split; [exact Hrecall|].
  destruct tasks as [|task tasks].
  { apply ret_ok in H as [-> _]. split; [reflexivity | congruence]. }
  split; [discriminate|]. intros _.
  set (all := task :: tasks) in *.
  change (fold_left (fun task_types task0 => count_up (k_task_type task0) task_types)
            all [])
    with (fold_left (tally_step k_task_type) all []) in H.
  set (d := fold_left (tally_step k_task_type) all []) in *.
  assert (Hd : d <> []) by (apply tally_nonempty; left; discriminate).
  assert (Hnd : List.NoDup (keys d)) by (apply tally_NoDup; constructor).
  assert (Hget : forall ty, get ty 0 d = number_with k_task_type ty all).
  { intros ty. unfold d. now rewrite tally_get. }
  destruct (sorted_desc snd d) as [|[top_type count] others] eqn:Es.
  { exfalso. now apply (sorted_desc_nonempty snd d). }
  apply sorted_desc_head in Es as [Hin Hmax].
  assert (Hcount : count = number_with k_task_type top_type all).
  { rewrite <- Hget. symmetry. now apply get_In. }
  assert (Hpos : 1 <= count).
  { rewrite Hcount.
    assert (In top_type (keys d)) as Hk
      by (apply List.in_map_iff; now exists (top_type, count)).
    apply tally_keys in Hk as [[] | Hk].
    apply List.in_map_iff in Hk as (x & Hx & Hin').
    apply (count_if_In _ x); [assumption|]. rewrite Hx. apply String.eqb_refl. }
  assert (Hall : forall ty, number_with k_task_type ty all <= count).
  { intros ty. rewrite <- Hget.
    destruct (List.in_dec string_dec ty (keys d)) as [Hk | Hk].
    - apply List.in_map_iff in Hk as ([k v] & Hk & Hkv). cbn [fst] in Hk. subst k.
      rewrite (get_In ty v d Hnd Hkv). exact (Hmax (ty, v) Hkv).
    - rewrite get_not_key by assumption. lia. }
  exists top_type, count.
  destruct (elements (_extract_keywords query 4)) as [|kw kws].
  - apply ret_ok in H as [-> _]. exists []. cbn [app]. auto.
  - apply bind_ok in H as (t & n3 & _ & H).
    apply bind_ok in H as (done & n4 & _ & H).
    apply ret_ok in H as [-> _].
    destruct done; [exists [similar_done] | exists []]; cbn [app]; auto.
Qed.


Lemma suggestions_nonempty (clock : nat -> DateTime.datetime)
    (agent query : string) (self : db) (n : nat)
    (suggestions : list string) (n' : nat) :
  _get_suggestions json_loads clock agent query self n
  = Py.Ok (suggestions, n') ->
  suggestions <> [].
Proof.
  unfold _get_suggestions. intros H.
  apply bind_ok in H as (t & n1 & _ & H).
  apply bind_ok in H as (tasks & n2 & _ & H).
  destruct tasks as [|task tasks].
  { apply ret_ok in H as [-> _]. discriminate. }
  set (all := task :: tasks) in *.
  change (fold_left (fun task_types task0 => count_up (k_task_type task0) task_types)
            all [])
    with (fold_left (tally_step k_task_type) all []) in H.
  set (d := fold_left (tally_step k_task_type) all []) in *.
  assert (Hd : d <> []) by (apply tally_nonempty; left; discriminate).
  destruct (sorted_desc snd d) as [|[top_type count] others] eqn:Es.
  { exfalso. now apply (sorted_desc_nonempty snd d). }
  destruct (elements (_extract_keywords query 4)) as [|kw kws].
  - apply ret_ok in H as [-> _]. discriminate.
  - apply bind_ok in H as (t' & n3 & _ & H).
    apply bind_ok in H as (done & n4 & _ & H).
    apply ret_ok in H as [-> _]. destruct done; discriminate.
Qed.

(** X21: [get_context] always has something to say.  Whenever it
    returns, the text holds the suggestions section, so it is never the
    text that announces that no earlier context was found. *)
Theorem context_always_has_suggestions
    (clock : nat -> DateTime.datetime) (agent query : string)
    (max_items : Z) (self : db) (n : nat) (text : string) (n' : nat) :
  get_context json_loads clock agent query max_items self n
  = Py.Ok (text, n') ->
  str_in "=== SUGGESTIONS ===" text = true /\ text <> no_context.
Proof.
  intros H.
  assert (str_in "=== SUGGESTIONS ===" text = true) as Hin.
  { unfold get_context in H.
    apply bind_ok in H as (t & n1 & _ & H).
    apply bind_ok in H as (recent & n2 & _ & H).
    apply bind_ok in H as (parts1 & n3 & _ & H).
    apply bind_ok in H as (parts2 & n4 & _ & H).
    apply bind_ok in H as (suggestions & n5 & Hs & H).
    apply suggestions_nonempty in Hs.
    destruct suggestions as [|s suggestions]; [congruence|].
    set (section := [Thinking.nl +:+ "=== SUGGESTIONS ==="]
                    ++ List.map (fun s0 => "- " +:+ s0) (s :: suggestions)) in *.
    destruct (parts2 ++ section) as [|p parts] eqn:E.
    { apply List.app_eq_nil in E as [_ E]. discriminate. }
    apply ret_ok in H as [-> _]. rewrite <- E.
    apply (join_str_in _ _ (Thinking.nl +:+ "=== SUGGESTIONS ===")).
    - apply List.in_app_iff. right. now left.
    - apply str_in_app_r. reflexivity. }
  split; [exact Hin|].
  intros ->. vm_compute in Hin. discriminate.
Qed.

(** ** Logging a task and asking for it *)

(** X22: a task just logged is found by [has_done_before].  When the
    metadata can be written and read back, the stored tasks of the
    agent are readable and older than the new one, and the new task
    falls in the window of [days] days before the clock of the question,
    [has_done_before] answers [True] for every list of keywords one of
    which occurs, whatever its case, in the description. *)
Theorem logged_task_is_found_again
    (now now' cutoff : DateTime.datetime)
    (agent task_type description : string) (result : option string)
    (status : string) (metadata : Py.pyval) (text : string)
    (keywords : list string) (keyword : string) (days : Z) (self : db) :
  json_dumps (Py.py_or metadata Py.empty_dict) = Py.Ok text ->
  (exists v, load_metadata json_loads (Some text) = Py.Ok v) ->
  (forall row, In row (tasks self) ->
     filter_given (Some agent) (t_agent_name row) = true ->
     (exists v, load_metadata json_loads (t_metadata row) = Py.Ok v)
     /\ String.ltb (t_timestamp row) (DateTime.isoformat now) = true) ->
  DateTime.valid now = true ->
  DateTime.minus_days now' days = Py.Ok cutoff ->
  DateTime.valid cutoff = true ->
  Store.chrono_compare cutoff now = Lt ->
  In keyword keywords ->
  str_in (lower keyword) (lower description) = true ->
  exists id self',
    log_task json_dumps now agent task_type description result status
      metadata self = Py.Ok (id, self')
    /\ has_done_before json_loads now' agent keywords days self'
       = Py.Ok true.
Proof.
  intros Hdumps [v Hloads] Hold Hvalid Hminus Hcut Hlt Hkw Hin.
  unfold log_task, remember_task. rewrite Hdumps.
  cbn [mbind Py.result_bind]. eexists. eexists. split; [reflexivity|].
  set (row := {| t_id := tasks_seq self + 1; t_agent_name := agent;
                 t_task_type := task_type; t_description := description;
                 t_result := result; t_status := status;
                 t_metadata := Some text;
                 t_timestamp := DateTime.isoformat now |}).
  set (keep := fun r : task_row =>
                 filter_given (Some agent) (t_agent_name r)
                 && filter_given None (t_task_type r)
                 && after_cutoff (Some (DateTime.isoformat cutoff))
                      (t_timestamp r)).
  set (older := List.filter keep (tasks self)).
  assert (Holder : forall r, In r older ->
            In r (tasks self)
            /\ filter_given (Some agent) (t_agent_name r) = true).
  { intros r Hr. apply List.filter_In in Hr as [Hr Hf]. unfold keep in Hf.
    apply andb_true_iff in Hf as [Hf _]. apply andb_true_iff in Hf as [Hf _].
    auto. }
  assert (Hkeep : keep row = true).
  { unfold keep. cbn [t_agent_name t_task_type t_timestamp row].
    rewrite MemoryFacts.filter_given_same. cbn [filter_given andb after_cutoff].
    unfold String.ltb. rewrite StoreFacts.isoformat_compare by assumption.
    now rewrite Hlt. }
  assert (Hselect :
    select_tasks (Some agent) None (Some (DateTime.isoformat cutoff)) 50
      {| consultations := consultations self;
         consultations_seq := consultations_seq self;
         tasks := tasks self ++ [row];
         tasks_seq := tasks_seq self + 1 |}
    = row :: take 49 (Sql.order_by_desc t_timestamp older)).
  { unfold select_tasks. cbn [tasks]. fold keep.
    rewrite List.filter_app. cbn [List.filter]. rewrite Hkeep. fold older.
    rewrite SqlFacts.order_by_desc_newest.
    - reflexivity.
    - apply List.Forall_forall. intros r Hr.
      destruct (Holder r Hr) as [Hr1 Hr2]. now apply Hold. }
  destruct (MemoryFacts.mapM_ok (task_of_row json_loads)
              (take 49 (Sql.order_by_desc t_timestamp older)))
    as [rest Hrest].
  { intros r Hr.
    apply SqlFacts.take_In, SqlFacts.order_by_desc_In in Hr.
    destruct (Holder r Hr) as [Hr1 Hr2].
    destruct (Hold r Hr1 Hr2) as [[w Hw] _].
    unfold task_of_row. rewrite Hw. eexists. reflexivity. }
  unfold has_done_before, recall_tasks, cutoff_of. rewrite Hminus.
  cbn [mbind Py.result_bind].
  rewrite SqlFacts.bind_integer_ok by lia.
  cbn [mbind Py.result_bind]. fold row. rewrite Hselect.
  assert (exists k, task_of_row json_loads row = Py.Ok k
                    /\ k_description k = description
                    /\ k_result k = result) as (k & Hrow & Hkd & Hkr).
  { unfold task_of_row. change (t_metadata row) with (Some text).
    rewrite Hloads. eexists. split; [reflexivity|]. split; reflexivity. }
  rewrite MemoryFacts.mapM_cons, Hrow, Hrest.
  cbn [mbind Py.result_bind mret Py.result_ret existsb].
  f_equal. apply orb_true_iff. left.
  apply List.existsb_exists. exists keyword. split; [assumption|].
  unfold mentions, text_of. rewrite Hkd.
  rewrite ReviewerTaskFacts.lower_append. now apply str_in_app_l.
Qed.

End TrackerJson.

(** ** Keywords *)

Lemma all_chars_app (f : ascii -> bool) (a b : string) :
  all_chars f (a +:+ b) = all_chars f a && all_chars f b.
Proof.
  induction a as [|c a IH]; [reflexivity|].
  rewrite append_cons. cbn [all_chars]. rewrite IH. apply andb_assoc.
Qed.

Lemma append_empty_r (a : string) : a +:+ EmptyString = a.
Proof.
  induction a as [|c a IH]; [reflexivity|].
  rewrite append_cons. now rewrite IH.
Qed.

(** The words [findall_words] reads are made of word characters and
    stand in the text, the run being read in front of it. *)
Lemma findall_words_sound (text current w : string) :
  all_chars is_word_char current = true ->
  In w (findall_words current text) ->
  all_chars is_word_char w = true
  /\ str_in w (current +:+ text) = true
  /\ (all_chars (fun c => Ascii.eqb (lower_char c) c) (current +:+ text) = true ->
      all_chars (fun c => Ascii.eqb (lower_char c) c) w = true).
Proof.
  revert current. induction text as [|c text IH]; intros current Hc Hin.
  - cbn [findall_words] in Hin. destruct (truthy current); [|destruct Hin].
    destruct Hin as [<- | []].
    split; [assumption|]. split; [|rewrite append_empty_r; auto].
    apply ReviewerTaskFacts.prefix_str_in, ThinkingFacts.prefix_append.
  - cbn [findall_words] in Hin. destruct (is_word_char c) eqn:Ec.
    + rewrite <- append_snoc. apply IH; [|assumption].
      rewrite all_chars_app, Hc. cbn [all_chars]. now rewrite Ec.
    + apply List.in_app_iff in Hin as [Hin | Hin].
      * destruct (truthy current); [|destruct Hin].
        destruct Hin as [<- | []].
        split; [assumption|]. split.
        -- apply ReviewerTaskFacts.prefix_str_in, ThinkingFacts.prefix_append.
        -- rewrite all_chars_app. intros H.
           now apply andb_true_iff in H as [H _].
      * destruct (IH EmptyString eq_refl Hin) as (H1 & H2 & H3).
        rewrite append_empty_l in H2, H3.
        split; [assumption|]. split.
        -- apply str_in_app_r, str_in_cons, H2.
        -- rewrite all_chars_app. cbn [all_chars]. intros H.
           apply andb_true_iff in H as [_ H].
           apply andb_true_iff in H as [_ H]. auto.
Qed.

Lemma lower_char_idempotent (c : ascii) :
  Ascii.eqb (lower_char (lower_char c)) (lower_char c) = true.
Proof.
  destruct c as [[] [] [] [] [] [] [] []]; vm_compute; reflexivity.
Qed.

Lemma lower_is_lower (s : string) :
  all_chars (fun c => Ascii.eqb (lower_char c) c) (lower s) = true.
Proof.
  induction s as [|c s IH]; [reflexivity|].
  cbn [lower all_chars]. now rewrite lower_char_idempotent, IH.
Qed.

Lemma all_chars_lower (s : string) :
  all_chars (fun c => Ascii.eqb (lower_char c) c) s = true -> lower s = s.
Proof.
  induction s as [|c s IH]; [reflexivity|].
  cbn [all_chars lower]. intros H. apply andb_true_iff in H as [Hc Hs].
  apply Ascii.eqb_eq in Hc. now rewrite Hc, IH.
Qed.

(** X23: what [_extract_keywords] keeps.  Every keyword is a run of
    letters, digits and underscores that stands in the lowered text, is
    itself in lower case, has at least [min_length] characters and is
    none of the stop words. *)
Theorem keywords_are_long_words_of_the_text
    (text : string) (min_length : Z) (w : string) :
  w ∈ _extract_keywords text min_length ->
  all_chars is_word_char w = true
  /\ str_in w (lower text) = true
  /\ lower w = w
  /\ min_length <= len w
  /\ ~ In w stop_words.
Proof.
  unfold _extract_keywords. intros H.
  apply elem_of_list_to_set, list_elem_of_In, List.filter_In in H as [Hin Hk].
  destruct (findall_words_sound (lower text) EmptyString w eq_refl Hin)
    as (H1 & H2 & H3).
  rewrite append_empty_l in H2, H3.
  unfold is_keyword in Hk. apply andb_true_iff in Hk as [Hlen Hstop].
  split; [assumption|]. split; [assumption|].
  split; [apply all_chars_lower, H3, lower_is_lower|].
  split; [lia|].
  intros Hw. apply existsb_eqb_In in Hw.
  rewrite Hw in Hstop. discriminate.
Qed.

(** ** The theorems at work *)

Lemma activity_counts_add_up_witness :
  exists a,
    get_recent_activity loads_empty (Scenarios.clock 12 0) 1
      Scenarios.plain_store = Py.Ok a
    /\ total_tasks a = 1
    /\ total (by_agent a) = total_tasks a
    /\ total (by_type a) = total_tasks a.
Proof.
  destruct (get_recent_activity loads_empty (Scenarios.clock 12 0) 1
              Scenarios.plain_store) as [a|e] eqn:E;
    [|vm_compute in E; discriminate].
  exists a. split; [reflexivity|].
  destruct (activity_counts_add_up loads_empty _ _ _ _ E)
    as (tasks & _ & _ & _ & _ & _ & _ & _ & H1 & H2 & _).
  split; [|split; assumption].
  vm_compute in E. injection E as <-. reflexivity.
Defined.

Lemma suggestions_name_the_most_common_type_witness :
  exists suggestions n',
    _get_suggestions loads_empty Cases.steady_clock "DataEngineer"
      Cases.question Scenarios.optimization_store 0%nat
    = Py.Ok (suggestions, n')
    /\ exists tasks,
         recall_tasks loads_empty (Cases.steady_clock 0%nat) (Some "DataEngineer")
           None 50 (Some 90) Scenarios.optimization_store = Py.Ok tasks
         /\ (tasks <> [] ->
             exists top_type count rest,
               suggestions = most_common_line top_type count :: rest
               /\ (rest = [] \/ rest = [similar_done])
               /\ count = number_with k_task_type top_type tasks
               /\ 1 <= count
               /\ forall task_type,
                    number_with k_task_type task_type tasks <= count).
Proof.
  destruct (_get_suggestions loads_empty Cases.steady_clock "DataEngineer"
              Cases.question Scenarios.optimization_store 0%nat)
    as [[suggestions n']|e] eqn:E; [|vm_compute in E; discriminate].
  exists suggestions, n'. split; [reflexivity|].
  destruct (suggestions_name_the_most_common_type loads_empty _ _ _ _ _ _ _ E)
    as (tasks & H1 & _ & H2).
  exists tasks. split; assumption.
Defined.

Lemma context_always_has_suggestions_witness :
  exists text n',
    get_context loads_empty Cases.steady_clock "DataEngineer" Cases.question
      3 Scenarios.optimization_store 0%nat = Py.Ok (text, n')
    /\ str_in "=== SUGGESTIONS ===" text = true
    /\ text <> no_context.
Proof.
  destruct (get_context loads_empty Cases.steady_clock "DataEngineer"
              Cases.question 3 Scenarios.optimization_store 0%nat)
    as [[text n']|e] eqn:E; [|vm_compute in E; discriminate].
  exists text, n'. split; [reflexivity|].
  exact (context_always_has_suggestions loads_empty _ _ _ _ _ _ _ _ E).
Defined.

Lemma logged_task_is_found_again_witness :
  exists id self',
    log_task dumps_empty (Scenarios.clock 11 30) "DataEngineer" "audit"
      "Audit PostgreSQL production database" (Some "3 slow queries")
      "completed" Py.VNone Scenarios.plain_store = Py.Ok (id, self')
    /\ has_done_before loads_empty (Scenarios.clock 12 0) "DataEngineer"
         ["index"; "DATABASE"] 30 self' = Py.Ok true.
Proof.
  apply (logged_task_is_found_again dumps_empty loads_empty
           (Scenarios.clock 11 30) (Scenarios.clock 12 0) Cases.a_month_before
           "DataEngineer" "audit" "Audit PostgreSQL production database"
           (Some "3 slow queries") "completed" Py.VNone "{}"
           ["index"; "DATABASE"] "DATABASE" 30 Scenarios.plain_store);
    try reflexivity.
  - eexists. reflexivity.
  - intros row [<- | []] _. split; [eexists|]; reflexivity.
  - right. now left.
Defined.

Lemma keywords_are_long_words_of_the_text_witness :
  all_chars is_word_char "optimize" = true
  /\ str_in "optimize" (lower Cases.question) = true
  /\ lower "optimize" = "optimize"
  /\ 4 <= len "optimize"
  /\ ~ In "optimize" stop_words.
Proof.
  apply (keywords_are_long_words_of_the_text Cases.question 4 "optimize").
  unfold _extract_keywords.
  apply elem_of_list_to_set, list_elem_of_In.
  vm_compute. tauto.
Defined.

End TrackerFacts.

(* ================================================================== *)
(** * Theorems: the agents of the portable system *)
(* ================================================================== *)

Module PortableFacts.
Import Battery BatteryConfig Portable.

(** X25: the system starts as many agents as the profile promises.
    On a fresh system [_init_agents] creates the first [agents_actifs]
    agents of the roster, at least the monitor and at most all nine; so
    after [initialize] the number of agents is the [agents_actifs] of the
    configuration of the profile the sensor reading selects. *)
Theorem roster_follows_agents_actifs (now : Z) :
  (forall config,
     keys (agents (_init_agents config (__init__ now)))
     = take (Z.to_nat (Z.max 1 (Z.min 9 (agents_actifs config)))) roster)
  /\ (forall reading,
        Z.of_nat (length (agents (initialize reading (__init__ now))))
        = agents_actifs (configs (get_performance_profile reading))).
Proof.
  split.
  - intros config. unfold _init_agents.
    generalize (monitoring_interval config). intros interval.
    generalize (agents_actifs config). intros n.
    cbn [agents __init__ set_agent].
    repeat match goal with
           | |- context [?k <=? n] => destruct (Z.leb_spec k n)
           end;
      try (exfalso; lia);
      first [ replace (Z.max 1 (Z.min 9 n)) with 1 by lia
            | replace (Z.max 1 (Z.min 9 n)) with 2 by lia
            | replace (Z.max 1 (Z.min 9 n)) with 3 by lia
            | replace (Z.max 1 (Z.min 9 n)) with 4 by lia
            | replace (Z.max 1 (Z.min 9 n)) with 5 by lia
            | replace (Z.max 1 (Z.min 9 n)) with 6 by lia
            | replace (Z.max 1 (Z.min 9 n)) with 7 by lia
            | replace (Z.max 1 (Z.min 9 n)) with 8 by lia
            | replace (Z.max 1 (Z.min 9 n)) with 9 by lia ];
      reflexivity.
  - intros reading. unfold initialize, get_profile_config.
    destruct (get_performance_profile reading); reflexivity.
Qed.

(** ** Heartbeats *)

Lemma check_and_adapt_same_profile (now : Z) (r r' : sensor)
    (self self' : manager) :
  check_and_adapt now r r' self = (false, self') ->
  current_profile self' = current_profile self.
Proof.
  unfold check_and_adapt.
  destruct (now - last_check self <? microseconds (check_interval self)).
  - intros H. now injection H as <-.
  - cbn [current_profile].
    destruct (negb (profile_eqb (get_performance_profile r)
                      (current_profile self))); [discriminate|].
    intros H. now injection H as <-.
Qed.

Lemma initialize_settled (now : Z) (reading : sensor) :
  settled (initialize reading (__init__ now)).
Proof.
  unfold initialize, get_profile_config, settled.
  destruct (get_performance_profile reading);
    do 3 eexists; (split; [reflexivity|]);
    (split; [cbn; intuition discriminate | discriminate]).
Qed.

Lemma stop_others_settled (self : portable) (name : string) (interval : Z)
    (others : agents_dict) :
  ~ In "monitor" (keys others) ->
  let self' :=
    with_agents
      (if profile_eqb (current_profile (battery self)) CRITICAL
       then List.filter (fun '(name0, _) => String.eqb name0 "monitor")
              (("monitor", NetworkMonitorAgent name interval) :: others)
       else ("monitor", NetworkMonitorAgent name interval) :: others)
      self in
  settled self'
  /\ battery self' = battery self
  /\ heartbeat_count self' = heartbeat_count self
  /\ (keys (agents self') = "monitor" :: keys others
      \/ keys (agents self') = ["monitor"]).
Proof.
  intros Hothers.
  destruct (profile_eqb (current_profile (battery self)) CRITICAL) eqn:E.
  - cbn [List.filter]. rewrite String.eqb_refl.
    assert (List.filter (fun '(name0, _) => String.eqb name0 "monitor") others
            = []) as ->.
    { clear -Hothers. induction others as [|[k a] others IH]; [reflexivity|].
      cbn [List.filter]. cbn [keys List.map fst In] in Hothers.
      destruct (String.eqb_spec k "monitor") as [-> | Hne]; [tauto|].
      apply IH. unfold keys. tauto. }
    split.
    { exists name, interval, []. cbn. intuition. }
    cbn. auto.
  - split.
    { exists name, interval, others. cbn [agents with_agents battery].
      split; [reflexivity|]. split; [assumption|].
      intros Hc. rewrite Hc in E. discriminate. }
    cbn. auto.
Qed.

Lemma adapt_settled (self : portable) (name : string) (interval : Z)
    (others : agents_dict) :
  agents self = ("monitor", NetworkMonitorAgent name interval) :: others ->
  ~ In "monitor" (keys others) ->
  exists self',
    _adapt_to_profile self = Py.Ok self'
    /\ settled self'
    /\ battery self' = battery self
    /\ heartbeat_count self' = heartbeat_count self
    /\ (keys (agents self') = keys (agents self)
        \/ keys (agents self') = ["monitor"]).
Proof.
  intros Hagents Hothers.
  unfold _adapt_to_profile. rewrite Hagents.
  cbn [get_agent]. rewrite String.eqb_refl.
  set (new := monitoring_interval (get_profile_config None (battery self))).
  destruct (negb (interval =? new)); cbn [set_agent];
    rewrite ?String.eqb_refl; cbn [mbind Py.result_bind];
    eexists; (split; [reflexivity|]);
    now apply stop_others_settled.
Qed.

Lemma heartbeat_settled (c : call) (self : portable) :
  settled self ->
  exists self',
    heartbeat c self = Py.Ok self'
    /\ settled self'
    /\ heartbeat_count self' = heartbeat_count self + 1
    /\ (keys (agents self') = keys (agents self)
        \/ keys (agents self') = ["monitor"]).
Proof.
  intros Hs. unfold heartbeat.
  destruct (check_and_adapt (at_time c) (reading c) (reading' c) (battery self))
    as [[] m] eqn:E.
  - set (self1 := {| battery := m; agents := agents self;
                     running := running self;
                     heartbeat_count := heartbeat_count self + 1 |}).
    destruct Hs as (name & interval & others & Hagents & Hothers & Hcritical).
    destruct (adapt_settled self1 name interval others Hagents Hothers)
      as (self' & H1 & H2 & H3 & H4 & H5).
    exists self'. auto.
  - eexists. split; [reflexivity|].
    apply check_and_adapt_same_profile in E.
    destruct Hs as (name & interval & others & Hagents & Hothers & Hcritical).
    split.
    { exists name, interval, others. cbn [agents battery].
      rewrite E. auto. }
    cbn. auto.
Qed.

Lemma run_forever_settled (calls : list call) (self : portable) :
  settled self ->
  exists self',
    run_forever calls self = Py.Ok self'
    /\ settled self'
    /\ heartbeat_count self' = heartbeat_count self + Z.of_nat (length calls)
    /\ (keys (agents self') = keys (agents self)
        \/ keys (agents self') = ["monitor"]).
Proof.
  revert self. induction calls as [|c calls IH]; intros self Hs.
  - exists self. cbn. repeat split; auto. lia.
  - destruct (heartbeat_settled c self Hs) as (self1 & H1 & Hs1 & Hc1 & Hk1).
    destruct (IH self1 Hs1) as (self' & H2 & Hs2 & Hc2 & Hk2).
    exists self'. cbn [run_forever]. rewrite H1. cbn [mbind Py.result_bind].
    split; [exact H2|]. split; [exact Hs2|]. split.
    + rewrite Hc2, Hc1. cbn [length]. lia.
    + destruct Hk2 as [Hk2 | Hk2]; [|now right].
      rewrite Hk2. exact Hk1.
Qed.

(** X26: agents stopped for a critical battery never come back.  The
    loop of [run_forever], started on the system [initialize] leaves,
    never raises; the monitor is always there; a turn leaves the agents
    as they were or leaves the monitor alone; and once the profile has
    been CRITICAL at the end of a turn, the monitor is the only agent
    after every later turn, whatever the battery does. *)
Theorem stopped_agents_never_come_back
    (now : Z) (first : sensor) (calls calls' : list call) :
  exists s1 s2,
    run_forever calls (initialize first (__init__ now)) = Py.Ok s1
    /\ run_forever calls' s1 = Py.Ok s2
    /\ In "monitor" (keys (agents s2))
    /\ (keys (agents s2) = keys (agents s1)
        \/ keys (agents s2) = ["monitor"])
    /\ (current_profile (battery s1) = CRITICAL ->
        keys (agents s2) = ["monitor"])
    /\ heartbeat_count s2 = Z.of_nat (length calls + length calls').
Proof.
  destruct (run_forever_settled calls _ (initialize_settled now first))
    as (s1 & H1 & Hs1 & Hc1 & _).
  destruct (run_forever_settled calls' s1 Hs1) as (s2 & H2 & Hs2 & Hc2 & Hk2).
  exists s1, s2. split; [exact H1|]. split; [exact H2|].
  split.
  { destruct Hs2 as (name & interval & others & -> & _). now left. }
  split; [exact Hk2|]. split.
  - intros Hcrit.
    destruct Hs1 as (name & interval & others & Ha & _ & Hcr).
    rewrite (Hcr Hcrit) in Ha.
    destruct Hk2 as [Hk2 | Hk2]; [|exact Hk2].
    rewrite Hk2, Ha. reflexivity.
  - rewrite Hc2, Hc1.
    assert (heartbeat_count (initialize first (__init__ now)) = 0) as ->.
    { unfold initialize, get_profile_config.
      destruct (get_performance_profile first); reflexivity. }
    lia.
Qed.

End PortableFacts.

(* ================================================================== *)
(** * Theorems: the history of consultations *)
(* ================================================================== *)

Module RouterHistoryFacts.
Import Experts Router Memory RouterHistory.

Lemma ensure_initialized_consistent (memory_available : bool) (self : router) :
  consistent self -> consistent (_ensure_initialized memory_available self).
Proof.
  unfold _ensure_initialized. destruct (initialized self); [auto|].
  intros H. exact H.
Qed.

Section HistoryJson.
Variable json_loads : string -> Py.result Py.pyval.

(** X24: the history is kept per agent, not per alias.  Called outside
    a running event loop on a router in the state its operations leave
    it in, [get_history] answers for every name the [if]/[elif] chain of
    [_load_agent] accepts what [recall_consultations] answers for the
    name the agent carries, limit 20: from whichever alias one asks, and
    whether or not an agent is cached, the consultations are those
    stored under the one name of the agent.  A name that is not empty
    and that the chain refuses raises the error of [_load_agent]. *)
Theorem history_is_per_agent_not_per_alias
    (memory_available : bool) (started now : DateTime.datetime)
    (given : string) (days : Z) (store : db) (self : router) :
  consistent self ->
  PyStr.truthy given = true ->
  let answer :=
    get_history json_loads memory_available false started now (Some given)
      days store self in
  (forall cls canonical,
     agent_for (normalize given) = Some (cls, canonical) ->
     fst answer
     = recall_consultations json_loads now (Some canonical) 20 (Some days)
         store)
  /\ (agent_for (normalize given) = None ->
      fst answer = Py.Raise (unknown_agent (normalize given)))
  /\ consistent (snd answer).
Proof.
  intros Hc Hgiven answer. subst answer. unfold get_history. rewrite Hgiven.
  pose proof (ensure_initialized_consistent memory_available self Hc) as Hc'.
  set (self1 := _ensure_initialized memory_available self) in *.
  pose proof (RouterFacts.load_consistent memory_available started given
                self1 Hc') as Hload.
  split; [|split].
  - intros cls canonical Hf.
    destruct (RouterFacts.load_known memory_available started given self1
                cls canonical Hc' Hf) as (a & Ha & _ & Hname & _).
    destruct (_load_agent memory_available false started given self1)
      as [[a'|e] self2]; cbn [fst] in Ha; [|discriminate].
    injection Ha as ->. cbn [fst mbind Py.result_bind]. now rewrite Hname.
  - intros Hf.
    assert (agents self1 !! normalize given = None) as Hk.
    { destruct (agents self1 !! normalize given) as [a|] eqn:E; [|reflexivity].
      destruct Hc' as [Hc1 _]. destruct (Hc1 _ _ E) as [Hf' _]. congruence. }
    rewrite (RouterFacts.load_unknown memory_available started given self1 Hk Hf).
    reflexivity.
  - destruct (_load_agent memory_available false started given self1)
      as [[a'|e] self2]; exact Hload.
Qed.

End HistoryJson.

(** ** Loading from inside the event loop *)

Lemma load_in_loop_raises (memory_available : bool)
    (now : DateTime.datetime) (agent_name : string) (self : router) :
  agents self = ∅ ->
  raises (fst (_load_agent memory_available true now agent_name self))
  /\ agents (snd (_load_agent memory_available true now agent_name self)) = ∅.
Proof.
  intros Hempty. unfold _load_agent. rewrite Hempty, lookup_empty.
  destruct (RouterFacts.ensure_initialized_agents memory_available self)
    as (Ha & _ & _).
  destruct (agent_for (normalize agent_name)) as [[cls given]|];
    cbn [fst snd agents]; rewrite Ha, Hempty;
    (split; [eexists; reflexivity | reflexivity]).
Qed.

Lemma load_all_in_loop (memory_available : bool)
    (requests : list (DateTime.datetime * string))
    (answers : list (Py.result agent)) (self : router) :
  agents self = ∅ -> Forall raises answers ->
  let out :=
    fold_left
      (fun '(answers, self) '(now, agent_name) =>
         let '(answer, self) :=
           _load_agent memory_available true now agent_name self in
         (answers ++ [answer], self))
      requests (answers, self) in
  Forall raises (fst out)
  /\ length (fst out) = (length answers + length requests)%nat
  /\ agents (snd out) = ∅.
Proof.
  revert answers self.
  induction requests as [|[now agent_name] requests IH];
    intros answers self Hempty Hanswers.
  - cbn. repeat split; auto.
  - cbn [fold_left].
    destruct (load_in_loop_raises memory_available now agent_name self Hempty)
      as [Hr He].
    destruct (_load_agent memory_available true now agent_name self)
      as [answer self'].
    cbn [fst snd] in Hr, He.
    destruct (IH (answers ++ [answer]) self' He) as (H1 & H2 & H3).
    { apply Forall_app. split; [assumption | now constructor]. }
    split; [exact H1|]. split; [|exact H3].
    rewrite H2, List.length_app. cbn [length]. lia.
Qed.

(** X27: [consult] cannot load an agent.  A load made from inside the
    running event loop, where [consult_async] makes it, never caches an
    agent: on a router whose cache is empty every such load raises,
    whatever the name, and the cache is empty after any number of
    them. *)
Theorem consult_never_loads_an_agent (memory_available : bool)
    (requests : list (DateTime.datetime * string)) (self : router) :
  agents self = ∅ ->
  let out := load_all memory_available true requests self in
  Forall raises (fst out)
  /\ length (fst out) = length requests
  /\ agents (snd out) = ∅.
Proof.
  intros Hempty out. subst out. unfold load_all.
  destruct (load_all_in_loop memory_available requests [] self Hempty)
    as (H1 & H2 & H3); [constructor|].
  split; [exact H1|]. split; [exact H2 | exact H3].
Qed.

Lemma consult_never_loads_an_agent_witness :
  let out :=
    load_all false true
      [ (Scenarios.noon, "dataengineer"); (Scenarios.noon, "dataengineer") ]
      Router.__init__ in
  Forall raises (fst out)
  /\ length (fst out) = 2%nat
  /\ agents (snd out) = ∅.
Proof.
  apply (consult_never_loads_an_agent false
           [ (Scenarios.noon, "dataengineer"); (Scenarios.noon, "dataengineer") ]
           Router.__init__).
  reflexivity.
Defined.

Lemma history_is_per_agent_not_per_alias_witness :
  fst (get_history loads_empty false false Scenarios.noon
         (Scenarios.clock 12 0) (Some " Data ") 7 Scenarios.two_agents
         Router.__init__)
  = recall_consultations loads_empty (Scenarios.clock 12 0)
      (Some "DataEngineer") 20 (Some 7) Scenarios.two_agents.
Proof.
  destruct (history_is_per_agent_not_per_alias loads_empty false
              Scenarios.noon (Scenarios.clock 12 0) " Data " 7
              Scenarios.two_agents Router.__init__
              RouterFacts.init_consistent eq_refl) as (H & _).
  exact (H DataEngineerAgent "DataEngineer" eq_refl).
Defined.

End RouterHistoryFacts.
